(** * ATLAS PWA: client controller (app.js) and offline cache worker (sw.js)

    A shallow embedding of the two scripts of the repository.

    - JavaScript strings are Rocq [string]s, read as UTF-8 byte sequences.
    - Module-level variables and the DOM nodes the handlers touch are the
      fields of an explicit state record; every handler is a function from
      state to state.
    - The outside world (the webhook backend, [Math.random], the clock, the
      network seen by the worker) is passed in as an argument.
    - A promise is modelled by the value it settles to, [Fulfilled] or
      [Rejected]; [then_] and [catch_] are the two combinators the worker
      uses. *)

From Stdlib Require Import ZArith QArith Qround List String Ascii Bool Lia.
From Stdlib Require Import Floats.SpecFloat Numbers.DecimalString.
From stdpp Require Import base option gmap strings.
Import ListNotations.

#[local] Open Scope string_scope.
#[local] Open Scope Z_scope.

(* ===================================================================== *)
(** ** JavaScript strings *)
(* ===================================================================== *)

Module JsString.

(** [s.includes(needle)] *)
Fixpoint includes (s needle : string) : bool :=
  if String.prefix needle s then true
  else match s with
       | EmptyString => false
       | String _ s' => includes s' needle
       end.

(** [s.split(sep)] for a one-character separator: never an empty array. *)
Fixpoint split (sep : ascii) (s : string) : list string :=
  match s with
  | EmptyString => [EmptyString]
  | String c s' =>
      if Ascii.eqb c sep then EmptyString :: split sep s'
      else match split sep s' with
           | [] => [String c EmptyString]
           | h :: t => String c h :: t
           end
  end.

(** [arr.pop()]: the last element, [undefined] (here [None]) when empty. *)
Fixpoint pop (l : list string) : option string :=
  match l with
  | [] => None
  | [x] => Some x
  | _ :: t => pop t
  end.

Definition lowerChar (c : ascii) : ascii :=
  let n := N_of_ascii c in
  if ((65 <=? n) && (n <=? 90))%N then ascii_of_N (n + 32) else c.

(** [s.toLowerCase()].  Letters A-Z are mapped; the bytes of a multi-byte
    UTF-8 character are all above 127 and are left alone. *)
Fixpoint toLowerCase (s : string) : string :=
  match s with
  | EmptyString => EmptyString
  | String c s' => String (lowerChar c) (toLowerCase s')
  end.

Definition bytes (l : list N) : list ascii := List.map ascii_of_N l.

(** The code points [String.prototype.trim] removes (WhiteSpace and
    LineTerminator of ECMA-262), in their UTF-8 encoding. *)
Definition whiteSpace : list (list ascii) :=
  List.map bytes
    [ [9]; [10]; [11]; [12]; [13]; [32];
      [194; 160];                                   (* U+00A0 *)
      [225; 154; 128];                              (* U+1680 *)
      [226; 128; 128]; [226; 128; 129]; [226; 128; 130]; [226; 128; 131];
      [226; 128; 132]; [226; 128; 133]; [226; 128; 134]; [226; 128; 135];
      [226; 128; 136]; [226; 128; 137]; [226; 128; 138];   (* U+2000-200A *)
      [226; 128; 168]; [226; 128; 169];             (* U+2028, U+2029 *)
      [226; 128; 175];                              (* U+202F *)
      [226; 129; 159];                              (* U+205F *)
      [227; 128; 128];                              (* U+3000 *)
      [239; 187; 191] ]%N.                          (* U+FEFF *)

Fixpoint stripPrefix (p l : list ascii) : option (list ascii) :=
  match p, l with
  | [], _ => Some l
  | a :: p', b :: l' => if Ascii.eqb a b then stripPrefix p' l' else None
  | _ :: _, [] => None
  end.

Fixpoint stripAny (ps : list (list ascii)) (l : list ascii)
  : option (list ascii) :=
  match ps with
  | [] => None
  | p :: ps' => match stripPrefix p l with
                | Some r => Some r
                | None => stripAny ps' l
                end
  end.

Fixpoint dropWhile (ps : list (list ascii)) (fuel : nat) (l : list ascii)
  : list ascii :=
  match fuel with
  | O => l
  | S fuel' => match stripAny ps l with
               | Some r => dropWhile ps fuel' r
               | None => l
               end
  end.

Definition trimStart (l : list ascii) : list ascii :=
  dropWhile whiteSpace (List.length l) l.

Definition trimEnd (l : list ascii) : list ascii :=
  List.rev (dropWhile (List.map (@List.rev ascii) whiteSpace)
                      (List.length l) (List.rev l)).

(** [s.trim()] *)
Definition trim (s : string) : string :=
  string_of_list_ascii (trimEnd (trimStart (list_ascii_of_string s))).

(** [n.toString(10)] for an integer. *)
Definition ofZ (z : Z) : string := NilZero.string_of_int (Z.to_int z).

Definition hexDigit (d : Z) : string :=
  match d with
  | 0 => "0" | 1 => "1" | 2 => "2" | 3 => "3" | 4 => "4" | 5 => "5"
  | 6 => "6" | 7 => "7" | 8 => "8" | 9 => "9" | 10 => "a" | 11 => "b"
  | 12 => "c" | 13 => "d" | 14 => "e" | _ => "f"
  end.

Fixpoint hexDigits (fuel : nat) (z : Z) (acc : string) : string :=
  match fuel with
  | O => acc
  | S fuel' =>
      let acc' := hexDigit (z mod 16) ++ acc in
      if z <? 16 then acc' else hexDigits fuel' (z / 16) acc'
  end.

(** [n.toString(16)] for an integer. *)
Definition toString16 (z : Z) : string :=
  if z <? 0 then "-" ++ hexDigits (S (Z.to_nat (Z.log2 (- z)))) (- z) ""
  else hexDigits (S (Z.to_nat (Z.log2 z))) z "".

End JsString.

(* ===================================================================== *)
(** ** JavaScript values *)
(* ===================================================================== *)

Module Js.

#[local] Set Warnings "-register-all".

(** A value as [JSON.parse] or a property read can produce it.  Numbers are
    IEEE-754 doubles ([spec_float]); an object is its list of own
    properties (keys distinct, as after parsing). *)
Inductive value : Type :=
  | Undefined
  | Null
  | Bool (b : bool)
  | Num (x : spec_float)
  | Str (s : string)
  | Arr (items : list value)
  | Obj (props : list (string * value)).

(** ToBoolean. *)
Definition truthy (v : value) : bool :=
  match v with
  | Undefined | Null => false
  | Bool b => b
  | Num (S754_zero _) | Num S754_nan => false
  | Num _ => true
  | Str s => negb (String.eqb s "")
  | Arr _ | Obj _ => true
  end.

(** [a || b] *)
Definition or (a b : value) : value := if truthy a then a else b.

(** An [Error] object, as far as the handlers look at it: [error.message]. *)
Record error : Type := Error { message : string }.

Fixpoint lookup (k : string) (props : list (string * value)) : value :=
  match props with
  | [] => Undefined
  | (k', v) :: rest => if String.eqb k k' then v else lookup k rest
  end.

(** [v.k] for a key [k] that no prototype defines (the handlers read
    [message] and [text] only): a [TypeError] on [null] and [undefined]
    (with the message text V8 gives it), an own property of an object,
    [undefined] elsewhere. *)
Definition get (v : value) (k : string) : error + value :=
  match v with
  | Undefined =>
      inl (Error ("Cannot read properties of undefined (reading '" ++ k ++ "')"))
  | Null =>
      inl (Error ("Cannot read properties of null (reading '" ++ k ++ "')"))
  | Obj props => inr (lookup k props)
  | _ => inr Undefined
  end.

(** [arr.push(x)], and [node.appendChild(x)] on a list of children. *)
Definition push {A : Type} (l : list A) (x : A) : list A := (l ++ [x])%list.

(** Truthiness of an object reference that may be [null]. *)
Definition present {A : Type} (o : option A) : bool :=
  match o with Some _ => true | None => false end.

(** What a promise settles to. *)
Inductive settled (A : Type) : Type :=
  | Fulfilled (a : A)
  | Rejected (e : error).
Arguments Fulfilled {A} a.
Arguments Rejected {A} e.

End Js.

(* ===================================================================== *)
(** ** app.js: the client controller *)
(* ===================================================================== *)

Module App.

(** *** Configuration *)

Record SupportedFileTypes : Type := {
  documents : list string;
  images : list string;
  code : list string
}.

Record Config : Type := {
  apiEndpoint : string;
  correctPIN : string;
  maxFileSize : Z;
  supportedFileTypes : SupportedFileTypes
}.

Definition CONFIG : Config := {|
  apiEndpoint := "https://n8n.srv1194059.hstgr.cloud/webhook/atlas-pwa";
  correctPIN := "135011633";
  maxFileSize := 10 * 1024 * 1024;
  supportedFileTypes := {|
    documents := [".pdf"; ".docx"; ".txt"; ".md"];
    images := [".jpg"; ".jpeg"; ".png"];
    code := [".js"; ".py"; ".java"; ".cpp"; ".c"; ".h"; ".cs"; ".html";
             ".css"; ".json"; ".xml"]
  |}
|}.

(** *** Data *)

(** A [File] of the file input: [name], [size] (a non-negative integer)
    and [type]. *)
Record File : Type := {
  name : string;
  size : Z;
  type : string
}.

Inductive Role : Type := user | assistant.

(** A message object.  [file] is [null] or absent as [None]; an absent
    [isError] is [false]. *)
Record Message : Type := {
  role : Role;
  content : Js.value;
  file : option File;
  timestamp : Z;
  isError : bool
}.

(** The children of [chatContainer]. *)
Inductive ChatNode : Type :=
  | WelcomeNode
  | MessageNode (m : Message)
  | LoadingNode.

(** The body handed to [fetch]. *)
Inductive Body : Type :=
  | JsonBody (message session_id : string)
  | FormBody (message session_id : string) (file : File).

Record Request : Type := {
  req_url : string;
  req_method : string;
  req_headers : list (string * string);
  req_body : Body
}.

(** What [fetch] settles to: a rejection, or a response with its status
    line and what [response.json()] settles to. *)
Record Response : Type := {
  status : Z;
  statusText : string;
  json : Js.settled Js.value
}.

Definition ok (r : Response) : bool :=
  (200 <=? status r) && (status r <=? 299).

Abbreviation Backend := (Request -> Js.settled Response).

(** Module variables, the DOM the handlers touch, and what left the page. *)
Record State : Type := {
  currentFile : option File;
  messageHistory : list Message;
  sessionId : string;
  messageInput_value : string;
  fileInput_value : string;
  fileName_text : string;
  filePreview_hidden : bool;
  chatContainer : list ChatNode;
  sendButton_disabled : bool;
  fileButton_disabled : bool;
  messageInput_disabled : bool;
  statusIndicator_hidden : bool;
  messageInput_focused : bool;
  alerts : list string;
  sent : list Request
}.

(** Field updates. *)
Definition set_currentFile (x : option File) (s : State) : State :=
  {| currentFile := x; messageHistory := messageHistory s;
     sessionId := sessionId s; messageInput_value := messageInput_value s;
     fileInput_value := fileInput_value s; fileName_text := fileName_text s;
     filePreview_hidden := filePreview_hidden s;
     chatContainer := chatContainer s;
     sendButton_disabled := sendButton_disabled s;
     fileButton_disabled := fileButton_disabled s;
     messageInput_disabled := messageInput_disabled s;
     statusIndicator_hidden := statusIndicator_hidden s;
     messageInput_focused := messageInput_focused s; alerts := alerts s;
     sent := sent s |}.

Definition set_messageHistory (x : list Message) (s : State) : State :=
  {| currentFile := currentFile s; messageHistory := x;
     sessionId := sessionId s; messageInput_value := messageInput_value s;
     fileInput_value := fileInput_value s; fileName_text := fileName_text s;
     filePreview_hidden := filePreview_hidden s;
     chatContainer := chatContainer s;
     sendButton_disabled := sendButton_disabled s;
     fileButton_disabled := fileButton_disabled s;
     messageInput_disabled := messageInput_disabled s;
     statusIndicator_hidden := statusIndicator_hidden s;
     messageInput_focused := messageInput_focused s; alerts := alerts s;
     sent := sent s |}.

Definition set_sessionId (x : string) (s : State) : State :=
  {| currentFile := currentFile s; messageHistory := messageHistory s;
     sessionId := x; messageInput_value := messageInput_value s;
     fileInput_value := fileInput_value s; fileName_text := fileName_text s;
     filePreview_hidden := filePreview_hidden s;
     chatContainer := chatContainer s;
     sendButton_disabled := sendButton_disabled s;
     fileButton_disabled := fileButton_disabled s;
     messageInput_disabled := messageInput_disabled s;
     statusIndicator_hidden := statusIndicator_hidden s;
     messageInput_focused := messageInput_focused s; alerts := alerts s;
     sent := sent s |}.

Definition set_messageInput_value (x : string) (s : State) : State :=
  {| currentFile := currentFile s; messageHistory := messageHistory s;
     sessionId := sessionId s; messageInput_value := x;
     fileInput_value := fileInput_value s; fileName_text := fileName_text s;
     filePreview_hidden := filePreview_hidden s;
     chatContainer := chatContainer s;
     sendButton_disabled := sendButton_disabled s;
     fileButton_disabled := fileButton_disabled s;
     messageInput_disabled := messageInput_disabled s;
     statusIndicator_hidden := statusIndicator_hidden s;
     messageInput_focused := messageInput_focused s; alerts := alerts s;
     sent := sent s |}.

Definition set_fileInput_value (x : string) (s : State) : State :=
  {| currentFile := currentFile s; messageHistory := messageHistory s;
     sessionId := sessionId s; messageInput_value := messageInput_value s;
     fileInput_value := x; fileName_text := fileName_text s;
     filePreview_hidden := filePreview_hidden s;
     chatContainer := chatContainer s;
     sendButton_disabled := sendButton_disabled s;
     fileButton_disabled := fileButton_disabled s;
     messageInput_disabled := messageInput_disabled s;
     statusIndicator_hidden := statusIndicator_hidden s;
     messageInput_focused := messageInput_focused s; alerts := alerts s;
     sent := sent s |}.

Definition set_fileName_text (x : string) (s : State) : State :=
  {| currentFile := currentFile s; messageHistory := messageHistory s;
     sessionId := sessionId s; messageInput_value := messageInput_value s;
     fileInput_value := fileInput_value s; fileName_text := x;
     filePreview_hidden := filePreview_hidden s;
     chatContainer := chatContainer s;
     sendButton_disabled := sendButton_disabled s;
     fileButton_disabled := fileButton_disabled s;
     messageInput_disabled := messageInput_disabled s;
     statusIndicator_hidden := statusIndicator_hidden s;
     messageInput_focused := messageInput_focused s; alerts := alerts s;
     sent := sent s |}.

Definition set_filePreview_hidden (x : bool) (s : State) : State :=
  {| currentFile := currentFile s; messageHistory := messageHistory s;
     sessionId := sessionId s; messageInput_value := messageInput_value s;
     fileInput_value := fileInput_value s; fileName_text := fileName_text s;
     filePreview_hidden := x; chatContainer := chatContainer s;
     sendButton_disabled := sendButton_disabled s;
     fileButton_disabled := fileButton_disabled s;
     messageInput_disabled := messageInput_disabled s;
     statusIndicator_hidden := statusIndicator_hidden s;
     messageInput_focused := messageInput_focused s; alerts := alerts s;
     sent := sent s |}.

Definition set_chatContainer (x : list ChatNode) (s : State) : State :=
  {| currentFile := currentFile s; messageHistory := messageHistory s;
     sessionId := sessionId s; messageInput_value := messageInput_value s;
     fileInput_value := fileInput_value s; fileName_text := fileName_text s;
     filePreview_hidden := filePreview_hidden s; chatContainer := x;
     sendButton_disabled := sendButton_disabled s;
     fileButton_disabled := fileButton_disabled s;
     messageInput_disabled := messageInput_disabled s;
     statusIndicator_hidden := statusIndicator_hidden s;
     messageInput_focused := messageInput_focused s; alerts := alerts s;
     sent := sent s |}.

Definition set_sendButton_disabled (x : bool) (s : State) : State :=
  {| currentFile := currentFile s; messageHistory := messageHistory s;
     sessionId := sessionId s; messageInput_value := messageInput_value s;
     fileInput_value := fileInput_value s; fileName_text := fileName_text s;
     filePreview_hidden := filePreview_hidden s;
     chatContainer := chatContainer s; sendButton_disabled := x;
     fileButton_disabled := fileButton_disabled s;
     messageInput_disabled := messageInput_disabled s;
     statusIndicator_hidden := statusIndicator_hidden s;
     messageInput_focused := messageInput_focused s; alerts := alerts s;
     sent := sent s |}.

Definition set_fileButton_disabled (x : bool) (s : State) : State :=
  {| currentFile := currentFile s; messageHistory := messageHistory s;
     sessionId := sessionId s; messageInput_value := messageInput_value s;
     fileInput_value := fileInput_value s; fileName_text := fileName_text s;
     filePreview_hidden := filePreview_hidden s;
     chatContainer := chatContainer s;
     sendButton_disabled := sendButton_disabled s; fileButton_disabled := x;
     messageInput_disabled := messageInput_disabled s;
     statusIndicator_hidden := statusIndicator_hidden s;
     messageInput_focused := messageInput_focused s; alerts := alerts s;
     sent := sent s |}.

Definition set_messageInput_disabled (x : bool) (s : State) : State :=
  {| currentFile := currentFile s; messageHistory := messageHistory s;
     sessionId := sessionId s; messageInput_value := messageInput_value s;
     fileInput_value := fileInput_value s; fileName_text := fileName_text s;
     filePreview_hidden := filePreview_hidden s;
     chatContainer := chatContainer s;
     sendButton_disabled := sendButton_disabled s;
     fileButton_disabled := fileButton_disabled s;
     messageInput_disabled := x;
     statusIndicator_hidden := statusIndicator_hidden s;
     messageInput_focused := messageInput_focused s; alerts := alerts s;
     sent := sent s |}.

Definition set_statusIndicator_hidden (x : bool) (s : State) : State :=
  {| currentFile := currentFile s; messageHistory := messageHistory s;
     sessionId := sessionId s; messageInput_value := messageInput_value s;
     fileInput_value := fileInput_value s; fileName_text := fileName_text s;
     filePreview_hidden := filePreview_hidden s;
     chatContainer := chatContainer s;
     sendButton_disabled := sendButton_disabled s;
     fileButton_disabled := fileButton_disabled s;
     messageInput_disabled := messageInput_disabled s;
     statusIndicator_hidden := x;
     messageInput_focused := messageInput_focused s; alerts := alerts s;
     sent := sent s |}.

Definition set_messageInput_focused (x : bool) (s : State) : State :=
  {| currentFile := currentFile s; messageHistory := messageHistory s;
     sessionId := sessionId s; messageInput_value := messageInput_value s;
     fileInput_value := fileInput_value s; fileName_text := fileName_text s;
     filePreview_hidden := filePreview_hidden s;
     chatContainer := chatContainer s;
     sendButton_disabled := sendButton_disabled s;
     fileButton_disabled := fileButton_disabled s;
     messageInput_disabled := messageInput_disabled s;
     statusIndicator_hidden := statusIndicator_hidden s;
     messageInput_focused := x; alerts := alerts s; sent := sent s |}.

Definition set_alerts (x : list string) (s : State) : State :=
  {| currentFile := currentFile s; messageHistory := messageHistory s;
     sessionId := sessionId s; messageInput_value := messageInput_value s;
     fileInput_value := fileInput_value s; fileName_text := fileName_text s;
     filePreview_hidden := filePreview_hidden s;
     chatContainer := chatContainer s;
     sendButton_disabled := sendButton_disabled s;
     fileButton_disabled := fileButton_disabled s;
     messageInput_disabled := messageInput_disabled s;
     statusIndicator_hidden := statusIndicator_hidden s;
     messageInput_focused := messageInput_focused s; alerts := x;
     sent := sent s |}.

Definition set_sent (x : list Request) (s : State) : State :=
  {| currentFile := currentFile s; messageHistory := messageHistory s;
     sessionId := sessionId s; messageInput_value := messageInput_value s;
     fileInput_value := fileInput_value s; fileName_text := fileName_text s;
     filePreview_hidden := filePreview_hidden s;
     chatContainer := chatContainer s;
     sendButton_disabled := sendButton_disabled s;
     fileButton_disabled := fileButton_disabled s;
     messageInput_disabled := messageInput_disabled s;
     statusIndicator_hidden := statusIndicator_hidden s;
     messageInput_focused := messageInput_focused s; alerts := alerts s;
     sent := x |}.

(** *** Formatting helpers *)

Definition sizes : list string := ["Bytes"; "KB"; "MB"; "GB"].

(** [sizes[i]] inside a string concatenation: ["undefined"] out of range. *)
Definition sizeUnit (i : Z) : string :=
  if i <? 0 then "undefined"
  else match nth_error sizes (Z.to_nat i) with
       | Some u => u
       | None => "undefined"
       end.

Fixpoint floorLogFuel (fuel : nat) (k x : Z) : Z :=
  match fuel with
  | O => 0
  | S fuel' => if x <? k then 0 else 1 + floorLogFuel fuel' k (x / k)
  end.

(** [Math.floor(Math.log(x) / Math.log(k))] for integers [x >= 1] and
    [k >= 2], computed exactly as the largest [i] with [k^i <= x]; the
    rounding of the two double-precision logarithms is not modelled. *)
Definition floorLog (k x : Z) : Z := floorLogFuel (Z.to_nat (Z.log2 x)) k x.

(** The decimal rendering JavaScript gives the double nearest to [n/100],
    for [0 <= n]: at most two decimals, no trailing zero. *)
Definition hundredths (n : Z) : string :=
  let q := n / 100 in
  let r := n mod 100 in
  if r =? 0 then JsString.ofZ q
  else if r mod 10 =? 0 then JsString.ofZ q ++ "." ++ JsString.ofZ (r / 10)
  else if r <? 10 then JsString.ofZ q ++ ".0" ++ JsString.ofZ r
  else JsString.ofZ q ++ "." ++ JsString.ofZ r.

(** [formatFileSize(bytes)] on an integer.  [Math.round(x * 100)] rounds
    half up, so it is [floor((200 * bytes + k^i) / (2 * k^i))]; a negative
    argument makes every intermediate result [NaN]. *)
Definition formatFileSize (bytes : Z) : string :=
  if bytes =? 0 then "0 Bytes"
  else if bytes <? 0 then "NaN undefined"
  else
    let k := 1024 in
    let i := floorLog k bytes in
    hundredths ((200 * bytes + k ^ i) / (2 * k ^ i)) ++ " " ++ sizeUnit i.

(** *** Chat rendering *)

Definition isWelcome (n : ChatNode) : bool :=
  match n with WelcomeNode => true | _ => false end.

Definition isLoading (n : ChatNode) : bool :=
  match n with LoadingNode => true | _ => false end.

(** [node.remove()] on the first node selected by [p], if there is one. *)
Fixpoint removeFirst (p : ChatNode -> bool) (l : list ChatNode)
  : list ChatNode :=
  match l with
  | [] => []
  | n :: l' => if p n then l' else n :: removeFirst p l'
  end.

Definition addMessageToChat (m : Message) (s : State) : State :=
  set_chatContainer
    (Js.push (removeFirst isWelcome (chatContainer s)) (MessageNode m)) s.

Definition clearFile (s : State) : State :=
  set_fileInput_value ""
    (set_fileName_text ""
       (set_filePreview_hidden true
          (set_currentFile None s))).

Definition setLoading (loading : bool) (s : State) : State :=
  let s1 := set_messageInput_disabled loading
              (set_fileButton_disabled loading
                 (set_sendButton_disabled loading s)) in
  if loading then
    set_chatContainer (Js.push (chatContainer s1) LoadingNode)
      (set_statusIndicator_hidden false s1)
  else
    set_chatContainer (removeFirst isLoading (chatContainer s1))
      (set_statusIndicator_hidden true s1).

(** *** Attachment validation *)

Definition allSupportedTypes : list string :=
  (documents (supportedFileTypes CONFIG)
   ++ images (supportedFileTypes CONFIG)
   ++ code (supportedFileTypes CONFIG))%list.

(** [arr.includes(x)] on strings. *)
Definition arrayIncludes (l : list string) (x : string) : bool :=
  existsb (String.eqb x) l.

(** [arr.join(sep)] *)
Fixpoint join (sep : string) (l : list string) : string :=
  match l with
  | [] => ""
  | [x] => x
  | x :: l' => x ++ sep ++ join sep l'
  end.

Definition nl : string := String (ascii_of_N 10) "".

(** ['.' + file.name.split('.').pop().toLowerCase()]; [None] stands for the
    [TypeError] of calling a method on [undefined]. *)
Definition fileExt (fname : string) : option string :=
  match JsString.pop (JsString.split "." fname) with
  | Some last => Some ("." ++ JsString.toLowerCase last)
  | None => None
  end.

(** [handleFileSelect(e)], with [e.target.files[0]] as [picked] and
    [e.target] the file input. *)
Definition handleFileSelect (picked : option File) (s : State) : State :=
  match picked with
  | None => s
  | Some f =>
      if size f >? maxFileSize CONFIG then
        set_fileInput_value ""
          (set_alerts
             (Js.push (alerts s)
                ("File too large! Maximum size is "
                 ++ formatFileSize (maxFileSize CONFIG))) s)
      else
        match fileExt (name f) with
        | None => s
        | Some ext =>
            if negb (arrayIncludes allSupportedTypes ext) then
              set_fileInput_value ""
                (set_alerts
                   (Js.push (alerts s)
                      ("Unsupported file type: " ++ ext ++ nl ++ nl
                       ++ "Supported types:" ++ nl
                       ++ join ", " allSupportedTypes)) s)
            else
              set_fileInput_value ""
                (set_filePreview_hidden false
                   (set_fileName_text
                      (name f ++ " (" ++ formatFileSize (size f) ++ ")")
                      (set_currentFile (Some f) s)))
        end
  end.

(** *** Submit *)

(** [sendToAPI(message, file)]: the request is recorded in [sent]. *)
Definition sendToAPI (backend : Backend) (msg : string) (f : option File)
    (s : State) : Js.settled Js.value * State :=
  let '(headers, body) :=
    match f with
    | Some f' => ([], FormBody msg (sessionId s) f')
    | None => ([("Content-Type", "application/json")],
               JsonBody msg (sessionId s))
    end in
  let req := {| req_url := apiEndpoint CONFIG; req_method := "POST";
                req_headers := headers; req_body := body |} in
  let s' := set_sent (Js.push (sent s) req) s in
  match backend req with
  | Js.Rejected e => (Js.Rejected e, s')
  | Js.Fulfilled response =>
      if negb (ok response) then
        (Js.Rejected
           (Js.Error ("API returned " ++ JsString.ofZ (status response)
                      ++ ": " ++ statusText response)), s')
      else (json response, s')
  end.

(** [response.message || response.text || 'I received your message.'] *)
Definition replyContent (response : Js.value) : Js.error + Js.value :=
  match Js.get response "message" with
  | inl e => inl e
  | inr m =>
      if Js.truthy m then inr m
      else match Js.get response "text" with
           | inl e => inl e
           | inr t => inr (Js.or t (Js.Str "I received your message."))
           end
  end.

(** [`❌ Error: ${error.message || 'Failed to send message. ...'}`] *)
Definition errorContent (e : Js.error) : string :=
  "❌ Error: "
  ++ (if String.eqb (Js.message e) "" then
        "Failed to send message. Please try again."
      else Js.message e).

(** [handleSubmit] up to the [await]: [None] is the early [return]. *)
Definition handleSubmit_begin (now : Z) (s : State)
  : option (string * option File * State) :=
  let msg := JsString.trim (messageInput_value s) in
  if String.eqb msg "" && negb (Js.present (currentFile s)) then None
  else
    let s1 := setLoading true s in
    let userMessage := {| role := user; content := Js.Str msg;
                          file := currentFile s1; timestamp := now;
                          isError := false |} in
    let s2 := addMessageToChat userMessage s1 in
    let s3 := set_messageHistory (Js.push (messageHistory s2) userMessage) s2 in
    let s4 := set_messageInput_value "" s3 in
    let fileToSend := currentFile s4 in
    let s5 := clearFile s4 in
    Some (msg, fileToSend, s5).

(** [handleSubmit] from the settled [sendToAPI] on: the rest of the [try]
    block, the [catch], the [finally]. *)
Definition handleSubmit_resume (now : Z) (result : Js.settled Js.value)
    (s : State) : State :=
  let attempt :=
    match result with
    | Js.Rejected e => inl e
    | Js.Fulfilled response => replyContent response
    end in
  let s1 :=
    match attempt with
    | inr c =>
        let assistantMessage := {| role := assistant; content := c;
                                   file := None; timestamp := now;
                                   isError := false |} in
        let s' := addMessageToChat assistantMessage s in
        set_messageHistory (Js.push (messageHistory s') assistantMessage) s'
    | inl e =>
        let errorMessage := {| role := assistant;
                               content := Js.Str (errorContent e);
                               file := None; timestamp := now;
                               isError := true |} in
        addMessageToChat errorMessage s
    end in
  set_messageInput_focused true (setLoading false s1).

(** One whole submit, nothing else running during the [await]. *)
Definition handleSubmit (backend : Backend) (t0 t1 : Z) (s : State) : State :=
  match handleSubmit_begin t0 s with
  | None => s
  | Some (msg, fileToSend, s1) =>
      let '(result, s2) := sendToAPI backend msg fileToSend s1 in
      handleSubmit_resume t1 result s2
  end.

(** *** Session identifier *)

Abbreviation Storage := (gmap string string).

(** [x | 0] on an integer-valued [x]: ToInt32. *)
Definition toInt32 (z : Z) : Z := (z + 2 ^ 31) mod 2 ^ 32 - 2 ^ 31.

(** Truncation toward zero. *)
Definition truncate (q : Q) : Z :=
  if Qle_bool 0 q then Qfloor q else Qceiling q.

(** The callback of [replace]: [u] is what [Math.random()] returned. *)
Definition uuidDigit (u : Q) (c : ascii) : string :=
  let r := toInt32 (truncate (u * 16)) in
  let v := if Ascii.eqb c "x" then r else Z.lor (Z.land r 3) 8 in
  JsString.toString16 v.

(** [template.replace(/[xy]/g, callback)]; the callback's [k]-th call draws
    [rand k]. *)
Fixpoint replaceXY (rand : nat -> Q) (k : nat) (template : string) : string :=
  match template with
  | EmptyString => EmptyString
  | String c rest =>
      if Ascii.eqb c "x" || Ascii.eqb c "y" then
        uuidDigit (rand k) c ++ replaceXY rand (S k) rest
      else String c (replaceXY rand k rest)
  end.

Definition uuidTemplate : string := "xxxxxxxx-xxxx-4xxx-yxxx-xxxxxxxxxxxx".

(** [getOrCreateSessionId()] over [localStorage]; a stored empty string is
    falsy, like [null]. *)
Definition getOrCreateSessionId (rand : nat -> Q) (localStorage : Storage)
  : string * Storage :=
  match localStorage !! "atlas_session_id" with
  | Some stored =>
      if String.eqb stored "" then
        let fresh := replaceXY rand 0 uuidTemplate in
        (fresh, <["atlas_session_id" := fresh]> localStorage)
      else (stored, localStorage)
  | None =>
      let fresh := replaceXY rand 0 uuidTemplate in
      (fresh, <["atlas_session_id" := fresh]> localStorage)
  end.

(** The UUID version 4 pattern
    [[0-9a-f]{8}-[0-9a-f]{4}-4[0-9a-f]{3}-[89ab][0-9a-f]{3}-[0-9a-f]{12}]. *)
Inductive CharClass : Type := Hex | Dash | Four | Variant.

Definition inClass (c : ascii) (k : CharClass) : bool :=
  let n := N_of_ascii c in
  match k with
  | Hex => ((48 <=? n) && (n <=? 57) || (97 <=? n) && (n <=? 102))%N
  | Dash => (n =? 45)%N
  | Four => (n =? 52)%N
  | Variant => ((n =? 56) || (n =? 57) || (n =? 97) || (n =? 98))%N
  end.

Definition uuidV4Pattern : list CharClass :=
  (repeat Hex 8 ++ [Dash] ++ repeat Hex 4 ++ [Dash; Four] ++ repeat Hex 3
   ++ [Dash; Variant] ++ repeat Hex 3 ++ [Dash] ++ repeat Hex 12)%list.

Fixpoint matches (p : list CharClass) (s : string) : bool :=
  match p, s with
  | [], EmptyString => true
  | k :: p', String c s' => inClass c k && matches p' s'
  | _, _ => false
  end.

Definition isUuidV4 (s : string) : bool := matches uuidV4Pattern s.

End App.

(* ===================================================================== *)
(** ** sw.js: the offline cache worker *)
(* ===================================================================== *)

Module Worker.

Record Request : Type := {
  method : string;
  url : string;
  destination : string
}.

Record Response : Type := {
  status : Z;
  body : string
}.

(** A cache maps request URLs to responses; cache storage maps names to
    caches.  Both keep insertion order, which [caches.match] follows.
    Cache matching ignores the fragment of a URL, of the request and of
    the stored entry alike, and nothing in the worker lists the keys of a
    cache: a cache is represented with the fragments of its keys removed,
    which is how [cache_put] and [cache_addAll] write them (see
    [absolute]). *)
Abbreviation Cache := (list (string * Response)).
Abbreviation CacheStorage := (list (string * Cache)).

(** What a network fetch of a URL settles to. *)
Abbreviation Network := (string -> Js.settled Response).

(** A cache write that was started and that nobody waits for:
    [caches.open(name).then(cache => cache.put(request, response))]. *)
Record Write : Type := {
  write_cache : string;
  write_url : string;
  write_response : Response
}.

Record State : Type := {
  origin : string;
  caches : CacheStorage;
  console : list string;
  fetched : list string;
  skippedWaiting : bool;
  claimedClients : bool;
  replies : list string;
  pending : list Write
}.

(** Field updates. *)
Definition set_caches (x : CacheStorage) (s : State) : State :=
  {| origin := origin s; caches := x; console := console s;
     fetched := fetched s; skippedWaiting := skippedWaiting s;
     claimedClients := claimedClients s; replies := replies s;
     pending := pending s |}.

Definition set_console (x : list string) (s : State) : State :=
  {| origin := origin s; caches := caches s; console := x;
     fetched := fetched s; skippedWaiting := skippedWaiting s;
     claimedClients := claimedClients s; replies := replies s;
     pending := pending s |}.

Definition set_fetched (x : list string) (s : State) : State :=
  {| origin := origin s; caches := caches s; console := console s;
     fetched := x; skippedWaiting := skippedWaiting s;
     claimedClients := claimedClients s; replies := replies s;
     pending := pending s |}.

Definition set_skippedWaiting (x : bool) (s : State) : State :=
  {| origin := origin s; caches := caches s; console := console s;
     fetched := fetched s; skippedWaiting := x;
     claimedClients := claimedClients s; replies := replies s;
     pending := pending s |}.

Definition set_claimedClients (x : bool) (s : State) : State :=
  {| origin := origin s; caches := caches s; console := console s;
     fetched := fetched s; skippedWaiting := skippedWaiting s;
     claimedClients := x; replies := replies s; pending := pending s |}.

Definition set_replies (x : list string) (s : State) : State :=
  {| origin := origin s; caches := caches s; console := console s;
     fetched := fetched s; skippedWaiting := skippedWaiting s;
     claimedClients := claimedClients s; replies := x;
     pending := pending s |}.

Definition set_pending (x : list Write) (s : State) : State :=
  {| origin := origin s; caches := caches s; console := console s;
     fetched := fetched s; skippedWaiting := skippedWaiting s;
     claimedClients := claimedClients s; replies := replies s;
     pending := x |}.

(** *** Promises over the worker state *)

Definition Promise (A : Type) : Type := State -> Js.settled A * State.

Definition resolve {A : Type} (a : A) : Promise A :=
  fun s => (Js.Fulfilled a, s).

(** [p.then(f)] *)
Definition then_ {A B : Type} (p : Promise A) (f : A -> Promise B)
  : Promise B :=
  fun s => match p s with
           | (Js.Fulfilled a, s') => f a s'
           | (Js.Rejected e, s') => (Js.Rejected e, s')
           end.

(** [p.catch(h)] *)
Definition catch_ {A : Type} (p : Promise A) (h : Js.error -> Promise A)
  : Promise A :=
  fun s => match p s with
           | (Js.Fulfilled a, s') => (Js.Fulfilled a, s')
           | (Js.Rejected e, s') => h e s'
           end.

(** A promise nobody waits for: its effects happen, its outcome is dropped. *)
Definition detached {A : Type} (p : Promise A) : Promise unit :=
  fun s => (Js.Fulfilled tt, snd (p s)).

(** [Promise.all(ps)] *)
Fixpoint Promise_all {A : Type} (ps : list (Promise A)) : Promise (list A) :=
  match ps with
  | [] => resolve []
  | p :: ps' =>
      then_ p (fun a => then_ (Promise_all ps') (fun l => resolve (a :: l)))
  end.

#[local] Notation "x <- p ;; q" := (then_ p (fun x => q))
  (at level 100, p at next level, right associativity).
#[local] Notation "p ;; q" := (then_ p (fun _ => q))
  (at level 100, right associativity).

Definition console_log (line : string) : Promise unit :=
  fun s => (Js.Fulfilled tt, set_console (Js.push (console s) line) s).

Definition console_error (line : string) (e : Js.error) : Promise unit :=
  console_log (line ++ " " ++ Js.message e).

(** *** The platform: cache storage, network, worker registration *)

(** A URL without its fragment. *)
Fixpoint withoutFragment (u : string) : string :=
  match u with
  | EmptyString => EmptyString
  | String c rest =>
      if Ascii.eqb c "#" then EmptyString
      else String c (withoutFragment rest)
  end.

(** A request URL as the network and the caches are asked for it: made
    absolute against the worker's origin when it is relative, and without
    its fragment, which is neither sent to the network nor looked at by
    cache matching. *)
Definition absolute (s : State) (u : string) : string :=
  withoutFragment (if String.prefix "/" u then origin s ++ u else u).

Fixpoint assoc {V : Type} (k : string) (l : list (string * V)) : option V :=
  match l with
  | [] => None
  | (k', v) :: l' => if String.eqb k k' then Some v else assoc k l'
  end.

Fixpoint upsert {V : Type} (k : string) (v : V) (l : list (string * V))
  : list (string * V) :=
  match l with
  | [] => [(k, v)]
  | (k', v') :: l' =>
      if String.eqb k k' then (k, v) :: l' else (k', v') :: upsert k v l'
  end.

Definition remove {V : Type} (k : string) (l : list (string * V))
  : list (string * V) :=
  List.filter (fun kv => negb (String.eqb k (fst kv))) l.

(** [caches.open(name)]: creates the cache when there is none; the handle
    is the name. *)
Definition caches_open (name : string) : Promise string :=
  fun s => match assoc name (caches s) with
           | Some _ => (Js.Fulfilled name, s)
           | None => (Js.Fulfilled name,
                      set_caches (Js.push (caches s) (name, [])) s)
           end.

(** [caches.keys()] *)
Definition caches_keys : Promise (list string) :=
  fun s => (Js.Fulfilled (List.map fst (caches s)), s).

(** [caches.delete(name)] *)
Definition caches_delete (name : string) : Promise bool :=
  fun s => match assoc name (caches s) with
           | Some _ => (Js.Fulfilled true, set_caches (remove name (caches s)) s)
           | None => (Js.Fulfilled false, s)
           end.

(** The lookup of [caches.match]: the first cache, in creation order, with
    an entry for [u], a URL without fragment as the keys are. *)
Fixpoint matchAll (u : string) (cs : CacheStorage) : option Response :=
  match cs with
  | [] => None
  | (_, c) :: cs' => match assoc u c with
                     | Some r => Some r
                     | None => matchAll u cs'
                     end
  end.

(** [caches.match(request)]: the first cache, in creation order, that holds
    the request's URL, compared without its fragment; [undefined] as
    [None]. *)
Definition caches_match (u : string) : Promise (option Response) :=
  fun s => (Js.Fulfilled (matchAll (absolute s u) (caches s)), s).

(** [cache.put(request, response)] *)
Definition cache_put (cache u : string) (r : Response) : Promise unit :=
  fun s => match assoc cache (caches s) with
           | Some c => (Js.Fulfilled tt,
                        set_caches (upsert cache (upsert (absolute s u) r c)
                                           (caches s)) s)
           | None => (Js.Fulfilled tt, s)
           end.

(** [fetch(request)] from the worker: the URL is recorded in [fetched]. *)
Definition fetch (net : Network) (u : string) : Promise Response :=
  fun s => let a := absolute s u in
           (net a, set_fetched (Js.push (fetched s) a) s).

(** [caches.open(name).then(cache => { cache.put(request, response); })]
    as a statement: the write is started and the code goes on without
    waiting for it. *)
Definition background_put (name u : string) (r : Response) : Promise unit :=
  fun s => (Js.Fulfilled tt,
            set_pending
              (Js.push (pending s)
                 {| write_cache := name; write_url := u;
                    write_response := r |}) s).

(** One started write runs to its end. *)
Definition complete (w : Write) (s : State) : State :=
  snd (then_ (caches_open (write_cache w))
             (fun cache => cache_put cache (write_url w) (write_response w))
             s).

(** The writes in flight complete, in the order they were started. *)
Definition settle (s : State) : State :=
  fold_left (fun s' w => complete w s') (pending s) (set_pending [] s).

Definition okStatus (r : Response) : bool :=
  (200 <=? status r) && (status r <=? 299).

(** The fetches of [cache.addAll]: every URL is requested; a rejected fetch
    or a status outside 200-299 rejects the whole. *)
Fixpoint fetchAll (net : Network) (urls : list string)
  : Promise (list (string * Response)) :=
  match urls with
  | [] => resolve []
  | u :: urls' =>
      fun s =>
        let '(r, s1) := fetch net u s in
        let '(rs, s2) := fetchAll net urls' s1 in
        match r, rs with
        | Js.Rejected e, _ => (Js.Rejected e, s2)
        | Js.Fulfilled resp, Js.Rejected e =>
            if okStatus resp then (Js.Rejected e, s2)
            else (Js.Rejected (Js.Error "Request failed"), s2)
        | Js.Fulfilled resp, Js.Fulfilled l =>
            if okStatus resp then (Js.Fulfilled ((absolute s u, resp) :: l), s2)
            else (Js.Rejected (Js.Error "Request failed"), s2)
        end
  end.

(** [cache.addAll(urls)]: all or nothing. *)
Definition cache_addAll (net : Network) (cache : string) (urls : list string)
  : Promise unit :=
  entries <- fetchAll net urls ;;
  fun s => match assoc cache (caches s) with
           | Some c =>
               (Js.Fulfilled tt,
                set_caches
                  (upsert cache
                     (fold_left (fun c' kv => upsert (fst kv) (snd kv) c')
                                entries c)
                     (caches s)) s)
           | None => (Js.Fulfilled tt, s)
           end.

(** [self.skipWaiting()] *)
Definition skipWaiting : Promise unit :=
  fun s => (Js.Fulfilled tt, set_skippedWaiting true s).

(** [self.clients.claim()] *)
Definition clients_claim : Promise unit :=
  fun s => (Js.Fulfilled tt, set_claimedClients true s).

(** [event.ports[0].postMessage(m)] *)
Definition postMessage (m : string) : Promise unit :=
  fun s => (Js.Fulfilled tt, set_replies (Js.push (replies s) m) s).

(** What the browser does with the promise handed to [waitUntil] of the
    install event: a rejection discards the worker, anything else lets it
    go on to activation. *)
Inductive Phase : Type := Installed | Redundant.

Definition afterInstall (waitUntil : Js.settled unit) : Phase :=
  match waitUntil with
  | Js.Fulfilled _ => Installed
  | Js.Rejected _ => Redundant
  end.

(** *** The handlers *)

Definition ASSETS_TO_CACHE : list string :=
  ["/"; "/index.html"; "/style.css"; "/app.js"; "/manifest.json";
   "/icons/icon-192.png"; "/icons/icon-512.png"].

Inductive Message : Type := SKIP_WAITING | CLEAR_CACHE | OtherMessage.

Section Handlers.

Variable CACHE_NAME : string.

(** The install listener: the result is the promise given to
    [event.waitUntil]. *)
Definition onInstall (net : Network) : Promise unit :=
  console_log "[SW] Installing service worker..." ;;
  catch_
    (cache <- caches_open CACHE_NAME ;;
     (console_log "[SW] Caching app shell" ;;
      cache_addAll net cache ASSETS_TO_CACHE) ;;
     console_log "[SW] Service worker installed successfully" ;;
     skipWaiting)
    (fun error => console_error "[SW] Installation failed:" error).

(** The activate listener: the promise given to [event.waitUntil]. *)
Definition onActivate : Promise unit :=
  console_log "[SW] Activating service worker..." ;;
  cacheNames <- caches_keys ;;
  Promise_all
    (List.map
       (fun cacheName =>
          console_log ("[SW] Deleting old cache: " ++ cacheName) ;;
          caches_delete cacheName)
       (List.filter (fun cacheName => negb (String.eqb cacheName CACHE_NAME))
               cacheNames)) ;;
  console_log "[SW] Service worker activated" ;;
  clients_claim.

(** The fetch listener: [None] when the listener returns without calling
    [event.respondWith], else the promise given to it ([undefined] as
    [None]).  The write of a fetched response into the cache is only
    started here; [settle] completes it. *)
Definition onFetch (net : Network) (request : Request)
  : option (Promise (option Response)) :=
  if negb (String.eqb (method request) "GET") then None
  else if JsString.includes (url request) "/webhook/" then None
  else Some (
    cachedResponse <- caches_match (url request) ;;
    match cachedResponse with
    | Some r =>
        console_log ("[SW] Serving from cache: " ++ url request) ;;
        resolve (Some r)
    | None =>
        console_log ("[SW] Fetching from network: " ++ url request) ;;
        catch_
          (networkResponse <- fetch net (url request) ;;
           (if status networkResponse =? 200 then
              background_put CACHE_NAME (url request) networkResponse
            else resolve tt) ;;
           resolve (Some networkResponse))
          (fun error =>
             console_error "[SW] Fetch failed:" error ;;
             if String.eqb (destination request) "document" then
               caches_match "/index.html"
             else resolve None)
    end).

(** The message listener. *)
Definition onMessage (m : Message) : Promise unit :=
  (match m with SKIP_WAITING => skipWaiting | _ => resolve tt end) ;;
  match m with
  | CLEAR_CACHE =>
      detached (caches_delete CACHE_NAME ;;
                console_log "[SW] Cache cleared" ;;
                postMessage "{ success: true }")
  | _ => resolve tt
  end.

(** How the browser serves a request of a controlled page: through the
    listener's promise when it called [respondWith], from the network
    otherwise. *)
Definition dispatchFetch (net : Network) (request : Request)
  : Promise (option Response) :=
  match onFetch net request with
  | Some p => p
  | None => r <- fetch net (url request) ;; resolve (Some r)
  end.

End Handlers.

Definition CACHE_NAME : string := "atlas-v3.0.0".

End Worker.

(* ===================================================================== *)
(** ** Reference definitions and sample data for the statements *)
(* ===================================================================== *)

Module Ref.

Import App.

(** The substring after the last ['.'] of a name, the whole name when it
    has none. *)
Fixpoint afterLastDot (s : string) : string :=
  match s with
  | EmptyString => EmptyString
  | String c s' =>
      if JsString.includes s' "." then afterLastDot s'
      else if Ascii.eqb c "." then s'
      else s
  end.

(** The allow-list without the leading dots. *)
Definition extensionBodies : list string :=
  ["pdf"; "docx"; "txt"; "md"; "jpg"; "jpeg"; "png"; "js"; "py"; "java";
   "cpp"; "c"; "h"; "cs"; "html"; "css"; "json"; "xml"].

(** A selection fails validation: too large, or extension not allowed. *)
Definition failsValidation (f : File) : Prop :=
  size f > 10485760
  \/ arrayIncludes allSupportedTypes
       ("." ++ JsString.toLowerCase (afterLastDot (name f))) = false.

(** The state [handleFileSelect] leaves when it accepts [f]. *)
Definition staged (f : File) (s : State) : State :=
  set_fileInput_value ""
    (set_filePreview_hidden false
       (set_fileName_text (name f ++ " (" ++ formatFileSize (size f) ++ ")")
          (set_currentFile (Some f) s))).

(** An own property of an object, [undefined] for anything else. *)
Definition field (v : Js.value) (k : string) : Js.value :=
  match v with
  | Js.Obj props => Js.lookup k props
  | _ => Js.Undefined
  end.

Definition fallbackReply : Js.value := Js.Str "I received your message.".

(** The reply as the specification words it: the first field that is
    present among [message] and [text]. *)
Definition firstPresent (v : Js.value) : Js.value :=
  match field v "message" with
  | Js.Undefined =>
      match field v "text" with
      | Js.Undefined => fallbackReply
      | t => t
      end
  | m => m
  end.

(** The reply by truthiness: the first field that is truthy. *)
Definition firstTruthy (v : Js.value) : Js.value :=
  if Js.truthy (field v "message") then field v "message"
  else if Js.truthy (field v "text") then field v "text"
  else fallbackReply.

(** The user message a submit creates from the state it starts in. *)
Definition userMessageOf (now : Z) (s : State) : Message :=
  {| role := user; content := Js.Str (JsString.trim (messageInput_value s));
     file := currentFile s; timestamp := now; isError := false |}.

Definition errorMessageOf (now : Z) (e : Js.error) : Message :=
  {| role := assistant; content := Js.Str (errorContent e); file := None;
     timestamp := now; isError := true |}.

Definition replyMessageOf (now : Z) (c : Js.value) : Message :=
  {| role := assistant; content := c; file := None; timestamp := now;
     isError := false |}.

(** The pattern and the template agree: an [x] stands where the pattern
    wants a hex digit, the [y] where it wants the variant digit, and every
    other character of the template is in its class. *)
Fixpoint agrees (p : list CharClass) (t : string) : bool :=
  match p, t with
  | [], EmptyString => true
  | k :: p', String c t' =>
      (if Ascii.eqb c "x" then match k with Hex => true | _ => false end
       else if Ascii.eqb c "y" then match k with Variant => true | _ => false end
       else inClass c k)
      && agrees p' t'
  | _, _ => false
  end.

(** A body with an empty [message] and a usable [text]. *)
Definition emptyMessageBody : Js.value :=
  Js.Obj [("message", Js.Str ""); ("text", Js.Str "hello")].

(** A fresh page: the welcome message is shown, nothing is staged. *)
Definition fresh (session input : string) : State := {|
  currentFile := None;
  messageHistory := [];
  sessionId := session;
  messageInput_value := input;
  fileInput_value := "";
  fileName_text := "";
  filePreview_hidden := true;
  chatContainer := [WelcomeNode];
  sendButton_disabled := false;
  fileButton_disabled := false;
  messageInput_disabled := false;
  statusIndicator_hidden := true;
  messageInput_focused := false;
  alerts := [];
  sent := []
|}.

Definition notesTxt : File :=
  {| name := "notes.txt"; size := 2048; type := "text/plain" |}.

Definition hugePdf : File :=
  {| name := "scan.pdf"; size := 10485761; type := "application/pdf" |}.

Definition dotlessJson : File :=
  {| name := "json"; size := 12; type := "" |}.

Definition makefile : File :=
  {| name := "Makefile"; size := 12; type := "" |}.

(** A backend that answers every request with the same status line and
    body. *)
Definition stub (st : Z) (text : string) (b : Js.settled Js.value) : Backend :=
  fun _ => Js.Fulfilled {| status := st; statusText := text; json := b |}.

Definition helloBody : Js.value := Js.Obj [("message", Js.Str "hello")].

(** A random source that always returns one half. *)
Definition half : nat -> Q := fun _ => (1 # 2)%Q.

(** *** Byte counts, as the specification words them *)




End Ref.

Module WorkerRef.

Import Worker.

(** A worker that has done nothing yet, with the caches it finds. *)
Definition started (cs : CacheStorage) : State := {|
  origin := "https://atlas.example";
  caches := cs;
  console := [];
  fetched := [];
  skippedWaiting := false;
  claimedClients := false;
  replies := [];
  pending := []
|}.

(** A network where every URL is served with status 200. *)
Definition online : Network :=
  fun u => Js.Fulfilled {| status := 200; body := "content of " ++ u |}.

(** A network where the stylesheet cannot be fetched. *)
Definition noStylesheet : Network :=
  fun u => if String.eqb u "https://atlas.example/style.css"
           then Js.Rejected (Js.Error "Failed to fetch")
           else online u.

Definition cachedPage : Response := {| status := 200; body := "cached" |}.

(** Two generations, the older one holding a page and a webhook URL. *)
Definition twoGenerations : CacheStorage :=
  [("atlas-v1", [("https://atlas.example/index.html", cachedPage);
                 ("https://atlas.example/webhook/atlas-pwa", cachedPage)]);
   ("atlas-v2", [])].

Definition get (u : string) : Request :=
  {| method := "GET"; url := u; destination := "" |}.

(** A fetch that [cache.addAll] does not accept: rejected, or answered
    with a status outside 200-299. *)
Definition unusable (r : Js.settled Response) : bool :=
  match r with
  | Js.Fulfilled resp => negb (okStatus resp)
  | Js.Rejected _ => true
  end.

(** The bulk population of the install step fails: some asset of the
    manifest cannot be fetched. *)
Definition populationFails (net : Network) (s : State) : bool :=
  existsb (fun u => unusable (net (absolute s u))) ASSETS_TO_CACHE.

(** The names of the caches in storage: [caches.keys()]. *)
Definition names (s : State) : list string := List.map fst (caches s).

(** What the browser does for a request the worker leaves alone. *)
Definition passThrough (net : Network) (request : Request) (s : State)
  : Js.settled (option Response) * State :=
  let a := absolute s (url request) in
  (match net a with
   | Js.Fulfilled r => Js.Fulfilled (Some r)
   | Js.Rejected e => Js.Rejected e
   end,
   set_fetched (Js.push (fetched s) a) s).

End WorkerRef.

(* ===================================================================== *)
(** ** app.js: the PIN gate, start-up and logout *)
(* ===================================================================== *)

Module Page.

Inductive Focus : Type := NoFocus | PinInput | MessageInput.

(** [localStorage], the module variable [sessionId] ([null] as [None]),
    the PIN overlay, and what start-up has wired. *)
Record State : Type := {
  localStorage : App.Storage;
  sessionId : option string;
  pinOverlay_display : string;
  app_display : string;
  pinError_hidden : bool;
  pinInput_value : string;
  focus : Focus;
  pinFormListening : bool;
  listening : bool;
  serviceWorker : bool;
  reloaded : bool
}.

(** [checkAuthentication()] *)
Definition checkAuthentication (p : State) : bool * State :=
  let isAuthenticated :=
    match localStorage p !! "atlas_authenticated" with
    | Some v => String.eqb v "true"
    | None => false
    end in
  if isAuthenticated then
    (true,
     {| localStorage := localStorage p; sessionId := sessionId p;
        pinOverlay_display := "none"; app_display := "block";
        pinError_hidden := pinError_hidden p;
        pinInput_value := pinInput_value p; focus := focus p;
        pinFormListening := pinFormListening p; listening := listening p;
        serviceWorker := serviceWorker p; reloaded := reloaded p |})
  else
    (false,
     {| localStorage := localStorage p; sessionId := sessionId p;
        pinOverlay_display := "flex"; app_display := "none";
        pinError_hidden := pinError_hidden p;
        pinInput_value := pinInput_value p; focus := focus p;
        pinFormListening := true; listening := listening p;
        serviceWorker := serviceWorker p; reloaded := reloaded p |}).

(** The submit listener [setupPINForm] puts on the PIN form. *)
Definition onPinSubmit (p : State) : State :=
  let enteredPIN := JsString.trim (pinInput_value p) in
  if String.eqb enteredPIN (App.correctPIN App.CONFIG) then
    {| localStorage := <["atlas_authenticated" := "true"]> (localStorage p);
       sessionId := sessionId p;
       pinOverlay_display := "none"; app_display := "block";
       pinError_hidden := true;
       pinInput_value := pinInput_value p; focus := MessageInput;
       pinFormListening := pinFormListening p; listening := listening p;
       serviceWorker := serviceWorker p; reloaded := reloaded p |}
  else
    {| localStorage := localStorage p; sessionId := sessionId p;
       pinOverlay_display := pinOverlay_display p;
       app_display := app_display p;
       pinError_hidden := false;
       pinInput_value := ""; focus := PinInput;
       pinFormListening := pinFormListening p; listening := listening p;
       serviceWorker := serviceWorker p; reloaded := reloaded p |}.

(** [init()]; [hasServiceWorker] is ['serviceWorker' in navigator]. *)
Definition init (rand : nat -> Q) (hasServiceWorker : bool) (p : State)
  : State :=
  let '(authenticated, p1) := checkAuthentication p in
  if negb authenticated then p1
  else
    let '(id, ls) := App.getOrCreateSessionId rand (localStorage p1) in
    {| localStorage := ls; sessionId := Some id;
       pinOverlay_display := pinOverlay_display p1;
       app_display := app_display p1;
       pinError_hidden := pinError_hidden p1;
       pinInput_value := pinInput_value p1; focus := focus p1;
       pinFormListening := pinFormListening p1; listening := true;
       serviceWorker := hasServiceWorker; reloaded := reloaded p1 |}.

(** [logout()]; [confirmed] is what [confirm(...)] returned. *)
Definition logout (confirmed : bool) (p : State) : State :=
  if confirmed then
    {| localStorage := delete "atlas_authenticated" (localStorage p);
       sessionId := sessionId p;
       pinOverlay_display := pinOverlay_display p;
       app_display := app_display p;
       pinError_hidden := pinError_hidden p;
       pinInput_value := pinInput_value p; focus := focus p;
       pinFormListening := pinFormListening p; listening := listening p;
       serviceWorker := serviceWorker p; reloaded := true |}
  else p.

(** The user types [v] into the PIN field. *)
Definition typed (v : string) (p : State) : State :=
  {| localStorage := localStorage p; sessionId := sessionId p;
     pinOverlay_display := pinOverlay_display p;
     app_display := app_display p;
     pinError_hidden := pinError_hidden p;
     pinInput_value := v; focus := focus p;
     pinFormListening := pinFormListening p; listening := listening p;
     serviceWorker := serviceWorker p; reloaded := reloaded p |}.

(** The page as the script starts on a (re)load: storage is what it was,
    the module variables are unset, nothing is wired; the markup decides
    the rest. *)
Definition loaded (markup : State) (ls : App.Storage) : State :=
  {| localStorage := ls; sessionId := None;
     pinOverlay_display := pinOverlay_display markup;
     app_display := app_display markup;
     pinError_hidden := pinError_hidden markup;
     pinInput_value := pinInput_value markup; focus := focus markup;
     pinFormListening := false; listening := false;
     serviceWorker := false; reloaded := false |}.

End Page.

(* ===================================================================== *)
(** ** app.js: time of day *)
(* ===================================================================== *)

Module Time.

(** What [formatTime] reads of a [Date]. *)
Record Date : Type := {
  getHours : Z;
  getMinutes : Z
}.

Fixpoint repeatString (n : nat) (s : string) : string :=
  match n with
  | O => EmptyString
  | S n' => s ++ repeatString n' s
  end.

(** [s.padStart(targetLength, padString)] *)
Definition padStart (targetLength : nat) (padString s : string) : string :=
  let missing := (targetLength - String.length s)%nat in
  String.substring 0 missing (repeatString missing padString) ++ s.

(** [formatTime(date)] *)
Definition formatTime (date : Date) : string :=
  let hours := padStart 2 "0" (JsString.ofZ (getHours date)) in
  let minutes := padStart 2 "0" (JsString.ofZ (getMinutes date)) in
  hours ++ ":" ++ minutes.

End Time.

(* ===================================================================== *)
(** ** Further reference definitions *)
(* ===================================================================== *)

Module Expect.

(** The decimal digit [d], for [0 <= d <= 9]. *)
Definition digit (d : Z) : ascii := ascii_of_N (48 + Z.to_N d).

(** [n] written with exactly two decimal digits. *)
Definition twoDigits (n : Z) : string :=
  String (digit (n / 10)) (String (digit (n mod 10)) EmptyString).

(** Every node is a rendered message. *)
Definition onlyMessages (l : list App.ChatNode) : Prop :=
  Forall (fun n => exists m, n = App.MessageNode m) l.

(** The request a submit of text [msg] with attachment [f] sends. *)
Definition request (session msg : string) (f : option App.File)
  : App.Request :=
  match f with
  | Some f' =>
      {| App.req_url := "https://n8n.srv1194059.hstgr.cloud/webhook/atlas-pwa";
         App.req_method := "POST";
         App.req_headers := [];
         App.req_body := App.FormBody msg session f' |}
  | None =>
      {| App.req_url := "https://n8n.srv1194059.hstgr.cloud/webhook/atlas-pwa";
         App.req_method := "POST";
         App.req_headers := [("Content-Type", "application/json")];
         App.req_body := App.JsonBody msg session |}
  end.

(** The two checks of [handleFileSelect], as one test. *)
Definition accepts (f : App.File) : bool :=
  (App.size f <=? 10485760)
  && App.arrayIncludes App.allSupportedTypes
       ("." ++ JsString.toLowerCase (Ref.afterLastDot (App.name f))).

(** What [sendToAPI] settles to, given the backend's answer to the
    request. *)
Definition outcome (backend : App.Backend) (req : App.Request)
  : Js.settled Js.value :=
  match backend req with
  | Js.Rejected e => Js.Rejected e
  | Js.Fulfilled r =>
      if App.ok r then App.json r
      else Js.Rejected
             (Js.Error ("API returned " ++ JsString.ofZ (App.status r)
                        ++ ": " ++ App.statusText r))
  end.

(** The assistant message a settled [sendToAPI] leads to: the reply, or
    the flagged error message. *)
Definition answer (now : Z) (result : Js.settled Js.value) : App.Message :=
  match result with
  | Js.Rejected e => Ref.errorMessageOf now e
  | Js.Fulfilled v =>
      match App.replyContent v with
      | inr c => Ref.replyMessageOf now c
      | inl e => Ref.errorMessageOf now e
      end
  end.

(** The markup of a page that shows nothing yet. *)
Definition blank : Page.State := {|
  Page.localStorage := ∅;
  Page.sessionId := None;
  Page.pinOverlay_display := "";
  Page.app_display := "";
  Page.pinError_hidden := true;
  Page.pinInput_value := "";
  Page.focus := Page.NoFocus;
  Page.pinFormListening := false;
  Page.listening := false;
  Page.serviceWorker := false;
  Page.reloaded := false
|}.

(** A network that is down. *)
Definition offline : Worker.Network :=
  fun _ => Js.Rejected (Js.Error "Failed to fetch").

(** A network that answers every URL with status 404. *)
Definition notFound : Worker.Network :=
  fun _ => Js.Fulfilled {| Worker.status := 404; Worker.body := "" |}.

End Expect.

Module WorkerExpect.

Import Worker.

(** A promise that leaves the worker's origin alone. *)
Definition keepsOrigin {A : Type} (p : Promise A) : Prop :=
  forall s, origin (snd (p s)) = origin s.

(** A GET request for a document. *)
Definition navigate (u : string) : Request :=
  {| method := "GET"; url := u; destination := "document" |}.

(** The state in which the fetch listener, after a cache miss, has asked
    the network. *)
Definition asking (request : Request) (s : State) : State :=
  set_fetched (Js.push (fetched s) (absolute s (url request)))
    (set_console
       (Js.push (console s) ("[SW] Fetching from network: " ++ url request))
       s).

(** The write the fetch listener starts for a response it fetched. *)
Definition writeOf (name : string) (request : Request) (r : Response)
  : Write :=
  {| write_cache := name; write_url := url request; write_response := r |}.

(** The state after [caches.open(name)] and [cache.put] of a response. *)
Definition stored (name : string) (request : Request) (r : Response)
    (s : State) : State :=
  snd (cache_put name (url request) r (snd (caches_open name s))).

End WorkerExpect.

(* ===================================================================== *)
(** ** Sample evaluations of the string helpers *)
(* ===================================================================== *)

Example includes_webhook :
  JsString.includes "https://h/webhook/atlas-pwa" "/webhook/" = true.
Proof. reflexivity. Qed.

Example split_pop_ext :
  JsString.pop (JsString.split "." "Report.v2.PDF") = Some "PDF".
Proof. reflexivity. Qed.

Example trim_spaces : JsString.trim "  hi there 	" = "hi there".
Proof. reflexivity. Qed.

Example trim_only_space : JsString.trim "   " = "".
Proof. reflexivity. Qed.

Example hex_255 : JsString.toString16 255 = "ff".
Proof. reflexivity. Qed.

Example dec_500 : JsString.ofZ 500 = "500".
Proof. reflexivity. Qed.

(* ===================================================================== *)
(** ** Strings *)
(* ===================================================================== *)

Section StringFacts.

Import JsString.

Lemma append_cons (c : ascii) (a b : string) :
  String c a ++ b = String c (a ++ b).
Proof. reflexivity. Qed.

Lemma prefix_empty (s : string) : String.prefix "" s = true.
Proof. destruct s; reflexivity. Qed.

Lemma includes_dot_cons (c : ascii) (s : string) :
  includes (String c s) "." = Ascii.eqb c "." || includes s ".".
Proof.
  cbn [includes String.prefix].
  destruct (ascii_dec "." c) as [<- | Hne].
  - rewrite prefix_empty. reflexivity.
  - destruct (Ascii.eqb_spec c "."); [congruence | reflexivity].
Qed.

Lemma split_not_nil (sep : ascii) (s : string) : split sep s <> [].
Proof.
  destruct s as [| c s]; cbn [split]; [discriminate |].
  destruct (Ascii.eqb c sep); [discriminate |].
  destruct (split sep s); discriminate.
Qed.

Lemma split_dotless (s : string) :
  includes s "." = false -> split "." s = [s].
Proof.
  induction s as [| c s IH]; [reflexivity |].
  rewrite includes_dot_cons. intros H.
  apply orb_false_elim in H as [Hc Hs].
  cbn [split]. rewrite Hc, (IH Hs). reflexivity.
Qed.

Lemma split_dotted (s : string) :
  includes s "." = true ->
  exists h x t, split "." s = h :: x :: t.
Proof.
  induction s as [| c s IH]; [discriminate |].
  rewrite includes_dot_cons. intros H. cbn [split].
  destruct (Ascii.eqb c ".").
  - destruct (split "." s) as [| x t] eqn:E.
    + exfalso. eapply split_not_nil; eassumption.
    + eauto.
  - cbn [orb] in H. destruct (IH H) as (h & x & t & ->). eauto.
Qed.

Lemma afterLastDot_dotless (s : string) :
  includes s "." = false -> Ref.afterLastDot s = s.
Proof.
  destruct s as [| c s]; [reflexivity |].
  rewrite includes_dot_cons. intros H.
  apply orb_false_elim in H as [Hc Hs].
  cbn [Ref.afterLastDot]. rewrite Hs, Hc. reflexivity.
Qed.

(** [split('.').pop()] is the part after the last dot. *)
Lemma pop_split (s : string) :
  pop (split "." s) = Some (Ref.afterLastDot s).
Proof.
  induction s as [| c s IH]; [reflexivity |].
  cbn [split Ref.afterLastDot].
  destruct (includes s ".") eqn:Hs.
  - destruct (split_dotted s Hs) as (h & x & t & E).
    rewrite E in *.
    destruct (Ascii.eqb c "."); exact IH.
  - rewrite (split_dotless s Hs) in *.
    destruct (Ascii.eqb c "."); reflexivity.
Qed.

Lemma fileExt_afterLastDot (n : string) :
  App.fileExt n = Some ("." ++ toLowerCase (Ref.afterLastDot n)).
Proof. unfold App.fileExt. rewrite pop_split. reflexivity. Qed.

Lemma prefix_app (b c : string) : String.prefix b (b ++ c) = true.
Proof.
  induction b as [| x b IH]; [apply prefix_empty |].
  rewrite append_cons. cbn [String.prefix].
  destruct (ascii_dec x x); [exact IH | congruence].
Qed.

Lemma includes_here (b s : string) :
  String.prefix b s = true -> includes s b = true.
Proof. intros H. destruct s; cbn [includes]; rewrite H; reflexivity. Qed.

(** A string contains each of its segments. *)
Lemma includes_app (a b c : string) : includes (a ++ b ++ c) b = true.
Proof.
  induction a as [| x a IH].
  - apply includes_here. exact (prefix_app b c).
  - rewrite append_cons. cbn [includes]. rewrite IH.
    destruct (String.prefix b _); reflexivity.
Qed.

End StringFacts.

(* ===================================================================== *)
(** ** Attachment validation *)
(* ===================================================================== *)

Section FileSelection.

Import App.

Lemma maxFileSize_value : maxFileSize CONFIG = 10485760.
Proof. reflexivity. Qed.

Lemma allSupportedTypes_bodies :
  allSupportedTypes = List.map (String ".") Ref.extensionBodies.
Proof. reflexivity. Qed.

Lemma arrayIncludes_dot (x : string) (l : list string) :
  arrayIncludes (List.map (String ".") l) ("." ++ x) = existsb (String.eqb x) l.
Proof.
  unfold arrayIncludes. induction l as [| y l IH]; [reflexivity |].
  cbn [List.map existsb]. rewrite IH. reflexivity.
Qed.

(** The allow-list test, on the extension without its dot. *)
Lemma supported_iff (x : string) :
  arrayIncludes allSupportedTypes ("." ++ x) = true
  <-> In x Ref.extensionBodies.
Proof.
  rewrite allSupportedTypes_bodies, arrayIncludes_dot, existsb_exists.
  split.
  - intros (y & Hy & E). apply String.eqb_eq in E. subst. exact Hy.
  - intros H. exists x. split; [exact H | apply String.eqb_refl].
Qed.

Lemma handleFileSelect_too_large (f : File) (s : State) :
  size f > maxFileSize CONFIG ->
  handleFileSelect (Some f) s =
  set_fileInput_value ""
    (set_alerts (Js.push (alerts s)
                   ("File too large! Maximum size is "
                    ++ formatFileSize (maxFileSize CONFIG))) s).
Proof.
  intros H. unfold handleFileSelect.
  destruct (Z.gtb_spec (size f) (maxFileSize CONFIG)); [reflexivity | lia].
Qed.

Lemma handleFileSelect_checks_extension (f : File) (s : State) :
  size f <= maxFileSize CONFIG ->
  handleFileSelect (Some f) s =
  let ext := "." ++ JsString.toLowerCase (Ref.afterLastDot (name f)) in
  if arrayIncludes allSupportedTypes ext then Ref.staged f s
  else set_fileInput_value ""
         (set_alerts (Js.push (alerts s)
                        ("Unsupported file type: " ++ ext ++ nl ++ nl
                         ++ "Supported types:" ++ nl
                         ++ join ", " allSupportedTypes)) s).
Proof.
  intros H. unfold handleFileSelect.
  destruct (Z.gtb_spec (size f) (maxFileSize CONFIG)); [lia |].
  rewrite fileExt_afterLastDot. cbv zeta.
  destruct (arrayIncludes allSupportedTypes _); reflexivity.
Qed.

(** A rejected selection changes the file input and the alerts only. *)
Lemma handleFileSelect_rejected_shape (f : File) (s : State) :
  Ref.failsValidation f ->
  exists notice,
    handleFileSelect (Some f) s =
    set_fileInput_value "" (set_alerts (Js.push (alerts s) notice) s).
Proof.
  intros Hbad.
  destruct (Z.le_gt_cases (size f) (maxFileSize CONFIG)) as [Hle | Hgt].
  - destruct Hbad as [Hsz | Hext].
    + rewrite maxFileSize_value in Hle. lia.
    + rewrite (handleFileSelect_checks_extension f s Hle). cbv zeta.
      rewrite Hext. eauto.
  - rewrite (handleFileSelect_too_large f s); [eauto | lia].
Qed.

(** C3, as amended: a selection that fails validation (size above
    10,485,760 bytes whatever the extension, or lowercased extension
    outside the allow-list) is rejected with a notice and the file input is
    reset; the pending-attachment slot is left as it was, so the rejected
    file does not enter it and an empty slot stays empty, while an
    attachment staged earlier stays staged. *)
Theorem handleFileSelect_rejects (f : File) (s : State) :
  Ref.failsValidation f ->
  let s' := handleFileSelect (Some f) s in
  fileInput_value s' = ""
  /\ currentFile s' = currentFile s
  /\ (currentFile s = None -> currentFile s' = None)
  /\ fileName_text s' = fileName_text s
  /\ filePreview_hidden s' = filePreview_hidden s
  /\ messageHistory s' = messageHistory s
  /\ exists notice, alerts s' = Js.push (alerts s) notice.
Proof.
  intros Hbad s'. subst s'.
  destruct (handleFileSelect_rejected_shape f s Hbad) as (notice & ->).
  cbn. repeat split; eauto.
Qed.

Lemma handleFileSelect_rejects_witness :
  let s := Ref.fresh "sid" "" in
  let s' := handleFileSelect (Some Ref.hugePdf) s in
  fileInput_value s' = ""
  /\ currentFile s' = currentFile s
  /\ (currentFile s = None -> currentFile s' = None)
  /\ fileName_text s' = fileName_text s
  /\ filePreview_hidden s' = filePreview_hidden s
  /\ messageHistory s' = messageHistory s
  /\ exists notice, alerts s' = Js.push (alerts s) notice.
Proof.
  apply (handleFileSelect_rejects Ref.hugePdf (Ref.fresh "sid" "")).
  left. reflexivity.
Defined.

(** C3, as stated, fails: with notes.txt staged, selecting an oversized
    file is rejected but the slot is not cleared; notes.txt is still the
    pending attachment. *)
Lemma handleFileSelect_keeps_staged_file :
  let s := handleFileSelect (Some Ref.notesTxt) (Ref.fresh "sid" "") in
  let s' := handleFileSelect (Some Ref.hugePdf) s in
  Ref.failsValidation Ref.hugePdf
  /\ fileInput_value s' = ""
  /\ currentFile s' = Some Ref.notesTxt
  /\ currentFile s' <> None.
Proof.
  cbv zeta. split; [left; reflexivity |].
  split; [reflexivity |]. split; [reflexivity | discriminate].
Qed.

(** C10: the extension that is checked is ['.'] plus the lowercased part
    of the name after its last dot; for a name without a dot that part is
    the whole name, so (size permitting) such a file is accepted exactly
    when its lowercased name is the body of an allow-listed extension, as
    for files named [js] or [json], and is rejected otherwise. *)
Theorem dotless_name_extension (f : File) (s : State) :
  fileExt (name f)
  = Some ("." ++ JsString.toLowerCase (Ref.afterLastDot (name f)))
  /\ (JsString.includes (name f) "." = false ->
      fileExt (name f) = Some ("." ++ JsString.toLowerCase (name f))
      /\ (size f <= maxFileSize CONFIG ->
          (In (JsString.toLowerCase (name f)) Ref.extensionBodies ->
           handleFileSelect (Some f) s = Ref.staged f s)
          /\ (~ In (JsString.toLowerCase (name f)) Ref.extensionBodies ->
              currentFile (handleFileSelect (Some f) s) = currentFile s
              /\ exists notice,
                   alerts (handleFileSelect (Some f) s)
                   = Js.push (alerts s) notice))).
Proof.
  split; [apply fileExt_afterLastDot |].
  intros Hdot. pose proof (afterLastDot_dotless _ Hdot) as Hwhole.
  split; [rewrite fileExt_afterLastDot, Hwhole; reflexivity |].
  intros Hsz. rewrite (handleFileSelect_checks_extension f s Hsz).
  cbv zeta. rewrite Hwhole.
  destruct (arrayIncludes allSupportedTypes _) eqn:E.
  - split; [reflexivity |]. intros Hno. exfalso.
    apply Hno, supported_iff, E.
  - split.
    + intros Hin. apply supported_iff in Hin. congruence.
    + intros _. cbn. eauto.
Qed.

Lemma dotless_name_extension_witness :
  handleFileSelect (Some Ref.dotlessJson) (Ref.fresh "sid" "")
  = Ref.staged Ref.dotlessJson (Ref.fresh "sid" "")
  /\ currentFile (handleFileSelect (Some Ref.makefile) (Ref.fresh "sid" ""))
     = None.
Proof.
  split.
  - apply (dotless_name_extension Ref.dotlessJson (Ref.fresh "sid" ""));
      [reflexivity | vm_compute; discriminate | vm_compute; tauto].
  - apply (dotless_name_extension Ref.makefile (Ref.fresh "sid" ""));
      [reflexivity | vm_compute; discriminate |].
    vm_compute. intros H.
    repeat (destruct H as [H | H]; [discriminate H |]). exact H.
Defined.

End FileSelection.

(* ===================================================================== *)
(** ** Submit *)
(* ===================================================================== *)

Section Submit.

Import App.

Lemma handleSubmit_begin_none (now : Z) (s : State) :
  JsString.trim (messageInput_value s) = "" -> currentFile s = None ->
  handleSubmit_begin now s = None.
Proof.
  intros Ht Hf. unfold handleSubmit_begin. cbv zeta.
  rewrite Ht, Hf. reflexivity.
Qed.

Lemma handleSubmit_begin_some (now : Z) (s : State) :
  JsString.trim (messageInput_value s) <> "" \/ currentFile s <> None ->
  exists s1,
    handleSubmit_begin now s
    = Some (JsString.trim (messageInput_value s), currentFile s, s1)
    /\ messageHistory s1 = Js.push (messageHistory s) (Ref.userMessageOf now s)
    /\ chatContainer s1
       = Js.push (removeFirst isWelcome (Js.push (chatContainer s) LoadingNode))
                 (MessageNode (Ref.userMessageOf now s))
    /\ currentFile s1 = None
    /\ messageInput_value s1 = ""
    /\ sendButton_disabled s1 = true
    /\ sent s1 = sent s
    /\ sessionId s1 = sessionId s.
Proof.
  intros H. unfold handleSubmit_begin. cbv zeta.
  assert (String.eqb (JsString.trim (messageInput_value s)) ""
          && negb (Js.present (currentFile s)) = false) as ->.
  { destruct H as [H | H].
    - apply String.eqb_neq in H. rewrite H. reflexivity.
    - destruct (currentFile s); [| congruence]. apply andb_false_r. }
  eexists. split; [reflexivity |]. cbn. repeat split; reflexivity.
Qed.

(** C9: a submit with empty trimmed text and no pending attachment returns
    before anything happens: the state is unchanged, so no request is
    sent, no message is appended to the history or the chat, and the
    controls are not disabled. *)
Theorem handleSubmit_empty_is_noop
    (backend : Backend) (t0 t1 : Z) (s : State) :
  JsString.trim (messageInput_value s) = "" -> currentFile s = None ->
  let s' := handleSubmit backend t0 t1 s in
  handleSubmit_begin t0 s = None
  /\ s' = s
  /\ sent s' = sent s
  /\ messageHistory s' = messageHistory s
  /\ chatContainer s' = chatContainer s
  /\ sendButton_disabled s' = sendButton_disabled s
  /\ fileButton_disabled s' = fileButton_disabled s
  /\ messageInput_disabled s' = messageInput_disabled s
  /\ statusIndicator_hidden s' = statusIndicator_hidden s.
Proof.
  intros Ht Hf s'. subst s'. unfold handleSubmit.
  rewrite (handleSubmit_begin_none t0 s Ht Hf). repeat split.
Qed.

Lemma handleSubmit_empty_is_noop_witness :
  let s := Ref.fresh "sid" "   " in
  let s' := handleSubmit (Ref.stub 200 "OK" (Js.Fulfilled Ref.helloBody)) 1 2 s in
  handleSubmit_begin 1 s = None
  /\ s' = s
  /\ sent s' = sent s
  /\ messageHistory s' = messageHistory s
  /\ chatContainer s' = chatContainer s
  /\ sendButton_disabled s' = sendButton_disabled s
  /\ fileButton_disabled s' = fileButton_disabled s
  /\ messageInput_disabled s' = messageInput_disabled s
  /\ statusIndicator_hidden s' = statusIndicator_hidden s.
Proof.
  apply (handleSubmit_empty_is_noop
           (Ref.stub 200 "OK" (Js.Fulfilled Ref.helloBody)) 1 2
           (Ref.fresh "sid" "   ")); reflexivity.
Defined.

Lemma handleSubmit_resume_sent (now : Z) (r : Js.settled Js.value) (s : State) :
  sent (handleSubmit_resume now r s) = sent s.
Proof.
  unfold handleSubmit_resume.
  destruct r as [v | e]; [destruct (replyContent v) |]; reflexivity.
Qed.

Lemma sendToAPI_sent
    (backend : Backend) (msg : string) (f : option File) (s : State) :
  exists req, sent (snd (sendToAPI backend msg f s)) = Js.push (sent s) req.
Proof.
  unfold sendToAPI. destruct f; cbv zeta beta iota;
    match goal with |- context [backend ?r] =>
      exists r; destruct (backend r) as [resp | e];
      [destruct (ok resp) |] end; reflexivity.
Qed.

(** Any other submit sends exactly one request. *)
Lemma handleSubmit_sends_one (backend : Backend) (t0 t1 : Z) (s : State) :
  JsString.trim (messageInput_value s) <> "" \/ currentFile s <> None ->
  exists req, sent (handleSubmit backend t0 t1 s) = Js.push (sent s) req.
Proof.
  intros H. destruct (handleSubmit_begin_some t0 s H)
    as (s1 & Hb & _ & _ & _ & _ & _ & Hsent & _).
  unfold handleSubmit. rewrite Hb.
  destruct (sendToAPI_sent backend (JsString.trim (messageInput_value s))
              (currentFile s) s1) as (req & Hreq).
  destruct (sendToAPI backend _ _ s1) as [result s2].
  rewrite handleSubmit_resume_sent. cbn [snd] in Hreq.
  exists req. rewrite Hreq, Hsent. reflexivity.
Qed.

(** *** The failure path *)

Lemma handleSubmit_resume_rejected (now : Z) (e : Js.error) (s : State) :
  let s' := handleSubmit_resume now (Js.Rejected e) s in
  messageHistory s' = messageHistory s
  /\ chatContainer s'
     = removeFirst isLoading
         (Js.push (removeFirst isWelcome (chatContainer s))
                  (MessageNode (Ref.errorMessageOf now e)))
  /\ sendButton_disabled s' = false
  /\ messageInput_focused s' = true.
Proof. cbn. repeat split. Qed.

(** What [sendToAPI] settles to when the backend fails. *)
Lemma sendToAPI_network_error
    (backend : Backend) (msg : string) (f : option File) (s : State)
    (e : Js.error) :
  (forall req, backend req = Js.Rejected e) ->
  fst (sendToAPI backend msg f s) = Js.Rejected e.
Proof.
  intros H. unfold sendToAPI. destruct f; cbv zeta beta iota;
    rewrite H; reflexivity.
Qed.

Lemma sendToAPI_bad_status
    (backend : Backend) (msg : string) (f : option File) (s : State)
    (r : Response) :
  (forall req, backend req = Js.Fulfilled r) -> ok r = false ->
  fst (sendToAPI backend msg f s)
  = Js.Rejected (Js.Error ("API returned " ++ JsString.ofZ (status r)
                           ++ ": " ++ statusText r)).
Proof.
  intros H Hok. unfold sendToAPI. destruct f; cbv zeta beta iota;
    rewrite H, Hok; reflexivity.
Qed.

Lemma errorContent_embeds (e : Js.error) :
  Js.message e <> "" ->
  errorContent e = "❌ Error: " ++ Js.message e.
Proof.
  intros H. unfold errorContent. apply String.eqb_neq in H.
  rewrite H. reflexivity.
Qed.

(** The content of the error message of a non-2xx response contains the
    status code. *)
Lemma bad_status_content (st : Z) (text : string) :
  JsString.includes
    (errorContent (Js.Error ("API returned " ++ JsString.ofZ st
                             ++ ": " ++ text)))
    (JsString.ofZ st) = true.
Proof.
  unfold errorContent. cbn [Js.message].
  change (String.eqb ("API returned " ++ JsString.ofZ st ++ ": " ++ text) "")
    with false. cbv iota.
  change (JsString.includes
            (("❌ Error: " ++ "API returned ")
             ++ JsString.ofZ st ++ (": " ++ text))
            (JsString.ofZ st) = true).
  apply includes_app.
Qed.

(** Whatever made the request fail, the submit renders one flagged error
    message in the chat and leaves it out of [messageHistory], which gains
    the user message only. *)
Lemma handleSubmit_failure
    (backend : Backend) (t0 t1 : Z) (s s1 : State) (msg : string)
    (f : option File) (e : Js.error) :
  handleSubmit_begin t0 s = Some (msg, f, s1) ->
  fst (sendToAPI backend msg f s1) = Js.Rejected e ->
  let s' := handleSubmit backend t0 t1 s in
  messageHistory s' = messageHistory s1
  /\ chatContainer s'
     = removeFirst isLoading
         (Js.push (removeFirst isWelcome (chatContainer s1))
                  (MessageNode (Ref.errorMessageOf t1 e))).
Proof.
  intros Hb Hr s'. subst s'. unfold handleSubmit. rewrite Hb.
  destruct (sendToAPI backend msg f s1) as [result s2] eqn:E.
  cbn [fst] in Hr. subst result.
  assert (messageHistory s2 = messageHistory s1
          /\ chatContainer s2 = chatContainer s1) as [H1 H2].
  { unfold sendToAPI in E. destruct f; cbv zeta beta iota in E;
      match type of E with context [backend ?r] =>
        destruct (backend r) as [resp | e'];
        [destruct (ok resp) |] end;
      inversion E; subst; split; reflexivity. }
  cbn. rewrite H1, H2. split; reflexivity.
Qed.

(** C1 at an HTTP 500 answer to the message [hi]: one assistant message
    flagged [isError] is created, its content contains [500], and it is
    rendered in the chat; but it is not appended to [messageHistory],
    which holds the user message alone. *)
Theorem http_500_error_message_not_in_history :
  let s' := handleSubmit
              (Ref.stub 500 "Internal Server Error" (Js.Fulfilled Ref.helloBody))
              1 2 (Ref.fresh "sid" "hi") in
  let userMessage := {| role := user; content := Js.Str "hi"; file := None;
                        timestamp := 1; isError := false |} in
  let errorMessage :=
    {| role := assistant;
       content := Js.Str "❌ Error: API returned 500: Internal Server Error";
       file := None; timestamp := 2; isError := true |} in
  chatContainer s' = [MessageNode userMessage; MessageNode errorMessage]
  /\ JsString.includes
       "❌ Error: API returned 500: Internal Server Error" "500" = true
  /\ messageHistory s' = [userMessage]
  /\ ~ In errorMessage (messageHistory s')
  /\ sendButton_disabled s' = false.
Proof.
  cbv zeta. repeat split; try reflexivity.
  intros [H | []]. discriminate H.
Qed.

(** The success path appends the reply to [messageHistory] as well as to
    the chat. *)
Example hello_round_trip :
  let s' := handleSubmit (Ref.stub 200 "OK" (Js.Fulfilled Ref.helloBody))
              1 2 (Ref.fresh "sid" "hi") in
  let userMessage := {| role := user; content := Js.Str "hi"; file := None;
                        timestamp := 1; isError := false |} in
  let reply := {| role := assistant; content := Js.Str "hello"; file := None;
                  timestamp := 2; isError := false |} in
  messageHistory s' = [userMessage; reply]
  /\ chatContainer s' = [MessageNode userMessage; MessageNode reply]
  /\ sendButton_disabled s' = false
  /\ sent s' = [ {| req_url := apiEndpoint CONFIG; req_method := "POST";
                    req_headers := [("Content-Type", "application/json")];
                    req_body := JsonBody "hi" "sid" |} ].
Proof. cbv zeta. repeat split. Qed.

End Submit.

(* ===================================================================== *)
(** ** The reply text *)
(* ===================================================================== *)

Section Reply.

Import App.

Lemma get_field (v : Js.value) (k : string) :
  v <> Js.Null -> v <> Js.Undefined -> Js.get v k = inr (Ref.field v k).
Proof. intros H1 H2. destruct v; try reflexivity; congruence. Qed.

Lemma replyContent_firstTruthy (v : Js.value) :
  v <> Js.Null -> v <> Js.Undefined ->
  replyContent v = inr (Ref.firstTruthy v).
Proof.
  intros H1 H2. unfold replyContent, Ref.firstTruthy, Js.or.
  rewrite !get_field by assumption.
  destruct (Js.truthy (Ref.field v "message")); reflexivity.
Qed.

(** Where each field is absent or truthy, the first truthy field is the
    first present one. *)
Lemma firstTruthy_firstPresent (v : Js.value) :
  (Ref.field v "message" = Js.Undefined
   \/ Js.truthy (Ref.field v "message") = true) ->
  (Ref.field v "text" = Js.Undefined
   \/ Js.truthy (Ref.field v "text") = true) ->
  Ref.firstTruthy v = Ref.firstPresent v.
Proof.
  unfold Ref.firstTruthy, Ref.firstPresent.
  intros [-> | Hm].
  - cbn [Js.truthy]. intros [-> | Ht]; [reflexivity |].
    rewrite Ht. destruct (Ref.field v "text"); try reflexivity; discriminate.
  - intros _. rewrite Hm.
    destruct (Ref.field v "message"); try reflexivity; discriminate.
Qed.

(** A JSON [null] body parses but has no properties to read: the submit
    ends in the [catch]. *)
Example replyContent_null :
  replyContent Js.Null
  = inl (Js.Error "Cannot read properties of null (reading 'message')").
Proof. reflexivity. Qed.

(** C6, as amended: for every parsed JSON body other than [null], the
    reply is the [message] field when that is truthy (present and not the
    empty string, zero, [false] or [null]), else the [text] field when that
    is truthy, else the fixed fallback string; it is appended to the
    history as an assistant message that is not flagged as an error.  For
    fields that are non-empty strings this is the first present field. *)
Theorem reply_is_first_truthy_field (now : Z) (v : Js.value) (s : State) :
  v <> Js.Null -> v <> Js.Undefined ->
  let s' := handleSubmit_resume now (Js.Fulfilled v) s in
  replyContent v = inr (Ref.firstTruthy v)
  /\ messageHistory s'
     = Js.push (messageHistory s) (Ref.replyMessageOf now (Ref.firstTruthy v))
  /\ (forall m, Ref.field v "message" = Js.Str m -> m <> "" ->
      Ref.firstTruthy v = Js.Str m)
  /\ (forall t, Ref.field v "message" = Js.Undefined ->
      Ref.field v "text" = Js.Str t -> t <> "" ->
      Ref.firstTruthy v = Js.Str t)
  /\ (Ref.field v "message" = Js.Undefined ->
      Ref.field v "text" = Js.Undefined ->
      Ref.firstTruthy v = Ref.fallbackReply).
Proof.
  intros H1 H2 s'. subst s'.
  pose proof (replyContent_firstTruthy v H1 H2) as Hr.
  split; [exact Hr |]. split.
  - unfold handleSubmit_resume. rewrite Hr. reflexivity.
  - unfold Ref.firstTruthy. repeat split.
    + intros m -> Hm. cbn [Js.truthy].
      apply String.eqb_neq in Hm. rewrite Hm. reflexivity.
    + intros t -> -> Ht. cbn [Js.truthy].
      apply String.eqb_neq in Ht. rewrite Ht. reflexivity.
    + intros -> ->. reflexivity.
Qed.

Lemma reply_is_first_truthy_field_witness :
  replyContent Ref.helloBody = inr (Js.Str "hello")
  /\ messageHistory
       (handleSubmit_resume 2 (Js.Fulfilled Ref.helloBody) (Ref.fresh "sid" ""))
     = [Ref.replyMessageOf 2 (Js.Str "hello")].
Proof.
  assert (Ref.helloBody <> Js.Null) as H1 by discriminate.
  assert (Ref.helloBody <> Js.Undefined) as H2 by discriminate.
  pose proof (reply_is_first_truthy_field 2 Ref.helloBody
                (Ref.fresh "sid" "") H1 H2) as (Ha & Hb & _).
  split; [exact Ha | exact Hb].
Defined.

(** C6, as stated, fails: with a [message] field that is present but
    empty, the reply is not that field (the first present one) but the
    [text] field. *)
Lemma empty_message_field_is_skipped :
  Ref.field Ref.emptyMessageBody "message" = Js.Str ""
  /\ Ref.firstPresent Ref.emptyMessageBody = Js.Str ""
  /\ replyContent Ref.emptyMessageBody = inr (Js.Str "hello")
  /\ replyContent Ref.emptyMessageBody
     <> inr (Ref.firstPresent Ref.emptyMessageBody).
Proof. repeat split; try reflexivity. discriminate. Qed.

End Reply.

(* ===================================================================== *)
(** ** Session identifier *)
(* ===================================================================== *)

Section Session.

Import App.

(** [Math.random() * 16 | 0] is one of 0..15. *)
Lemma random_nibble (u : Q) :
  (0 <= u)%Q -> (u < 1)%Q -> 0 <= toInt32 (truncate (u * 16)) < 16.
Proof.
  intros H0 H1.
  assert (0 <= u * 16)%Q as Hlo.
  { apply Qmult_le_0_compat; [exact H0 | discriminate]. }
  assert (u * 16 < 16)%Q as Hhi.
  { change (u * 16 < 1 * 16)%Q.
    apply Qmult_lt_compat_r; [reflexivity | exact H1]. }
  unfold truncate.
  apply Qle_bool_iff in Hlo as Hb. rewrite Hb.
  pose proof (Qfloor_le (u * 16)) as Hfl.
  pose proof (Qlt_floor (u * 16)) as Hfu.
  assert (0 <= Qfloor (u * 16) < 16) as Hr.
  { split.
    - assert (0 < Qfloor (u * 16) + 1); [| lia].
      rewrite Zlt_Qlt. eapply Qle_lt_trans; [exact Hlo | exact Hfu].
    - rewrite Zlt_Qlt. eapply Qle_lt_trans; [exact Hfl | exact Hhi]. }
  unfold toInt32. rewrite Z.mod_small; lia.
Qed.

Lemma nibble_cases (r : Z) :
  0 <= r < 16 ->
  In r [0; 1; 2; 3; 4; 5; 6; 7; 8; 9; 10; 11; 12; 13; 14; 15].
Proof. intros H. cbn [In]. lia. Qed.

(** An [x] becomes one hex digit. *)
Lemma uuidDigit_x (u : Q) :
  (0 <= u)%Q -> (u < 1)%Q ->
  exists c, uuidDigit u "x" = String c "" /\ inClass c Hex = true.
Proof.
  intros H0 H1. unfold uuidDigit. cbv zeta.
  pose proof (nibble_cases _ (random_nibble u H0 H1)) as Hr.
  generalize dependent (toInt32 (truncate (u * 16))). intros r Hr.
  cbn [In] in Hr.
  repeat (destruct Hr as [<- | Hr]; [eexists; split; reflexivity |]).
  contradiction.
Qed.

(** The [y] becomes one of 8, 9, a, b. *)
Lemma uuidDigit_y (u : Q) :
  (0 <= u)%Q -> (u < 1)%Q ->
  exists c, uuidDigit u "y" = String c "" /\ inClass c Variant = true.
Proof.
  intros H0 H1. unfold uuidDigit. cbv zeta.
  pose proof (nibble_cases _ (random_nibble u H0 H1)) as Hr.
  generalize dependent (toInt32 (truncate (u * 16))). intros r Hr.
  cbn [In] in Hr.
  repeat (destruct Hr as [<- | Hr]; [eexists; split; reflexivity |]).
  contradiction.
Qed.

(** Filling a template that agrees with a pattern gives a string that
    matches the pattern. *)
Lemma replaceXY_matches (rand : nat -> Q) :
  (forall k, (0 <= rand k)%Q /\ (rand k < 1)%Q) ->
  forall (t : string) (p : list CharClass) (k : nat),
    Ref.agrees p t = true -> matches p (replaceXY rand k t) = true.
Proof.
  intros Hrand. induction t as [| c t IH]; intros p k Hag.
  - destruct p; [reflexivity | discriminate].
  - destruct p as [| cls p]; [discriminate |].
    cbn [Ref.agrees] in Hag. apply andb_prop in Hag as [Hc Ht].
    cbn [replaceXY]. destruct (Hrand k) as [H0 H1].
    destruct (Ascii.eqb_spec c "x") as [-> | Hx].
    + destruct cls; try discriminate.
      destruct (uuidDigit_x _ H0 H1) as (d & -> & Hd).
      cbn [orb]. change (String d "" ++ ?s) with (String d s).
      cbn [matches]. rewrite Hd. apply IH, Ht.
    + destruct (Ascii.eqb_spec c "y") as [-> | Hy].
      * destruct cls; try discriminate.
        destruct (uuidDigit_y _ H0 H1) as (d & -> & Hd).
        cbn [orb]. change (String d "" ++ ?s) with (String d s).
        cbn [matches]. rewrite Hd. apply IH, Ht.
      * cbn [orb matches]. rewrite Hc. apply IH, Ht.
Qed.

Lemma fresh_id_is_uuid (rand : nat -> Q) :
  (forall k, (0 <= rand k)%Q /\ (rand k < 1)%Q) ->
  isUuidV4 (replaceXY rand 0 uuidTemplate) = true.
Proof.
  intros H. apply replaceXY_matches; [exact H | reflexivity].
Qed.

Lemma uuid_not_empty (s : string) : isUuidV4 s = true -> s <> "".
Proof. intros H ->. discriminate H. Qed.

(** A stored non-empty identifier is read back and nothing is written. *)
Lemma getOrCreateSessionId_stored
    (rand : nat -> Q) (ls : Storage) (stored : string) :
  ls !! "atlas_session_id" = Some stored -> stored <> "" ->
  getOrCreateSessionId rand ls = (stored, ls).
Proof.
  intros Hs Hne. unfold getOrCreateSessionId. rewrite Hs.
  apply String.eqb_neq in Hne. rewrite Hne. reflexivity.
Qed.

(** Nothing stored, or an empty string: a fresh identifier is written. *)
Lemma getOrCreateSessionId_fresh (rand : nat -> Q) (ls : Storage) :
  ls !! "atlas_session_id" = None \/ ls !! "atlas_session_id" = Some "" ->
  getOrCreateSessionId rand ls
  = (replaceXY rand 0 uuidTemplate,
     <["atlas_session_id" := replaceXY rand 0 uuidTemplate]> ls).
Proof.
  intros [H | H]; unfold getOrCreateSessionId; rewrite H; reflexivity.
Qed.

(** C7: a bootstrap with nothing stored under [atlas_session_id] (an
    empty string counts as nothing) generates an identifier of the UUID
    version 4 shape, with version digit 4 and variant digit in 8, 9, a, b,
    stores it under the key and returns it; a bootstrap that finds a
    stored identifier returns it and leaves the storage as it is; and the
    bootstrap after either one returns that same identifier again. *)
Theorem getOrCreateSessionId_bootstrap (rand : nat -> Q) (ls : Storage) :
  (forall k, (0 <= rand k)%Q /\ (rand k < 1)%Q) ->
  let id := fst (getOrCreateSessionId rand ls) in
  let ls' := snd (getOrCreateSessionId rand ls) in
  (ls !! "atlas_session_id" = None \/ ls !! "atlas_session_id" = Some "" ->
   isUuidV4 id = true
   /\ ls' = <["atlas_session_id" := id]> ls
   /\ ls' !! "atlas_session_id" = Some id)
  /\ (forall stored,
        ls !! "atlas_session_id" = Some stored -> stored <> "" ->
        id = stored /\ ls' = ls)
  /\ (forall rand', getOrCreateSessionId rand' ls' = (id, ls')).
Proof.
  intros Hrand id ls'. subst id ls'.
  assert (forall stored, ls !! "atlas_session_id" = Some stored ->
          stored <> "" -> getOrCreateSessionId rand ls = (stored, ls))
    as Hstored by (intros; by apply getOrCreateSessionId_stored).
  assert (ls !! "atlas_session_id" = None
          \/ ls !! "atlas_session_id" = Some "" ->
          getOrCreateSessionId rand ls
          = (replaceXY rand 0 uuidTemplate,
             <["atlas_session_id" := replaceXY rand 0 uuidTemplate]> ls))
    as Hfresh by apply getOrCreateSessionId_fresh.
  pose proof (fresh_id_is_uuid rand Hrand) as Huuid.
  split; [| split].
  - intros H. rewrite (Hfresh H). cbn [fst snd].
    split; [exact Huuid |]. split; [reflexivity |].
    apply lookup_insert_eq.
  - intros stored Hs Hne. rewrite (Hstored stored Hs Hne). split; reflexivity.
  - intros rand'.
    destruct (ls !! "atlas_session_id") as [stored |] eqn:E.
    + destruct (String.eqb_spec stored "") as [-> | Hne].
      * rewrite (Hfresh (or_intror eq_refl)). cbn [fst snd].
        apply getOrCreateSessionId_stored;
          [apply lookup_insert_eq | by apply uuid_not_empty].
      * rewrite (Hstored stored eq_refl Hne). cbn [fst snd].
        by apply getOrCreateSessionId_stored.
    + rewrite (Hfresh (or_introl eq_refl)). cbn [fst snd].
      apply getOrCreateSessionId_stored;
        [apply lookup_insert_eq | by apply uuid_not_empty].
Qed.

Lemma getOrCreateSessionId_bootstrap_witness :
  isUuidV4 (fst (getOrCreateSessionId Ref.half ∅)) = true
  /\ snd (getOrCreateSessionId Ref.half ∅) !! "atlas_session_id"
     = Some (fst (getOrCreateSessionId Ref.half ∅))
  /\ getOrCreateSessionId Ref.half (snd (getOrCreateSessionId Ref.half ∅))
     = getOrCreateSessionId Ref.half ∅.
Proof.
  assert (forall k : nat, (0 <= Ref.half k)%Q /\ (Ref.half k < 1)%Q) as Hr.
  { intros k. split; [discriminate | reflexivity]. }
  pose proof (getOrCreateSessionId_bootstrap Ref.half ∅ Hr) as (H1 & _ & H3).
  destruct (H1 (or_introl (lookup_empty _))) as (Ha & _ & Hc).
  split; [exact Ha |]. split; [exact Hc |].
  rewrite (H3 Ref.half). symmetry. apply surjective_pairing.
Defined.

Example fresh_id_sample :
  fst (getOrCreateSessionId Ref.half ∅)
  = "88888888-8888-4888-8888-888888888888".
Proof.
  rewrite getOrCreateSessionId_fresh by (left; apply lookup_empty).
  reflexivity.
Qed.

End Session.

(* ===================================================================== *)
(** ** Byte counts *)
(* ===================================================================== *)

Section Formatting.

Import App.

Lemma floorLogFuel_bounds (k : Z) :
  2 <= k ->
  forall (fuel : nat) (x : Z),
    1 <= x -> Z.log2 x <= Z.of_nat fuel ->
    0 <= floorLogFuel fuel k x
    /\ k ^ floorLogFuel fuel k x <= x < k ^ (floorLogFuel fuel k x + 1).
Proof.
  intros Hk. induction fuel as [| fuel IH]; intros x Hx Hlog.
  - cbn [floorLogFuel].
    assert (x < 2).
    { destruct (Z.lt_ge_cases x 2) as [H | H]; [exact H |].
      pose proof (Z.log2_le_mono 2 x H) as Hm.
      change (Z.log2 2) with 1 in Hm. lia. }
    rewrite Z.pow_0_r, Z.pow_1_r. lia.
  - cbn [floorLogFuel]. destruct (Z.ltb_spec x k) as [Hlt | Hge].
    + rewrite Z.pow_0_r, Z.pow_1_r. lia.
    + assert (1 <= x / k) as Hq.
      { apply Z.div_le_lower_bound; lia. }
      assert (Z.log2 (x / k) <= Z.of_nat fuel) as Hlq.
      { assert (x / k <= x / 2) as Hh.
        { apply Z.div_le_compat_l; lia. }
        pose proof (Z.log2_le_mono _ _ Hh) as Hm.
        assert (Z.log2 (x / 2) <= Z.log2 x - 1) as E.
        { change (x / 2) with (x / 2 ^ 1).
          rewrite <- (Z.shiftr_div_pow2 x 1) by lia.
          rewrite Z.log2_shiftr by lia.
          assert (1 <= Z.log2 x); [| lia].
          pose proof (Z.log2_le_mono 2 x ltac:(lia)) as Hm2.
          change (Z.log2 2) with 1 in Hm2. exact Hm2. }
        lia. }
      destruct (IH (x / k) Hq Hlq) as (H0 & Hlo & Hhi).
      set (j := floorLogFuel fuel k (x / k)) in *.
      split; [lia |].
      replace (1 + j + 1) with (Z.succ (1 + j)) by lia.
      replace (1 + j) with (Z.succ j) by lia.
      rewrite !Z.pow_succ_r by lia.
      pose proof (Z.div_mod x k ltac:(lia)) as Hdm.
      pose proof (Z.mod_pos_bound x k ltac:(lia)) as Hmod.
      replace (j + 1) with (Z.succ j) in Hhi by lia.
      rewrite Z.pow_succ_r in Hhi by lia.
      split; nia.
Qed.

(** [floorLog k x] is the largest [i] with [k^i <= x]. *)
Lemma floorLog_bounds (k x : Z) :
  2 <= k -> 1 <= x ->
  0 <= floorLog k x /\ k ^ floorLog k x <= x < k ^ (floorLog k x + 1).
Proof.
  intros Hk Hx. unfold floorLog. apply floorLogFuel_bounds; try assumption.
  rewrite Z2Nat.id; [lia | apply Z.log2_nonneg].
Qed.

Lemma sizeUnit_defined (i : Z) : 0 <= i < 4 -> In (sizeUnit i) sizes.
Proof.
  intros H.
  assert (i = 0 \/ i = 1 \/ i = 2 \/ i = 3) as [-> | [-> | [-> | ->]]] by lia;
    cbn; tauto.
Qed.

Lemma sizeUnit_undefined (i : Z) : 4 <= i -> sizeUnit i = "undefined".
Proof.
  intros H. unfold sizeUnit.
  destruct (Z.ltb_spec i 0); [lia |].
  assert (nth_error sizes (Z.to_nat i) = None) as ->; [| reflexivity].
  apply nth_error_None. cbn [Datatypes.length sizes]. lia.
Qed.

(** Below 1024^4 bytes the count is scaled by the largest power of 1024
    that does not exceed it, rounded to hundredths, and labelled with one
    of the four units. *)
Lemma formatFileSize_in_range (bytes : Z) :
  0 < bytes < 1024 ^ 4 ->
  exists i,
    0 <= i < 4
    /\ 1024 ^ i <= bytes < 1024 ^ (i + 1)
    /\ In (sizeUnit i) sizes
    /\ formatFileSize bytes
       = hundredths ((200 * bytes + 1024 ^ i) / (2 * 1024 ^ i))
         ++ " " ++ sizeUnit i.
Proof.
  intros [Hpos Hmax].
  destruct (floorLog_bounds 1024 bytes ltac:(lia) ltac:(lia)) as (H0 & Hlo & Hhi).
  exists (floorLog 1024 bytes).
  assert (floorLog 1024 bytes < 4) as Hi.
  { destruct (Z.lt_ge_cases (floorLog 1024 bytes) 4) as [H | H]; [exact H |].
    pose proof (Z.pow_le_mono_r 1024 4 (floorLog 1024 bytes) ltac:(lia) H).
    lia. }
  split; [lia |]. split; [lia |]. split; [apply sizeUnit_defined; lia |].
  unfold formatFileSize.
  destruct (Z.eqb_spec bytes 0); [lia |].
  destruct (Z.ltb_spec bytes 0); [lia |]. reflexivity.
Qed.

(** From 1024^4 bytes on the index runs past the last unit and the label
    is the text [undefined]. *)
Lemma formatFileSize_past_units (bytes : Z) :
  1024 ^ 4 <= bytes ->
  exists mantissa, formatFileSize bytes = mantissa ++ " undefined".
Proof.
  intros Hbig.
  assert (1 <= bytes) as Hpos.
  { pose proof (Z.pow_pos_nonneg 1024 4 ltac:(lia) ltac:(lia)). lia. }
  destruct (floorLog_bounds 1024 bytes ltac:(lia) Hpos) as (H0 & Hlo & Hhi).
  assert (4 <= floorLog 1024 bytes) as Hi.
  { destruct (Z.lt_ge_cases (floorLog 1024 bytes) 4) as [H | H]; [| exact H].
    pose proof (Z.pow_le_mono_r 1024 (floorLog 1024 bytes + 1) 4
                  ltac:(lia) ltac:(lia)).
    lia. }
  unfold formatFileSize.
  destruct (Z.eqb_spec bytes 0); [lia |].
  destruct (Z.ltb_spec bytes 0); [lia |]. cbv zeta.
  rewrite (sizeUnit_undefined _ Hi). eauto.
Qed.

Example formatFileSize_zero : formatFileSize 0 = "0 Bytes".
Proof. reflexivity. Qed.

Example formatFileSize_1536 : formatFileSize 1536 = "1.5 KB".
Proof. reflexivity. Qed.

Example formatFileSize_10_MiB : formatFileSize 10485760 = "10 MB".
Proof. reflexivity. Qed.

Example formatFileSize_rounds : formatFileSize 1075 = "1.05 KB".
Proof. reflexivity. Qed.





End Formatting.

(* ===================================================================== *)
(** ** Worker: install *)
(* ===================================================================== *)

Section Install.

Import Worker.

Lemma existsb_pointwise {A : Type} (f g : A -> bool) (l : list A) :
  (forall x, f x = g x) -> existsb f l = existsb g l.
Proof.
  intros H. induction l as [| x l IH]; [reflexivity |].
  cbn [existsb]. rewrite H, IH. reflexivity.
Qed.

Lemma absolute_origin (s s' : State) (u : string) :
  origin s' = origin s -> absolute s' u = absolute s u.
Proof. intros H. unfold absolute. rewrite H. reflexivity. Qed.

Lemma fetchAll_cons (net : Network) (u : string) (urls : list string)
    (s : State) :
  fetchAll net (u :: urls) s
  = let s1 := set_fetched (Js.push (fetched s) (absolute s u)) s in
    let rs := fetchAll net urls s1 in
    (match net (absolute s u), fst rs with
     | Js.Rejected e, _ => Js.Rejected e
     | Js.Fulfilled resp, Js.Rejected e =>
         if okStatus resp then Js.Rejected e
         else Js.Rejected (Js.Error "Request failed")
     | Js.Fulfilled resp, Js.Fulfilled l =>
         if okStatus resp then Js.Fulfilled ((absolute s u, resp) :: l)
         else Js.Rejected (Js.Error "Request failed")
     end, snd rs).
Proof.
  cbn [fetchAll]. unfold fetch. cbv zeta.
  destruct (fetchAll net urls _) as [rs s2]. cbn [fst snd].
  destruct (net (absolute s u)) as [resp | e]; [| reflexivity].
  destruct rs; destruct (okStatus resp); reflexivity.
Qed.

(** The fetches of [addAll] touch the list of requested URLs only, and
    request every URL once. *)
Lemma fetchAll_state (net : Network) (urls : list string) :
  forall s,
    origin (snd (fetchAll net urls s)) = origin s
    /\ caches (snd (fetchAll net urls s)) = caches s
    /\ console (snd (fetchAll net urls s)) = console s
    /\ skippedWaiting (snd (fetchAll net urls s)) = skippedWaiting s
    /\ fetched (snd (fetchAll net urls s))
       = (fetched s ++ List.map (absolute s) urls)%list.
Proof.
  induction urls as [| u urls IH]; intros s.
  - cbn. rewrite app_nil_r. repeat split.
  - rewrite fetchAll_cons. cbv zeta. cbn [snd].
    set (s1 := set_fetched (Js.push (fetched s) (absolute s u)) s).
    destruct (IH s1) as (Ho & Hc & Hl & Hw & Hf).
    split; [exact Ho |]. split; [exact Hc |].
    split; [exact Hl |]. split; [exact Hw |].
    rewrite Hf. subst s1. cbn [fetched set_fetched List.map].
    unfold Js.push. rewrite <- app_assoc. reflexivity.
Qed.

(** One unusable asset makes the whole population reject. *)
Lemma fetchAll_rejects (net : Network) (urls : list string) :
  forall s,
    existsb (fun u => WorkerRef.unusable (net (absolute s u))) urls = true ->
    exists e, fst (fetchAll net urls s) = Js.Rejected e.
Proof.
  induction urls as [| u urls IH]; intros s Hbad; [discriminate |].
  cbn [existsb] in Hbad. rewrite fetchAll_cons. cbv zeta. cbn [fst].
  set (s1 := set_fetched (Js.push (fetched s) (absolute s u)) s).
  assert (existsb (fun u0 => WorkerRef.unusable (net (absolute s1 u0))) urls
          = existsb (fun u0 => WorkerRef.unusable (net (absolute s u0))) urls)
    as Hsame by reflexivity.
  specialize (IH s1). rewrite Hsame in IH.
  destruct (fetchAll net urls s1) as [rs s2]. cbn [fst] in IH |- *.
  destruct (net (absolute s u)) as [resp | e]; [| eauto].
  cbn [WorkerRef.unusable] in Hbad.
  destruct (okStatus resp).
  - cbn [negb orb] in Hbad. destruct (IH Hbad) as (e & ->). eauto.
  - destruct rs; eauto.
Qed.

(** The promise the install listener hands to [waitUntil] never rejects:
    the [catch] at the end of the chain turns every rejection into a
    fulfilment. *)
Lemma onInstall_fulfils (name : string) (net : Network) (s : State) :
  fst (onInstall name net s) = Js.Fulfilled tt.
Proof.
  unfold onInstall. unfold then_ at 1. cbn [console_log].
  unfold catch_.
  match goal with |- context [then_ ?p ?f ?st] =>
    destruct (then_ p f st) as [[[] | e] s'] end; reflexivity.
Qed.

(** When the population fails, the failure is logged, every asset has been
    requested once, [skipWaiting] is not called, and the worker is still
    taken as installed. *)
Lemma onInstall_failure (name : string) (net : Network) (s : State) :
  WorkerRef.populationFails net s = true ->
  let s' := snd (onInstall name net s) in
  afterInstall (fst (onInstall name net s)) = Installed
  /\ skippedWaiting s' = skippedWaiting s
  /\ fetched s' = (fetched s ++ List.map (absolute s) ASSETS_TO_CACHE)%list
  /\ exists e,
       console s'
       = (console s ++ ["[SW] Installing service worker...";
                        "[SW] Caching app shell";
                        String.append "[SW] Installation failed: "
                                      (Js.message e)])%list.
Proof.
  intros Hbad s'. subst s'.
  split; [rewrite onInstall_fulfils; reflexivity |].
  assert (exists e s4,
            snd (onInstall name net s)
            = set_console
                (Js.push (console s4)
                   ("[SW] Installation failed: " ++ Js.message e)) s4
            /\ skippedWaiting s4 = skippedWaiting s
            /\ fetched s4
               = (fetched s ++ List.map (absolute s) ASSETS_TO_CACHE)%list
            /\ console s4
               = Js.push (Js.push (console s)
                                  "[SW] Installing service worker...")
                         "[SW] Caching app shell")
    as (e & s4 & -> & Hw4 & Hf4 & Hl4).
  { unfold onInstall. unfold then_ at 1. cbn [console_log].
    set (s1 := set_console _ s). unfold catch_, then_ at 1.
    assert (exists s2, caches_open name s1 = (Js.Fulfilled name, s2)
            /\ origin s2 = origin s /\ console s2 = console s1
            /\ skippedWaiting s2 = skippedWaiting s
            /\ fetched s2 = fetched s) as (s2 & -> & Ho & Hl & Hw & Hf).
    { unfold caches_open. destruct (assoc name (caches s1));
        eexists; (split; [reflexivity |]); repeat split. }
    unfold then_ at 1, then_ at 1. cbn [console_log].
    set (s3 := set_console _ s2). unfold cache_addAll, then_ at 1.
    assert (existsb (fun u => WorkerRef.unusable (net (absolute s3 u)))
              ASSETS_TO_CACHE = true) as Hbad3.
    { unfold WorkerRef.populationFails in Hbad. rewrite <- Hbad.
      apply existsb_pointwise. intros u. f_equal. f_equal.
      apply absolute_origin. subst s3. cbn. exact Ho. }
    destruct (fetchAll_rejects net ASSETS_TO_CACHE s3 Hbad3) as (e & He).
    pose proof (fetchAll_state net ASSETS_TO_CACHE s3) as Hst.
    destruct (fetchAll net ASSETS_TO_CACHE s3) as [r s4].
    cbn [fst snd] in He, Hst. subst r.
    destruct Hst as (Ho4 & Hc4 & Hl4 & Hw4 & Hf4).
    exists e, s4. split; [reflexivity |].
    split; [rewrite Hw4; subst s3; cbn; exact Hw |].
    split.
    - rewrite Hf4. subst s3. cbn [fetched set_console]. rewrite Hf.
      f_equal. apply map_ext. intros u. apply absolute_origin.
      cbn. exact Ho.
    - rewrite Hl4. subst s3. cbn [console set_console]. rewrite Hl.
      subst s1. reflexivity. }
  cbn [skippedWaiting fetched console set_console].
  split; [exact Hw4 |]. split; [exact Hf4 |].
  exists e. rewrite Hl4. unfold Js.push. rewrite <- !app_assoc. reflexivity.
Qed.

(** C2 with the stylesheet unreachable: the failure is logged, each asset
    was requested once and there is no retry, [skipWaiting] is not called
    and nothing is cached; but the promise given to [waitUntil] is
    fulfilled, not rejected, so the installation is not aborted. *)
Theorem install_failure_is_swallowed :
  let run := onInstall CACHE_NAME WorkerRef.noStylesheet (WorkerRef.started []) in
  WorkerRef.populationFails WorkerRef.noStylesheet (WorkerRef.started []) = true
  /\ fst run = Js.Fulfilled tt
  /\ afterInstall (fst run) = Installed
  /\ console (snd run)
     = ["[SW] Installing service worker..."; "[SW] Caching app shell";
        "[SW] Installation failed: Failed to fetch"]
  /\ fetched (snd run)
     = List.map (String.append "https://atlas.example") ASSETS_TO_CACHE
  /\ skippedWaiting (snd run) = false
  /\ caches (snd run) = [(CACHE_NAME, [])].
Proof. cbv zeta. repeat split. Qed.

(** With every asset reachable the same listener fills the cache and
    calls [skipWaiting]. *)
Example install_online :
  let run := onInstall CACHE_NAME WorkerRef.online (WorkerRef.started []) in
  fst run = Js.Fulfilled tt
  /\ skippedWaiting (snd run) = true
  /\ List.map fst (caches (snd run)) = [CACHE_NAME]
  /\ List.map fst (concat (List.map snd (caches (snd run))))
     = List.map (String.append "https://atlas.example") ASSETS_TO_CACHE.
Proof. cbv zeta. repeat split. Qed.

End Install.

(* ===================================================================== *)
(** ** Worker: activate *)
(* ===================================================================== *)

Section Activate.

Import Worker.

Lemma assoc_none_remove {V : Type} (k : string) (l : list (string * V)) :
  assoc k l = None -> remove k l = l.
Proof.
  unfold remove. induction l as [| [k' v] l IH]; [reflexivity |].
  cbn [assoc List.filter fst]. destruct (String.eqb k k'); [discriminate |].
  intros H. cbn [negb]. rewrite (IH H). reflexivity.
Qed.

(** [caches.delete(name)] leaves the storage without [name], whether or
    not it held it. *)
Lemma caches_delete_caches (name : string) (s : State) :
  caches (snd (caches_delete name s)) = remove name (caches s).
Proof.
  unfold caches_delete. destruct (assoc name (caches s)) eqn:E.
  - reflexivity.
  - cbn [snd]. symmetry. apply assoc_none_remove, E.
Qed.

Lemma caches_delete_fulfils (name : string) (s : State) :
  exists b, fst (caches_delete name s) = Js.Fulfilled b.
Proof.
  unfold caches_delete. destruct (assoc name (caches s)); eauto.
Qed.

Lemma filter_filter {A : Type} (f g : A -> bool) (l : list A) :
  List.filter f (List.filter g l) = List.filter (fun x => g x && f x) l.
Proof.
  induction l as [| x l IH]; [reflexivity |].
  cbn [List.filter]. destruct (g x); cbn [List.filter andb]; rewrite IH;
    reflexivity.
Qed.

(** The deletions of the activate listener, run one after the other. *)
Lemma delete_all (names : list string) :
  forall s,
    exists bs s',
      Promise_all
        (List.map
           (fun cacheName =>
              then_ (console_log ("[SW] Deleting old cache: " ++ cacheName))
                    (fun _ => caches_delete cacheName))
           names) s
      = (Js.Fulfilled bs, s')
      /\ caches s'
         = List.filter
             (fun kv => negb (existsb (String.eqb (fst kv)) names))
             (caches s)
      /\ claimedClients s' = claimedClients s.
Proof.
  induction names as [| n names IH]; intros s.
  - exists [], s. split; [reflexivity |]. split; [| reflexivity].
    cbn [existsb negb]. induction (caches s) as [| kv l IHl];
      [reflexivity |]. cbn [List.filter]. rewrite <- IHl. reflexivity.
  - cbn [List.map Promise_all]. unfold then_ at 1 2. cbn [console_log].
    set (s1 := set_console _ s).
    pose proof (caches_delete_caches n s1) as Hc.
    destruct (caches_delete_fulfils n s1) as (b & Hb).
    assert (claimedClients (snd (caches_delete n s1)) = claimedClients s)
      as Hk.
    { unfold caches_delete. destruct (assoc n (caches s1)); reflexivity. }
    destruct (caches_delete n s1) as [r s2]. cbn [fst snd] in Hb, Hc, Hk.
    subst r. unfold then_ at 1.
    destruct (IH s2) as (bs & s' & -> & Hcs & Hks).
    exists (b :: bs), s'. split; [reflexivity |].
    split; [| congruence].
    rewrite Hcs, Hc. subst s1. cbn [caches set_console].
    unfold remove. rewrite filter_filter.
    apply filter_ext. intros kv. cbn [existsb].
    rewrite negb_orb. rewrite (String.eqb_sym n (fst kv)). reflexivity.
Qed.

Lemma onActivate_run (current : string) (s : State) :
  exists s',
    onActivate current s = (Js.Fulfilled tt, s')
    /\ caches s'
       = List.filter (fun kv => String.eqb (fst kv) current) (caches s)
    /\ claimedClients s' = true.
Proof.
  unfold onActivate. unfold then_ at 1. cbn [console_log].
  set (s1 := set_console _ s).
  unfold then_ at 1. unfold caches_keys at 1. unfold then_ at 1.
  destruct (delete_all
              (List.filter (fun cacheName => negb (String.eqb cacheName current))
                           (List.map fst (caches s1))) s1)
    as (bs & s2 & -> & Hc & Hk).
  unfold then_. cbn [console_log clients_claim].
  eexists. split; [reflexivity |]. cbn [caches claimedClients set_console
                                         set_claimedClients].
  split; [| reflexivity].
  rewrite Hc. subst s1. cbn [caches set_console].
  apply filter_ext_in. intros kv Hin.
  destruct (String.eqb_spec (fst kv) current) as [E | E].
  - apply negb_true_iff. apply not_true_is_false. intros Hex.
    apply existsb_exists in Hex as (x & Hx & Hxe).
    apply String.eqb_eq in Hxe. subst x.
    apply filter_In in Hx as [_ Hx]. rewrite E, String.eqb_refl in Hx.
    discriminate.
  - apply negb_false_iff. apply existsb_exists. exists (fst kv).
    split; [| apply String.eqb_refl].
    apply filter_In. split; [apply in_map, Hin |].
    apply negb_true_iff. apply String.eqb_neq, E.
Qed.

(** After activation the storage holds the caches named [current], and
    those only; the clients are claimed. *)
Lemma onActivate_caches (current : string) (s : State) :
  fst (onActivate current s) = Js.Fulfilled tt
  /\ caches (snd (onActivate current s))
     = List.filter (fun kv => String.eqb (fst kv) current) (caches s)
  /\ claimedClients (snd (onActivate current s)) = true.
Proof.
  destruct (onActivate_run current s) as (s' & -> & Hc & Hk).
  cbn [fst snd]. auto.
Qed.

Lemma filter_names (current : string) (cs : CacheStorage) :
  List.map fst (List.filter (fun kv => String.eqb (fst kv) current) cs)
  = List.filter (fun n => String.eqb n current) (List.map fst cs).
Proof.
  induction cs as [| kv cs IH]; [reflexivity |].
  cbn [List.filter List.map]. destruct (String.eqb (fst kv) current);
    cbn [List.map]; rewrite IH; reflexivity.
Qed.

Lemma filter_none (current : string) (l : list string) :
  ~ In current l -> List.filter (fun n => String.eqb n current) l = [].
Proof.
  induction l as [| n l IH]; [reflexivity |].
  intros H. cbn [List.filter].
  destruct (String.eqb_spec n current) as [-> | _].
  - exfalso. apply H. left. reflexivity.
  - apply IH. intros Hin. apply H. right. exact Hin.
Qed.

(** Among distinct names, the ones equal to a member are that member. *)
Lemma filter_the_one (current : string) (l : list string) :
  List.NoDup l -> In current l ->
  List.filter (fun n => String.eqb n current) l = [current].
Proof.
  induction 1 as [| n l Hn Hl IH]; [contradiction |].
  intros Hin. cbn [List.filter].
  destruct (String.eqb_spec n current) as [-> | Hne].
  - rewrite (filter_none current l Hn). reflexivity.
  - destruct Hin as [-> | Hin]; [congruence |]. apply IH, Hin.
Qed.

(** Opening a cache keeps the names distinct and makes the name present. *)
Lemma assoc_none_names {V : Type} (k : string) (l : list (string * V)) :
  assoc k l = None -> ~ In k (List.map fst l).
Proof.
  induction l as [| [k' v] l IH]; [intros _ []|].
  cbn [assoc List.map fst In]. destruct (String.eqb_spec k k'); [discriminate |].
  intros H [E | Hin]; [congruence | exact (IH H Hin)].
Qed.

Lemma assoc_some_names {V : Type} (k : string) (l : list (string * V)) (v : V) :
  assoc k l = Some v -> In k (List.map fst l).
Proof.
  induction l as [| [k' v'] l IH]; [discriminate |].
  cbn [assoc List.map fst In]. destruct (String.eqb_spec k k') as [-> | _].
  - intros _. left. reflexivity.
  - intros H. right. exact (IH H).
Qed.

Lemma caches_open_names (name : string) (s : State) :
  List.NoDup (WorkerRef.names s) ->
  List.NoDup (WorkerRef.names (snd (caches_open name s)))
  /\ In name (WorkerRef.names (snd (caches_open name s))).
Proof.
  unfold WorkerRef.names, caches_open. intros Hnd.
  destruct (assoc name (caches s)) eqn:E; cbn [snd].
  - split; [exact Hnd | eapply assoc_some_names, E].
  - cbn [caches set_caches]. unfold Js.push. rewrite map_app.
    cbn [List.map fst]. split.
    + apply List.NoDup_app; [exact Hnd | |].
      * apply List.NoDup_cons; [intros [] | apply List.NoDup_nil].
      * intros x Hx [<- | []]. exact (assoc_none_names _ _ E Hx).
    + apply in_or_app. right. left. reflexivity.
Qed.

(** Whatever is in storage, no generation with another name survives
    activation. *)
Lemma activation_purges_others (current name : string) (s : State) :
  name <> current ->
  ~ In name (WorkerRef.names (snd (onActivate current s))).
Proof.
  intros Hne. destruct (onActivate_caches current s) as (_ & Hc & _).
  unfold WorkerRef.names. rewrite Hc, filter_names. intros Hin.
  apply filter_In in Hin as [_ E]. apply String.eqb_eq in E. congruence.
Qed.

Lemma upsert_names {V : Type} (k : string) (v : V) (l : list (string * V)) :
  In k (List.map fst l) -> List.map fst (upsert k v l) = List.map fst l.
Proof.
  induction l as [| [k' v'] l IH]; [intros [] |].
  cbn [upsert List.map fst In].
  destruct (String.eqb_spec k k') as [-> | Hne]; [reflexivity |].
  intros [E | Hin]; [congruence |]. cbn [List.map fst]. rewrite (IH Hin).
  reflexivity.
Qed.

(** The install listener adds the current generation to the storage, if it
    is not there, and no other. *)
Lemma onInstall_names (name : string) (net : Network) (s : State) :
  WorkerRef.names (snd (onInstall name net s))
  = WorkerRef.names (snd (caches_open name s)).
Proof.
  unfold onInstall. unfold then_ at 1. cbn [console_log].
  set (s1 := set_console _ s). unfold catch_, then_ at 1.
  assert (exists s2, caches_open name s1 = (Js.Fulfilled name, s2)
          /\ caches s2 = caches (snd (caches_open name s))
          /\ In name (List.map fst (caches s2))) as (s2 & -> & Hc & Hin).
  { unfold caches_open. subst s1. cbn [caches set_console].
    destruct (assoc name (caches s)) eqn:E; eexists;
      (split; [reflexivity |]); cbn [snd caches set_caches set_console];
      (split; [reflexivity |]).
    - eapply assoc_some_names, E.
    - unfold Js.push. rewrite map_app. apply in_or_app. right. left.
      reflexivity. }
  unfold WorkerRef.names at 2. rewrite <- Hc.
  unfold then_ at 1, then_ at 1. cbn [console_log].
  set (s3 := set_console _ s2). unfold cache_addAll, then_ at 1.
  pose proof (fetchAll_state net ASSETS_TO_CACHE s3) as (_ & Hc4 & _).
  destruct (fetchAll net ASSETS_TO_CACHE s3) as [[entries | e] s4];
    cbn [snd] in Hc4.
  - destruct (assoc name (caches s4)) as [c |] eqn:E.
    + unfold then_. cbn. unfold WorkerRef.names. cbn.
      rewrite upsert_names; rewrite Hc4; subst s3; [reflexivity | exact Hin].
    + unfold then_. cbn. unfold WorkerRef.names. cbn.
      rewrite Hc4. reflexivity.
  - unfold WorkerRef.names. cbn. rewrite Hc4. reflexivity.
Qed.

(** Install, then activate: exactly the current generation is left,
    whatever the network did during the install. *)
Lemma install_then_activate (name : string) (net : Network) (s : State) :
  List.NoDup (WorkerRef.names s) ->
  WorkerRef.names (snd (onActivate name (snd (onInstall name net s))))
  = [name].
Proof.
  intros Hnd.
  destruct (onActivate_caches name (snd (onInstall name net s)))
    as (_ & Hc & _).
  unfold WorkerRef.names at 1. rewrite Hc, filter_names.
  change (List.map fst (caches (snd (onInstall name net s))))
    with (WorkerRef.names (snd (onInstall name net s))).
  rewrite onInstall_names.
  destruct (caches_open_names name s Hnd) as [Hnd' Hin].
  apply filter_the_one; assumption.
Qed.

(** C5: activation deletes every cache generation whose name differs from
    the current one and keeps the others, so no generation with another
    name is left; the current generation, in storage when activation runs
    as it always is after the install step, is then the one generation
    that remains.  In particular, with [atlas-v1] and [atlas-v2] in
    storage and [atlas-v2] current, only [atlas-v2] remains. *)
Theorem activation_leaves_current_generation (current : string) (s : State) :
  List.NoDup (WorkerRef.names s) ->
  let s' := snd (onActivate current s) in
  caches s' = List.filter (fun kv => String.eqb (fst kv) current) (caches s)
  /\ (forall name, name <> current -> ~ In name (WorkerRef.names s'))
  /\ (In current (WorkerRef.names s) -> WorkerRef.names s' = [current])
  /\ (forall net,
        WorkerRef.names
          (snd (onActivate current (snd (onInstall current net s))))
        = [current])
  /\ WorkerRef.names
       (snd (onActivate "atlas-v2"
               (WorkerRef.started WorkerRef.twoGenerations)))
     = ["atlas-v2"].
Proof.
  intros Hnd s'. subst s'.
  destruct (onActivate_caches current s) as (_ & Hc & _).
  split; [exact Hc |]. split; [| split; [| split]].
  - intros name Hne. apply activation_purges_others, Hne.
  - intros Hin. unfold WorkerRef.names at 1. rewrite Hc, filter_names.
    apply filter_the_one; assumption.
  - intros net. apply install_then_activate, Hnd.
  - destruct (onActivate_caches "atlas-v2"
                (WorkerRef.started WorkerRef.twoGenerations)) as (_ & Hc2 & _).
    unfold WorkerRef.names. rewrite Hc2. reflexivity.
Qed.

Lemma activation_leaves_current_generation_witness :
  WorkerRef.names
    (snd (onActivate "atlas-v2" (WorkerRef.started WorkerRef.twoGenerations)))
  = ["atlas-v2"]
  /\ WorkerRef.names
       (snd (onActivate "atlas-v2"
               (snd (onInstall "atlas-v2" WorkerRef.noStylesheet
                       (WorkerRef.started WorkerRef.twoGenerations)))))
     = ["atlas-v2"].
Proof.
  assert (List.NoDup
            (WorkerRef.names (WorkerRef.started WorkerRef.twoGenerations)))
    as Hnd.
  { repeat constructor; cbn; intros H;
      repeat (destruct H as [H | H]; [discriminate H |]); exact H. }
  pose proof (activation_leaves_current_generation "atlas-v2"
                (WorkerRef.started WorkerRef.twoGenerations) Hnd)
    as (_ & _ & Hone & Hinst & _).
  split; [apply Hone; right; left; reflexivity | apply Hinst].
Defined.

End Activate.

(* ===================================================================== *)
(** ** Worker: fetch *)
(* ===================================================================== *)

Section Fetch.

Import Worker.

(** The two guards of the listener. *)
Lemma onFetch_not_get (name : string) (net : Network) (request : Request) :
  method request <> "GET" -> onFetch name net request = None.
Proof.
  intros H. unfold onFetch. apply String.eqb_neq in H. rewrite H.
  reflexivity.
Qed.

Lemma onFetch_webhook (name : string) (net : Network) (request : Request) :
  JsString.includes (url request) "/webhook/" = true ->
  onFetch name net request = None.
Proof.
  intros H. unfold onFetch. rewrite H.
  destruct (negb (String.eqb (method request) "GET")); reflexivity.
Qed.

(** A request the listener leaves alone goes to the network. *)
Lemma dispatchFetch_passes_through
    (name : string) (net : Network) (request : Request) (s : State) :
  onFetch name net request = None ->
  dispatchFetch name net request s = WorkerRef.passThrough net request s.
Proof.
  intros H. unfold dispatchFetch, WorkerRef.passThrough. rewrite H.
  unfold then_, fetch. cbv zeta.
  destruct (net (absolute s (url request))); reflexivity.
Qed.

(** A cached GET outside the webhook path is answered from the cache. *)
Lemma dispatchFetch_cached
    (name : string) (net : Network) (request : Request) (s : State)
    (r : Response) :
  method request = "GET" ->
  JsString.includes (url request) "/webhook/" = false ->
  matchAll (absolute s (url request)) (caches s) = Some r ->
  dispatchFetch name net request s
  = (Js.Fulfilled (Some r),
     set_console
       (Js.push (console s) ("[SW] Serving from cache: " ++ url request)) s).
Proof.
  intros Hm Hw Hc. unfold dispatchFetch, onFetch.
  rewrite Hm, Hw. rewrite String.eqb_refl. cbn [negb]. cbv iota.
  unfold then_ at 1. unfold caches_match at 1. rewrite Hc.
  reflexivity.
Qed.

(** C4: a GET request outside the webhook path whose URL is in the cache
    is answered with the cached response and nothing is requested from the
    network; a request whose URL contains [/webhook/] and a request whose
    method is not GET are not intercepted: the listener returns without
    [respondWith], whatever the cache holds, and the request goes to the
    network. *)
Theorem fetch_interception
    (name : string) (net : Network) (request : Request) (s : State) :
  (method request = "GET" ->
   JsString.includes (url request) "/webhook/" = false ->
   forall r, matchAll (absolute s (url request)) (caches s) = Some r ->
     onFetch name net request <> None
     /\ fst (dispatchFetch name net request s) = Js.Fulfilled (Some r)
     /\ fetched (snd (dispatchFetch name net request s)) = fetched s
     /\ caches (snd (dispatchFetch name net request s)) = caches s)
  /\ (JsString.includes (url request) "/webhook/" = true
      \/ method request <> "GET" ->
      onFetch name net request = None
      /\ dispatchFetch name net request s
         = WorkerRef.passThrough net request s
      /\ fetched (snd (dispatchFetch name net request s))
         = Js.push (fetched s) (absolute s (url request))
      /\ caches (snd (dispatchFetch name net request s)) = caches s).
Proof.
  split.
  - intros Hm Hw r Hc.
    rewrite (dispatchFetch_cached name net request s r Hm Hw Hc).
    split; [| repeat split].
    unfold onFetch. rewrite Hm, Hw, String.eqb_refl. discriminate.
  - intros H.
    assert (onFetch name net request = None) as Hnone.
    { destruct H; [by apply onFetch_webhook | by apply onFetch_not_get]. }
    rewrite (dispatchFetch_passes_through name net request s Hnone).
    split; [exact Hnone |]. repeat split.
Qed.

Lemma fetch_interception_witness :
  (fst (dispatchFetch CACHE_NAME WorkerRef.online
          (WorkerRef.get "https://atlas.example/index.html")
          (WorkerRef.started WorkerRef.twoGenerations))
   = Js.Fulfilled (Some WorkerRef.cachedPage)
   /\ fetched (snd (dispatchFetch CACHE_NAME WorkerRef.online
                      (WorkerRef.get "https://atlas.example/index.html")
                      (WorkerRef.started WorkerRef.twoGenerations)))
      = [])
  /\ fetched (snd (dispatchFetch CACHE_NAME WorkerRef.online
                     (WorkerRef.get "https://atlas.example/webhook/atlas-pwa")
                     (WorkerRef.started WorkerRef.twoGenerations)))
     = ["https://atlas.example/webhook/atlas-pwa"].
Proof.
  split.
  - pose proof (fetch_interception CACHE_NAME WorkerRef.online
                  (WorkerRef.get "https://atlas.example/index.html")
                  (WorkerRef.started WorkerRef.twoGenerations)) as [H _].
    destruct (H eq_refl eq_refl WorkerRef.cachedPage eq_refl)
      as (_ & Ha & Hb & _).
    split; [exact Ha | exact Hb].
  - pose proof (fetch_interception CACHE_NAME WorkerRef.online
                  (WorkerRef.get "https://atlas.example/webhook/atlas-pwa")
                  (WorkerRef.started WorkerRef.twoGenerations)) as [_ H].
    destruct (H (or_introl eq_refl)) as (_ & _ & Ha & _). exact Ha.
Defined.

(** A GET that is not cached goes to the network once and, answered with
    status 200, is written to the current generation once the write that
    was started has completed. *)
Example fetch_miss_is_cached :
  let run := dispatchFetch "atlas-v2" WorkerRef.online
               (WorkerRef.get "https://atlas.example/app.js")
               (WorkerRef.started WorkerRef.twoGenerations) in
  fetched (snd run) = ["https://atlas.example/app.js"]
  /\ caches (snd run) = WorkerRef.twoGenerations
  /\ assoc "atlas-v2" (caches (settle (snd run)))
     = Some [("https://atlas.example/app.js",
              {| status := 200;
                 body := "content of https://atlas.example/app.js" |})].
Proof. cbv zeta. repeat split. Qed.

End Fetch.

(* ===================================================================== *)
(** ** Attachment validation: acceptance *)
(* ===================================================================== *)

Section Acceptance.

Import App.

(** X1: a selected file of at most 10,485,760 bytes (the limit included)
    whose lowercased extension is on the allow-list becomes the pending
    attachment: the preview shows its name and formatted size, the file
    input is reset, no notice is raised, and history and requests are
    untouched. *)
Theorem handleFileSelect_accepts (f : File) (s : State) :
  size f <= 10485760 ->
  In (JsString.toLowerCase (Ref.afterLastDot (name f))) Ref.extensionBodies ->
  let s' := handleFileSelect (Some f) s in
  currentFile s' = Some f
  /\ fileName_text s' = name f ++ " (" ++ formatFileSize (size f) ++ ")"
  /\ filePreview_hidden s' = false
  /\ fileInput_value s' = ""
  /\ alerts s' = alerts s
  /\ messageHistory s' = messageHistory s
  /\ chatContainer s' = chatContainer s
  /\ sent s' = sent s.
Proof.
  intros Hsz Hext s'. subst s'.
  rewrite (handleFileSelect_checks_extension f s)
    by (rewrite maxFileSize_value; exact Hsz).
  cbv zeta. apply supported_iff in Hext. rewrite Hext.
  repeat split.
Qed.

Lemma handleFileSelect_accepts_witness :
  currentFile (handleFileSelect (Some Ref.notesTxt) (Ref.fresh "sid" ""))
  = Some Ref.notesTxt
  /\ fileName_text (handleFileSelect (Some Ref.notesTxt) (Ref.fresh "sid" ""))
     = "notes.txt (2 KB)".
Proof.
  assert (size Ref.notesTxt <= 10485760) as H1 by (vm_compute; discriminate).
  assert (In (JsString.toLowerCase (Ref.afterLastDot (name Ref.notesTxt)))
             Ref.extensionBodies) as H2 by (vm_compute; tauto).
  pose proof (handleFileSelect_accepts Ref.notesTxt (Ref.fresh "sid" "") H1 H2)
    as (Ha & Hb & _).
  split; [exact Ha | exact Hb].
Defined.

Lemma lowerChar_dot (c : ascii) :
  Ascii.eqb (JsString.lowerChar c) "." = Ascii.eqb c ".".
Proof. destruct c as [[] [] [] [] [] [] [] []]; reflexivity. Qed.

Lemma includes_dot_lower (s : string) :
  JsString.includes (JsString.toLowerCase s) "." = JsString.includes s ".".
Proof.
  induction s as [| c s IH]; [reflexivity |].
  cbn [JsString.toLowerCase]. rewrite !includes_dot_cons, IH, lowerChar_dot.
  reflexivity.
Qed.

(** Lowercasing commutes with taking the part after the last dot. *)
Lemma afterLastDot_lower (s : string) :
  Ref.afterLastDot (JsString.toLowerCase s)
  = JsString.toLowerCase (Ref.afterLastDot s).
Proof.
  induction s as [| c s IH]; [reflexivity |].
  cbn [JsString.toLowerCase Ref.afterLastDot].
  rewrite includes_dot_lower, lowerChar_dot.
  destruct (JsString.includes s "."); [exact IH |].
  destruct (Ascii.eqb c "."); reflexivity.
Qed.

Lemma push_longer {A : Type} (l : list A) (x : A) : Js.push l x <> l.
Proof.
  intros H. apply (f_equal (@List.length A)) in H.
  unfold Js.push in H. rewrite length_app in H. cbn in H. lia.
Qed.

(** A selection ends in the accepting state exactly when it passes both
    checks. *)
Lemma handleFileSelect_staged_iff (f : File) (s : State) :
  handleFileSelect (Some f) s = Ref.staged f s <-> Expect.accepts f = true.
Proof.
  unfold Expect.accepts.
  destruct (Z.leb_spec (size f) 10485760) as [Hle | Hgt]; cbn [andb].
  - rewrite (handleFileSelect_checks_extension f s)
      by (rewrite maxFileSize_value; exact Hle).
    cbv zeta. destruct (arrayIncludes allSupportedTypes _); [tauto |].
    split; [| discriminate]. intros H.
    apply (f_equal alerts) in H. cbn in H.
    exfalso. exact (push_longer _ _ H).
  - rewrite (handleFileSelect_too_large f s)
      by (rewrite maxFileSize_value; lia).
    split; [| discriminate]. intros H.
    apply (f_equal alerts) in H. cbn in H.
    exfalso. exact (push_longer _ _ H).
Qed.

(** X2: the extension check does not see letter case: two names that are
    equal up to the case of their ASCII letters get the same extension,
    so two files of the same size whose names differ only in case are
    both accepted or both rejected. *)
Theorem extension_ignores_case (f g : File) (s : State) :
  JsString.toLowerCase (name f) = JsString.toLowerCase (name g) ->
  size f = size g ->
  fileExt (name f) = fileExt (name g)
  /\ (handleFileSelect (Some f) s = Ref.staged f s
      <-> handleFileSelect (Some g) s = Ref.staged g s).
Proof.
  intros Hname Hsize.
  assert (JsString.toLowerCase (Ref.afterLastDot (name f))
          = JsString.toLowerCase (Ref.afterLastDot (name g))) as Hext.
  { rewrite <- !afterLastDot_lower, Hname. reflexivity. }
  split.
  - rewrite !fileExt_afterLastDot, Hext. reflexivity.
  - rewrite !handleFileSelect_staged_iff. unfold Expect.accepts.
    rewrite Hext, Hsize. reflexivity.
Qed.

Lemma extension_ignores_case_witness :
  fileExt "REPORT.PDF" = fileExt "report.pdf"
  /\ handleFileSelect
       (Some {| name := "REPORT.PDF"; size := 2048; type := "" |})
       (Ref.fresh "sid" "")
     = Ref.staged {| name := "REPORT.PDF"; size := 2048; type := "" |}
                  (Ref.fresh "sid" "").
Proof.
  pose proof (extension_ignores_case
                {| name := "REPORT.PDF"; size := 2048; type := "" |}
                {| name := "report.pdf"; size := 2048; type := "" |}
                (Ref.fresh "sid" "") eq_refl eq_refl) as [Ha Hb].
  split; [exact Ha |]. apply Hb. reflexivity.
Defined.

End Acceptance.

(* ===================================================================== *)
(** ** Submit: the whole exchange *)
(* ===================================================================== *)

Section Exchange.

Import App.

Lemma sendToAPI_eq
    (backend : Backend) (msg : string) (f : option File) (s : State) :
  sendToAPI backend msg f s
  = (Expect.outcome backend (Expect.request (sessionId s) msg f),
     set_sent (Js.push (sent s) (Expect.request (sessionId s) msg f)) s).
Proof.
  unfold sendToAPI, Expect.outcome, Expect.request.
  change (apiEndpoint CONFIG)
    with "https://n8n.srv1194059.hstgr.cloud/webhook/atlas-pwa".
  destruct f; cbv zeta beta iota;
    match goal with |- context [backend ?r] =>
      destruct (backend r) as [resp | e]; [destruct (ok resp) |] end;
    reflexivity.
Qed.

Lemma submits_iff (s : State) :
  JsString.trim (messageInput_value s) <> "" \/ currentFile s <> None ->
  String.eqb (JsString.trim (messageInput_value s)) ""
  && negb (Js.present (currentFile s)) = false.
Proof.
  intros [H | H].
  - apply String.eqb_neq in H. rewrite H. reflexivity.
  - destruct (currentFile s); [apply andb_false_r | congruence].
Qed.

(** A submit that is not a no-op, written out: the state after the
    synchronous part, the request, and the continuation. *)
Lemma handleSubmit_eq (backend : Backend) (t0 t1 : Z) (s : State) :
  JsString.trim (messageInput_value s) <> "" \/ currentFile s <> None ->
  let msg := JsString.trim (messageInput_value s) in
  let req := Expect.request (sessionId s) msg (currentFile s) in
  let s1 := clearFile
              (set_messageInput_value ""
                 (set_messageHistory
                    (Js.push (messageHistory s) (Ref.userMessageOf t0 s))
                    (addMessageToChat (Ref.userMessageOf t0 s)
                       (setLoading true s)))) in
  handleSubmit backend t0 t1 s
  = handleSubmit_resume t1 (Expect.outcome backend req)
      (set_sent (Js.push (sent s) req) s1).
Proof.
  intros H. cbv zeta. unfold handleSubmit, handleSubmit_begin. cbv zeta.
  rewrite (submits_iff s H). rewrite sendToAPI_eq. reflexivity.
Qed.

Lemma handleSubmit_resume_eq (now : Z) (result : Js.settled Js.value)
    (s : State) :
  handleSubmit_resume now result s
  = set_messageInput_focused true
      (setLoading false
         (let a := Expect.answer now result in
          if isError a then addMessageToChat a s
          else set_messageHistory (Js.push (messageHistory s) a)
                 (addMessageToChat a s))).
Proof.
  unfold handleSubmit_resume, Expect.answer.
  destruct result as [v | e]; [destruct (replyContent v) |]; reflexivity.
Qed.

(** X3: every submit that is not a no-op sends exactly one request: a POST
    to the webhook URL that carries the trimmed text and the session
    identifier, as JSON with a JSON content type when no attachment is
    pending, and as form data that also carries the pending file, without
    an explicit content type, when one is. *)
Theorem handleSubmit_sends_request
    (backend : Backend) (t0 t1 : Z) (s : State) :
  JsString.trim (messageInput_value s) <> "" \/ currentFile s <> None ->
  sent (handleSubmit backend t0 t1 s)
  = Js.push (sent s)
      (Expect.request (sessionId s) (JsString.trim (messageInput_value s))
                      (currentFile s)).
Proof.
  intros H. rewrite (handleSubmit_eq backend t0 t1 s H). cbv zeta.
  rewrite handleSubmit_resume_sent. reflexivity.
Qed.

Lemma handleSubmit_sends_request_witness :
  sent (handleSubmit (Ref.stub 200 "OK" (Js.Fulfilled Ref.helloBody)) 1 2
          (handleFileSelect (Some Ref.notesTxt) (Ref.fresh "sid" " hi ")))
  = [ {| req_url := "https://n8n.srv1194059.hstgr.cloud/webhook/atlas-pwa";
         req_method := "POST"; req_headers := [];
         req_body := FormBody "hi" "sid" Ref.notesTxt |} ].
Proof.
  apply (handleSubmit_sends_request
           (Ref.stub 200 "OK" (Js.Fulfilled Ref.helloBody)) 1 2
           (handleFileSelect (Some Ref.notesTxt) (Ref.fresh "sid" " hi "))).
  left. vm_compute. discriminate.
Defined.

(** X4: however the request ends (reply, HTTP error, network error,
    unreadable body), a submit that is not a no-op leaves the loading
    state: the three controls are enabled, the busy indicator is hidden,
    the message field has the focus and is empty, and the pending
    attachment and its preview are cleared. *)
Theorem handleSubmit_leaves_loading
    (backend : Backend) (t0 t1 : Z) (s : State) :
  JsString.trim (messageInput_value s) <> "" \/ currentFile s <> None ->
  let s' := handleSubmit backend t0 t1 s in
  sendButton_disabled s' = false
  /\ fileButton_disabled s' = false
  /\ messageInput_disabled s' = false
  /\ statusIndicator_hidden s' = true
  /\ messageInput_focused s' = true
  /\ messageInput_value s' = ""
  /\ currentFile s' = None
  /\ fileInput_value s' = ""
  /\ fileName_text s' = ""
  /\ filePreview_hidden s' = true.
Proof.
  intros H s'. subst s'. rewrite (handleSubmit_eq backend t0 t1 s H).
  cbv zeta. rewrite handleSubmit_resume_eq. cbv zeta.
  destruct (isError (Expect.answer t1 _)); cbn; repeat split.
Qed.

Lemma handleSubmit_leaves_loading_witness :
  let s' := handleSubmit (fun _ => Js.Rejected (Js.Error "Failed to fetch"))
              1 2
              (handleFileSelect (Some Ref.notesTxt) (Ref.fresh "sid" "")) in
  sendButton_disabled s' = false
  /\ fileButton_disabled s' = false
  /\ messageInput_disabled s' = false
  /\ statusIndicator_hidden s' = true
  /\ messageInput_focused s' = true
  /\ messageInput_value s' = ""
  /\ currentFile s' = None
  /\ fileInput_value s' = ""
  /\ fileName_text s' = ""
  /\ filePreview_hidden s' = true.
Proof.
  apply (handleSubmit_leaves_loading
           (fun _ => Js.Rejected (Js.Error "Failed to fetch")) 1 2
           (handleFileSelect (Some Ref.notesTxt) (Ref.fresh "sid" ""))).
  right. vm_compute. discriminate.
Defined.

(** *** The chat *)

Lemma removeFirst_app_miss (p : ChatNode -> bool) (l l' : list ChatNode) :
  Forall (fun n => p n = false) l ->
  removeFirst p (l ++ l') = (l ++ removeFirst p l')%list.
Proof.
  induction 1 as [| n l Hn Hl IH]; [reflexivity |].
  cbn [app removeFirst]. rewrite Hn, IH. reflexivity.
Qed.

Lemma onlyMessages_not (p : ChatNode -> bool) (l : list ChatNode) :
  (forall m, p (MessageNode m) = false) ->
  Expect.onlyMessages l -> Forall (fun n => p n = false) l.
Proof.
  intros Hp H. eapply List.Forall_impl; [| exact H].
  intros n (m & ->). apply Hp.
Qed.

(** The chat after the synchronous part of a submit. *)
Lemma chat_after_begin (rest chat : list ChatNode) (u : Message) :
  Expect.onlyMessages rest ->
  chat = rest \/ chat = WelcomeNode :: rest ->
  Js.push (removeFirst isWelcome (Js.push chat LoadingNode)) (MessageNode u)
  = (rest ++ [LoadingNode; MessageNode u])%list.
Proof.
  intros Hrest Hchat. unfold Js.push.
  assert (removeFirst isWelcome (chat ++ [LoadingNode])
          = (rest ++ [LoadingNode])%list) as ->.
  { destruct Hchat as [-> | ->].
    - rewrite (removeFirst_app_miss isWelcome rest)
        by (apply onlyMessages_not; [reflexivity | exact Hrest]).
      reflexivity.
    - reflexivity. }
  rewrite <- app_assoc. reflexivity.
Qed.

(** The chat once the answer is rendered and the indicator removed. *)
Lemma chat_after_resume (rest : list ChatNode) (u a : Message) :
  Expect.onlyMessages rest ->
  removeFirst isLoading
    (Js.push (removeFirst isWelcome (rest ++ [LoadingNode; MessageNode u]))
             (MessageNode a))
  = (rest ++ [MessageNode u; MessageNode a])%list.
Proof.
  intros Hrest. unfold Js.push.
  rewrite (removeFirst_app_miss isWelcome rest)
    by (apply onlyMessages_not; [reflexivity | exact Hrest]).
  cbn [removeFirst isWelcome]. rewrite <- app_assoc.
  rewrite (removeFirst_app_miss isLoading rest)
    by (apply onlyMessages_not; [reflexivity | exact Hrest]).
  reflexivity.
Qed.

Lemma handleSubmit_resume_chat (now : Z) (result : Js.settled Js.value)
    (s : State) :
  chatContainer (handleSubmit_resume now result s)
  = removeFirst isLoading
      (Js.push (removeFirst isWelcome (chatContainer s))
               (MessageNode (Expect.answer now result))).
Proof.
  unfold handleSubmit_resume, Expect.answer.
  destruct result as [v | e]; [destruct (replyContent v) |]; reflexivity.
Qed.

Lemma handleSubmit_resume_history (now : Z) (result : Js.settled Js.value)
    (s : State) :
  messageHistory (handleSubmit_resume now result s)
  = if isError (Expect.answer now result) then messageHistory s
    else Js.push (messageHistory s) (Expect.answer now result).
Proof.
  unfold handleSubmit_resume, Expect.answer.
  destruct result as [v | e]; [destruct (replyContent v) |]; reflexivity.
Qed.

(** X5: a submit on a chat that shows the welcome message or earlier
    messages removes the welcome message, if any, and appends the user
    message followed by one assistant message, the reply or the flagged
    error; no loading indicator is left.  [messageHistory] gains the user
    message, and the assistant message unless it is the flagged error. *)
Theorem handleSubmit_conversation
    (backend : Backend) (t0 t1 : Z) (s : State) (rest : list ChatNode) :
  JsString.trim (messageInput_value s) <> "" \/ currentFile s <> None ->
  Expect.onlyMessages rest ->
  chatContainer s = rest \/ chatContainer s = WelcomeNode :: rest ->
  let s' := handleSubmit backend t0 t1 s in
  let u := Ref.userMessageOf t0 s in
  let a := Expect.answer t1
             (Expect.outcome backend
                (Expect.request (sessionId s)
                   (JsString.trim (messageInput_value s)) (currentFile s))) in
  chatContainer s' = (rest ++ [MessageNode u; MessageNode a])%list
  /\ Expect.onlyMessages (chatContainer s')
  /\ ((exists c, a = Ref.replyMessageOf t1 c)
      \/ (exists e, a = Ref.errorMessageOf t1 e))
  /\ messageHistory s'
     = (messageHistory s ++ u :: (if isError a then [] else [a]))%list.
Proof.
  intros H Hrest Hchat s' u a. subst s'.
  rewrite (handleSubmit_eq backend t0 t1 s H). cbv zeta.
  rewrite handleSubmit_resume_chat, handleSubmit_resume_history.
  fold u. fold a.
  set (s1 := set_sent _ _).
  assert (chatContainer s1
          = Js.push (removeFirst isWelcome
                       (Js.push (chatContainer s) LoadingNode))
                    (MessageNode u)) as -> by reflexivity.
  assert (messageHistory s1 = Js.push (messageHistory s) u) as ->
    by reflexivity.
  rewrite (chat_after_begin rest (chatContainer s) u Hrest Hchat).
  rewrite (chat_after_resume rest u a Hrest).
  split; [reflexivity |]. split; [| split].
  - apply Forall_app. split; [exact Hrest |].
    repeat constructor; eauto.
  - unfold a, Expect.answer.
    destruct (Expect.outcome backend _) as [v | e];
      [destruct (replyContent v) |]; eauto.
  - destruct (isError a); unfold Js.push; rewrite <- ?app_assoc;
      reflexivity.
Qed.

Lemma handleSubmit_conversation_witness :
  chatContainer
    (handleSubmit (Ref.stub 200 "OK" (Js.Fulfilled Ref.helloBody)) 1 2
       (Ref.fresh "sid" "hi"))
  = [MessageNode (Ref.userMessageOf 1 (Ref.fresh "sid" "hi"));
     MessageNode (Ref.replyMessageOf 2 (Js.Str "hello"))].
Proof.
  assert (JsString.trim (messageInput_value (Ref.fresh "sid" "hi")) <> ""
          \/ currentFile (Ref.fresh "sid" "hi") <> None) as H
    by (left; vm_compute; discriminate).
  assert (Expect.onlyMessages []) as Hrest by constructor.
  pose proof (handleSubmit_conversation
                (Ref.stub 200 "OK" (Js.Fulfilled Ref.helloBody)) 1 2
                (Ref.fresh "sid" "hi") [] H Hrest (or_intror eq_refl))
    as (Hc & _).
  exact Hc.
Defined.

Lemma ok_iff (r : Response) : ok r = true <-> 200 <= status r <= 299.
Proof. unfold ok. rewrite andb_true_iff, !Z.leb_le. tauto. Qed.

(** X6: a response with any status from 200 to 299 and a JSON body other
    than [null] completes the round trip: [messageHistory] gains the user
    message and then the assistant reply, neither flagged as an error,
    the reply text being the first truthy of [message] and [text] or the
    fallback. *)
Theorem handleSubmit_round_trip
    (backend : Backend) (t0 t1 : Z) (s : State) (r : Response)
    (v : Js.value) :
  JsString.trim (messageInput_value s) <> "" \/ currentFile s <> None ->
  backend (Expect.request (sessionId s)
             (JsString.trim (messageInput_value s)) (currentFile s))
  = Js.Fulfilled r ->
  200 <= status r <= 299 ->
  json r = Js.Fulfilled v -> v <> Js.Null -> v <> Js.Undefined ->
  messageHistory (handleSubmit backend t0 t1 s)
  = (messageHistory s
     ++ [Ref.userMessageOf t0 s;
         Ref.replyMessageOf t1 (Ref.firstTruthy v)])%list.
Proof.
  intros H Hb Hst Hj Hn Hu.
  rewrite (handleSubmit_eq backend t0 t1 s H). cbv zeta.
  rewrite handleSubmit_resume_history.
  unfold Expect.outcome. rewrite Hb.
  apply ok_iff in Hst. rewrite Hst, Hj.
  unfold Expect.answer. rewrite (replyContent_firstTruthy v Hn Hu).
  cbn [isError Ref.replyMessageOf].
  unfold Js.push. cbn [messageHistory set_sent clearFile set_fileInput_value
    set_fileName_text set_filePreview_hidden set_currentFile
    set_messageInput_value set_messageHistory].
  unfold Js.push. rewrite <- app_assoc. reflexivity.
Qed.

Lemma handleSubmit_round_trip_witness :
  messageHistory
    (handleSubmit (Ref.stub 201 "Created" (Js.Fulfilled Ref.helloBody)) 1 2
       (Ref.fresh "sid" "hi"))
  = [Ref.userMessageOf 1 (Ref.fresh "sid" "hi");
     Ref.replyMessageOf 2 (Ref.firstTruthy Ref.helloBody)].
Proof.
  apply (handleSubmit_round_trip
           (Ref.stub 201 "Created" (Js.Fulfilled Ref.helloBody)) 1 2
           (Ref.fresh "sid" "hi")
           {| status := 201; statusText := "Created";
              json := Js.Fulfilled Ref.helloBody |} Ref.helloBody).
  - left. vm_compute. discriminate.
  - reflexivity.
  - vm_compute. split; discriminate.
  - reflexivity.
  - discriminate.
  - discriminate.
Defined.

Lemma last_removeFirst (p : ChatNode -> bool) (l : list ChatNode)
    (x d : ChatNode) :
  p x = false -> List.last (removeFirst p (Js.push l x)) d = x.
Proof.
  intros Hx. unfold Js.push. induction l as [| n l IH].
  - cbn. rewrite Hx. reflexivity.
  - cbn [app removeFirst]. destruct (p n).
    + apply last_last.
    + change (List.last (n :: removeFirst p (l ++ [x])) d)
        with (match removeFirst p (l ++ [x]) with
              | [] => n
              | _ :: _ => List.last (removeFirst p (l ++ [x])) d
              end).
      destruct (removeFirst p (l ++ [x])) eqn:E; [| exact IH].
      cbn in IH. subst. exfalso. clear -E Hx.
      induction l as [| m l IHl]; cbn in E.
      * rewrite Hx in E. discriminate.
      * destruct (p m); [destruct l; discriminate | discriminate].
Qed.

(** The node a submit leaves at the end of the chat. *)
Lemma handleSubmit_last_node (backend : Backend) (t0 t1 : Z) (s : State) :
  JsString.trim (messageInput_value s) <> "" \/ currentFile s <> None ->
  List.last (chatContainer (handleSubmit backend t0 t1 s)) WelcomeNode
  = MessageNode
      (Expect.answer t1
         (Expect.outcome backend
            (Expect.request (sessionId s)
               (JsString.trim (messageInput_value s)) (currentFile s)))).
Proof.
  intros H. rewrite (handleSubmit_eq backend t0 t1 s H). cbv zeta.
  rewrite handleSubmit_resume_chat. apply last_removeFirst. reflexivity.
Qed.

(** X7: the message a failed submit leaves at the end of the chat is
    flagged and says what went wrong.  A rejected fetch and an unreadable
    body of a 2xx response give the text of the error that was thrown; a
    status outside 200-299 gives the status code and the reason phrase,
    whatever the body; an error without a message gives the fixed
    fallback text. *)
Theorem handleSubmit_error_text
    (backend : Backend) (t0 t1 : Z) (s : State) :
  JsString.trim (messageInput_value s) <> "" \/ currentFile s <> None ->
  let req := Expect.request (sessionId s)
               (JsString.trim (messageInput_value s)) (currentFile s) in
  let shown := List.last (chatContainer (handleSubmit backend t0 t1 s))
                         WelcomeNode in
  let flagged (text : string) : ChatNode :=
    MessageNode {| role := assistant; content := Js.Str ("❌ Error: " ++ text);
                   file := None; timestamp := t1; isError := true |} in
  (forall e, backend req = Js.Rejected e -> Js.message e <> "" ->
     shown = flagged (Js.message e))
  /\ (forall r, backend req = Js.Fulfilled r ->
        ~ 200 <= status r <= 299 ->
        shown = flagged ("API returned " ++ JsString.ofZ (status r)
                         ++ ": " ++ statusText r))
  /\ (forall r e, backend req = Js.Fulfilled r ->
        200 <= status r <= 299 -> json r = Js.Rejected e ->
        Js.message e <> "" ->
        shown = flagged (Js.message e))
  /\ (backend req = Js.Rejected (Js.Error "") ->
      shown = flagged "Failed to send message. Please try again.").
Proof.
  intros H. cbv zeta. rewrite (handleSubmit_last_node backend t0 t1 s H).
  unfold Expect.outcome, Expect.answer, Ref.errorMessageOf.
  split; [| split; [| split]].
  - intros e -> He. rewrite (errorContent_embeds e He). reflexivity.
  - intros r -> Hst.
    destruct (ok r) eqn:E; [apply ok_iff in E; tauto |]. reflexivity.
  - intros r e -> Hst -> He. apply ok_iff in Hst. rewrite Hst.
    rewrite (errorContent_embeds e He). reflexivity.
  - intros ->. reflexivity.
Qed.

Lemma handleSubmit_error_text_witness :
  List.last
    (chatContainer
       (handleSubmit (Ref.stub 503 "Service Unavailable"
                        (Js.Fulfilled Ref.helloBody)) 1 2
                     (Ref.fresh "sid" "hi")))
    WelcomeNode
  = MessageNode
      {| role := assistant;
         content := Js.Str "❌ Error: API returned 503: Service Unavailable";
         file := None; timestamp := 2; isError := true |}.
Proof.
  assert (JsString.trim (messageInput_value (Ref.fresh "sid" "hi")) <> ""
          \/ currentFile (Ref.fresh "sid" "hi") <> None) as H
    by (left; vm_compute; discriminate).
  pose proof (handleSubmit_error_text
                (Ref.stub 503 "Service Unavailable"
                   (Js.Fulfilled Ref.helloBody)) 1 2
                (Ref.fresh "sid" "hi") H) as (_ & Hbad & _).
  apply (Hbad {| status := 503; statusText := "Service Unavailable";
                 json := Js.Fulfilled Ref.helloBody |} eq_refl).
  vm_compute. intros [_ Hle]. apply Hle. reflexivity.
Defined.

End Exchange.

(* ===================================================================== *)
(** ** Session storage, PIN gate, start-up *)
(* ===================================================================== *)

Section Gate.

Import Page.

Lemma session_entry_only (rand : nat -> Q) (ls : App.Storage) :
  (forall key, key <> "atlas_session_id" ->
     snd (App.getOrCreateSessionId rand ls) !! key = ls !! key)
  /\ (fst (App.getOrCreateSessionId rand ls) <> "" ->
      snd (App.getOrCreateSessionId rand ls) !! "atlas_session_id"
      = Some (fst (App.getOrCreateSessionId rand ls))).
Proof.
  unfold App.getOrCreateSessionId.
  destruct (ls !! "atlas_session_id") as [stored |] eqn:E;
    [destruct (String.eqb_spec stored "") as [-> | Hne] |];
    cbn [fst snd]; split;
    try (intros key Hkey; apply lookup_insert_ne; congruence);
    try (intros _; apply lookup_insert_eq).
  - intros key Hkey. reflexivity.
  - intros _. exact E.
Qed.

(** X8: a bootstrap reads and writes the [atlas_session_id] entry only:
    every other entry of the storage, the authentication flag among them,
    is left as it was, and whatever the random source the returned
    identifier is the stored one afterwards. *)
Theorem getOrCreateSessionId_frame (rand : nat -> Q) (ls : App.Storage) :
  (forall key, key <> "atlas_session_id" ->
     snd (App.getOrCreateSessionId rand ls) !! key = ls !! key)
  /\ (fst (App.getOrCreateSessionId rand ls) <> "" ->
      snd (App.getOrCreateSessionId rand ls) !! "atlas_session_id"
      = Some (fst (App.getOrCreateSessionId rand ls))).
Proof. exact (session_entry_only rand ls). Qed.

Lemma getOrCreateSessionId_frame_witness :
  snd (App.getOrCreateSessionId Ref.half
         (<["atlas_authenticated" := "true"]> ∅))
  !! "atlas_authenticated" = Some "true".
Proof.
  pose proof (getOrCreateSessionId_frame Ref.half
                (<["atlas_authenticated" := "true"]> ∅)) as [H _].
  rewrite (H "atlas_authenticated") by discriminate.
  apply lookup_insert_eq.
Defined.

Lemma checkAuthentication_iff (p : State) :
  fst (checkAuthentication p) = true
  <-> localStorage p !! "atlas_authenticated" = Some "true".
Proof.
  unfold checkAuthentication.
  destruct (localStorage p !! "atlas_authenticated") as [v |];
    [destruct (String.eqb_spec v "true") as [-> | Hne] |]; cbn [fst];
    split; try discriminate; try reflexivity; congruence.
Qed.

Lemma pin_accepted (p : State) :
  JsString.trim (pinInput_value p) = "135011633" ->
  let p' := onPinSubmit p in
  localStorage p' = <["atlas_authenticated" := "true"]> (localStorage p)
  /\ fst (checkAuthentication p') = true
  /\ pinOverlay_display p' = "none"
  /\ app_display p' = "block"
  /\ pinError_hidden p' = true
  /\ focus p' = MessageInput
  /\ sessionId p' = sessionId p
  /\ listening p' = listening p
  /\ localStorage p' !! "atlas_session_id"
     = localStorage p !! "atlas_session_id".
Proof.
  intros H p'. subst p'. unfold onPinSubmit. cbv zeta. rewrite H.
  change (String.eqb "135011633" (App.correctPIN App.CONFIG)) with true.
  cbv iota. cbn [localStorage pinOverlay_display app_display pinError_hidden
                 focus sessionId listening].
  repeat split.
  - apply checkAuthentication_iff. cbn [localStorage].
    apply lookup_insert_eq.
  - apply lookup_insert_ne. discriminate.
Qed.

(** X9: the PIN form compares the trimmed input with the configured PIN.
    On a match the authentication flag is stored as [true], the overlay
    is hidden, the app is shown and the message field gets the focus, and
    a later authentication check passes; the session identifier and the
    event wiring are not touched by the form. *)
Theorem onPinSubmit_correct (p : State) :
  JsString.trim (pinInput_value p) = "135011633" ->
  let p' := onPinSubmit p in
  localStorage p' = <["atlas_authenticated" := "true"]> (localStorage p)
  /\ fst (checkAuthentication p') = true
  /\ pinOverlay_display p' = "none"
  /\ app_display p' = "block"
  /\ pinError_hidden p' = true
  /\ focus p' = MessageInput
  /\ sessionId p' = sessionId p
  /\ listening p' = listening p
  /\ localStorage p' !! "atlas_session_id"
     = localStorage p !! "atlas_session_id".
Proof. exact (pin_accepted p). Qed.

Lemma onPinSubmit_correct_witness :
  fst (checkAuthentication (onPinSubmit (typed " 135011633 " Expect.blank)))
  = true.
Proof.
  apply (onPinSubmit_correct (typed " 135011633 " Expect.blank)).
  reflexivity.
Defined.

(** X10: any other input is refused: the storage is unchanged, so the
    outcome of the authentication check is what it was, the overlay and
    the app keep their visibility, the error text is shown, and the PIN
    field is emptied and focused. *)
Theorem onPinSubmit_wrong (p : State) :
  JsString.trim (pinInput_value p) <> "135011633" ->
  let p' := onPinSubmit p in
  localStorage p' = localStorage p
  /\ fst (checkAuthentication p') = fst (checkAuthentication p)
  /\ pinOverlay_display p' = pinOverlay_display p
  /\ app_display p' = app_display p
  /\ pinError_hidden p' = false
  /\ pinInput_value p' = ""
  /\ focus p' = PinInput.
Proof.
  intros H p'. subst p'. unfold onPinSubmit. cbv zeta.
  change (App.correctPIN App.CONFIG) with "135011633".
  apply String.eqb_neq in H. rewrite H. repeat split.
  unfold checkAuthentication. cbv zeta. cbn [localStorage].
  destruct (match localStorage p !! "atlas_authenticated" with
            | Some v => String.eqb v "true"
            | None => false
            end); reflexivity.
Qed.

Lemma onPinSubmit_wrong_witness :
  localStorage (onPinSubmit (typed "135011634" Expect.blank)) = ∅
  /\ pinError_hidden (onPinSubmit (typed "135011634" Expect.blank)) = false.
Proof.
  pose proof (onPinSubmit_wrong (typed "135011634" Expect.blank))
    as H.
  cbv zeta in H. destruct H as (Ha & _ & _ & _ & Hb & _).
  - vm_compute. discriminate.
  - split; [exact Ha | exact Hb].
Defined.

Lemma init_stops_at_gate (rand : nat -> Q) (hasServiceWorker : bool) (p : State) :
  localStorage p !! "atlas_authenticated" <> Some "true" ->
  let p' := init rand hasServiceWorker p in
  localStorage p' = localStorage p
  /\ sessionId p' = sessionId p
  /\ listening p' = listening p
  /\ serviceWorker p' = serviceWorker p
  /\ pinOverlay_display p' = "flex"
  /\ app_display p' = "none"
  /\ pinFormListening p' = true.
Proof.
  intros H p'. subst p'. unfold init.
  pose proof (checkAuthentication_iff p) as Hiff.
  destruct (checkAuthentication p) as [b p1] eqn:E. cbn [fst] in Hiff.
  destruct b; [exfalso; apply H, Hiff; reflexivity |].
  cbn [negb]. unfold checkAuthentication in E. cbv zeta in E.
  destruct (match localStorage p !! "atlas_authenticated" with
            | Some v => String.eqb v "true"
            | None => false
            end); inversion E; subst. repeat split.
Qed.

(** X11: start-up stops at the gate when the authentication flag is not
    [true]: the overlay is shown, the app hidden and the PIN form wired,
    but no session identifier is read or created, the storage is not
    written, and neither the event listeners nor the service worker are
    set up. *)
Theorem init_gated (rand : nat -> Q) (hasServiceWorker : bool) (p : State) :
  localStorage p !! "atlas_authenticated" <> Some "true" ->
  let p' := init rand hasServiceWorker p in
  localStorage p' = localStorage p
  /\ sessionId p' = sessionId p
  /\ listening p' = listening p
  /\ serviceWorker p' = serviceWorker p
  /\ pinOverlay_display p' = "flex"
  /\ app_display p' = "none"
  /\ pinFormListening p' = true.
Proof. exact (init_stops_at_gate rand hasServiceWorker p). Qed.

Lemma init_gated_witness :
  sessionId (init Ref.half true (loaded Expect.blank ∅)) = None
  /\ localStorage (init Ref.half true (loaded Expect.blank ∅)) = ∅.
Proof.
  pose proof (init_gated Ref.half true (loaded Expect.blank ∅)) as H.
  cbv zeta in H. destruct H as (Ha & Hb & _).
  - cbn [localStorage loaded]. rewrite lookup_empty. discriminate.
  - split; [exact Hb | exact Ha].
Defined.

Lemma init_past_gate
    (rand : nat -> Q) (hasServiceWorker : bool) (p : State) :
  localStorage p !! "atlas_authenticated" = Some "true" ->
  let p' := init rand hasServiceWorker p in
  sessionId p' = Some (fst (App.getOrCreateSessionId rand (localStorage p)))
  /\ localStorage p' = snd (App.getOrCreateSessionId rand (localStorage p))
  /\ localStorage p' !! "atlas_authenticated" = Some "true"
  /\ (forall stored, localStorage p !! "atlas_session_id" = Some stored ->
      stored <> "" ->
      sessionId p' = Some stored /\ localStorage p' = localStorage p)
  /\ listening p' = true
  /\ serviceWorker p' = hasServiceWorker
  /\ pinOverlay_display p' = "none"
  /\ app_display p' = "block".
Proof.
  intros H p'. subst p'. unfold init, checkAuthentication. cbv zeta.
  rewrite H. change (String.eqb "true" "true") with true. cbv iota.
  cbn [negb localStorage].
  destruct (App.getOrCreateSessionId rand (localStorage p)) as [id ls] eqn:E.
  cbn [sessionId localStorage listening serviceWorker pinOverlay_display
       app_display fst snd].
  split; [reflexivity |]. split; [reflexivity |]. split; [| split].
  - pose proof (session_entry_only rand (localStorage p)) as [Hf _].
    rewrite E in Hf. cbn [snd] in Hf.
    rewrite (Hf "atlas_authenticated") by discriminate. exact H.
  - intros stored Hs Hne.
    rewrite (getOrCreateSessionId_stored rand _ stored Hs Hne) in E.
    inversion E. subst. split; reflexivity.
  - repeat split.
Qed.

(** X12: start-up of an authenticated page hides the overlay, shows the
    app, takes the session identifier from the bootstrap (the stored one,
    or a fresh one that is stored), and wires the listeners; the
    authentication flag stays in the storage. *)
Theorem init_authenticated
    (rand : nat -> Q) (hasServiceWorker : bool) (p : State) :
  localStorage p !! "atlas_authenticated" = Some "true" ->
  let p' := init rand hasServiceWorker p in
  sessionId p' = Some (fst (App.getOrCreateSessionId rand (localStorage p)))
  /\ localStorage p' = snd (App.getOrCreateSessionId rand (localStorage p))
  /\ localStorage p' !! "atlas_authenticated" = Some "true"
  /\ (forall stored, localStorage p !! "atlas_session_id" = Some stored ->
      stored <> "" ->
      sessionId p' = Some stored /\ localStorage p' = localStorage p)
  /\ listening p' = true
  /\ serviceWorker p' = hasServiceWorker
  /\ pinOverlay_display p' = "none"
  /\ app_display p' = "block".
Proof. exact (init_past_gate rand hasServiceWorker p). Qed.

Lemma init_authenticated_witness :
  sessionId
    (init Ref.half true
       (loaded Expect.blank (<["atlas_authenticated" := "true"]> ∅)))
  = Some (fst (App.getOrCreateSessionId Ref.half
                 (<["atlas_authenticated" := "true"]> ∅))).
Proof.
  assert (localStorage
            (loaded Expect.blank (<["atlas_authenticated" := "true"]> ∅))
          !! "atlas_authenticated" = Some "true") as H
    by apply lookup_insert_eq.
  pose proof (init_authenticated Ref.half true
                (loaded Expect.blank (<["atlas_authenticated" := "true"]> ∅))
                H) as (Ha & _).
  exact Ha.
Defined.

(** X13: logging out removes the authentication flag and nothing else.
    After the reload the page is gated again and has no session
    identifier in use; once the PIN is entered and the page loads again,
    the session identifier in use is the one stored before the logout.
    A logout that is not confirmed changes nothing. *)
Theorem logout_keeps_session
    (rand rand' : nat -> Q) (sw : bool) (markup p : State) (id : string) :
  localStorage p !! "atlas_session_id" = Some id -> id <> "" ->
  let p1 := logout true p in
  let p2 := init rand sw (loaded markup (localStorage p1)) in
  let p3 := onPinSubmit (typed "135011633" p2) in
  let p4 := init rand' sw (loaded markup (localStorage p3)) in
  logout false p = p
  /\ reloaded p1 = true
  /\ localStorage p1 = delete "atlas_authenticated" (localStorage p)
  /\ fst (checkAuthentication p1) = false
  /\ sessionId p2 = None
  /\ app_display p2 = "none"
  /\ localStorage p2 !! "atlas_session_id" = Some id
  /\ sessionId p4 = Some id
  /\ listening p4 = true
  /\ app_display p4 = "block".
Proof.
  intros Hid Hne p1 p2 p3 p4.
  assert (localStorage p1 = delete "atlas_authenticated" (localStorage p))
    as Hls1 by reflexivity.
  assert (localStorage p1 !! "atlas_authenticated" <> Some "true") as Hno.
  { rewrite Hls1, lookup_delete_eq. discriminate. }
  assert (localStorage p1 !! "atlas_session_id" = Some id) as Hid1.
  { rewrite Hls1, lookup_delete_ne by discriminate. exact Hid. }
  pose proof (init_stops_at_gate rand sw (loaded markup (localStorage p1))) as Hg.
  cbv zeta in Hg. fold p2 in Hg.
  destruct (Hg Hno) as (Hls2 & Hs2 & _ & _ & _ & Hd2 & _).
  cbn [localStorage sessionId loaded] in Hls2, Hs2.
  pose proof (pin_accepted (typed "135011633" p2)) as Hp.
  cbv zeta in Hp. fold p3 in Hp.
  destruct (Hp eq_refl) as (Hls3 & _ & _ & _ & _ & _ & _ & _ & Hid3).
  cbn [localStorage typed] in Hls3, Hid3.
  pose proof (init_past_gate rand' sw (loaded markup (localStorage p3)))
    as Ha.
  cbv zeta in Ha. fold p4 in Ha. cbn [localStorage loaded] in Ha.
  destruct Ha as (_ & _ & _ & Hst & Hl4 & _ & _ & Hd4).
  { rewrite Hls3. apply lookup_insert_eq. }
  destruct (Hst id) as [Hs4 _]; [| exact Hne |].
  { rewrite Hid3, Hls2. exact Hid1. }
  split; [reflexivity |]. split; [reflexivity |]. split; [exact Hls1 |].
  split.
  { destruct (fst (checkAuthentication p1)) eqn:E; [| reflexivity].
    apply checkAuthentication_iff in E. contradiction. }
  split; [exact Hs2 |]. split; [exact Hd2 |].
  split; [rewrite Hls2; exact Hid1 |].
  split; [exact Hs4 |]. split; [exact Hl4 | exact Hd4].
Qed.

Lemma logout_keeps_session_witness :
  let ls : App.Storage :=
    <["atlas_authenticated" := "true"]>
      (<["atlas_session_id" := "88888888-8888-4888-8888-888888888888"]> ∅) in
  let p := init Ref.half true (loaded Expect.blank ls) in
  let p1 := logout true p in
  let p2 := init Ref.half true (loaded Expect.blank (localStorage p1)) in
  let p3 := onPinSubmit (typed "135011633" p2) in
  let p4 := init Ref.half true (loaded Expect.blank (localStorage p3)) in
  sessionId p2 = None
  /\ sessionId p4 = Some "88888888-8888-4888-8888-888888888888".
Proof.
  intros ls p p1 p2 p3 p4.
  assert (localStorage p !! "atlas_session_id"
          = Some "88888888-8888-4888-8888-888888888888") as Hid.
  { assert (ls !! "atlas_session_id"
            = Some "88888888-8888-4888-8888-888888888888") as Hls
      by (unfold ls; rewrite lookup_insert_ne by discriminate;
          apply lookup_insert_eq).
    pose proof (init_past_gate Ref.half true (loaded Expect.blank ls))
      as Ha.
    cbv zeta in Ha. fold p in Ha. cbn [localStorage loaded] in Ha.
    destruct Ha as (_ & _ & _ & Hst & _);
      [unfold ls; apply lookup_insert_eq |].
    destruct (Hst _ Hls) as [_ ->]; [discriminate | exact Hls]. }
  assert ("88888888-8888-4888-8888-888888888888" <> "") as Hne
    by discriminate.
  pose proof (logout_keeps_session Ref.half Ref.half true Expect.blank p
                _ Hid Hne) as (_ & _ & _ & _ & Ha & _ & _ & Hb & _).
  split; [exact Ha | exact Hb].
Defined.

End Gate.

(* ===================================================================== *)
(** ** Time of day and byte counts *)
(* ===================================================================== *)

Section Formats.

Lemma below_100 (P : Z -> Prop) :
  (forall k : nat, (k < 100)%nat -> P (Z.of_nat k)) ->
  forall n, 0 <= n < 100 -> P n.
Proof.
  intros H n Hn. rewrite <- (Z2Nat.id n) by lia. apply H. lia.
Qed.

(** Padding the decimal form of a number below one hundred to two places
    gives its two digits. *)
Lemma padStart_two_digits (n : Z) :
  0 <= n < 100 ->
  Time.padStart 2 "0" (JsString.ofZ n) = Expect.twoDigits n.
Proof.
  revert n. apply below_100. intros k Hk.
  do 100 (destruct k as [| k]; [reflexivity |]). lia.
Qed.

(** X14: for the hours and minutes a [Date] can report, the time is
    rendered as two digits, a colon, two digits: five characters, with a
    leading zero for values below ten. *)
Theorem formatTime_HH_MM (date : Time.Date) :
  0 <= Time.getHours date <= 23 -> 0 <= Time.getMinutes date <= 59 ->
  Time.formatTime date
  = Expect.twoDigits (Time.getHours date) ++ ":"
    ++ Expect.twoDigits (Time.getMinutes date)
  /\ String.length (Time.formatTime date) = 5%nat.
Proof.
  intros Hh Hm. unfold Time.formatTime. cbv zeta.
  rewrite !padStart_two_digits by lia. split; reflexivity.
Qed.

Lemma formatTime_HH_MM_witness :
  Time.formatTime {| Time.getHours := 7; Time.getMinutes := 5 |} = "07:05".
Proof.
  apply (formatTime_HH_MM {| Time.getHours := 7; Time.getMinutes := 5 |});
    vm_compute; split; discriminate.
Defined.

End Formats.

(* ===================================================================== *)
(** ** Worker: what the handlers keep *)
(* ===================================================================== *)

Section WorkerFrame.

Import Worker.
Import WorkerExpect.

Lemma keepsOrigin_then {A B : Type} (p : Promise A) (f : A -> Promise B) :
  keepsOrigin p -> (forall a, keepsOrigin (f a)) -> keepsOrigin (then_ p f).
Proof.
  intros Hp Hf s. unfold then_. specialize (Hp s).
  destruct (p s) as [[a | e] s1]; cbn [snd] in *.
  - rewrite (Hf a s1). exact Hp.
  - exact Hp.
Qed.

Lemma keepsOrigin_catch {A : Type} (p : Promise A) (h : Js.error -> Promise A) :
  keepsOrigin p -> (forall e, keepsOrigin (h e)) -> keepsOrigin (catch_ p h).
Proof.
  intros Hp Hh s. unfold catch_. specialize (Hp s).
  destruct (p s) as [[a | e] s1]; cbn [snd] in *.
  - exact Hp.
  - rewrite (Hh e s1). exact Hp.
Qed.

Lemma keepsOrigin_detached {A : Type} (p : Promise A) :
  keepsOrigin p -> keepsOrigin (detached p).
Proof. intros Hp s. exact (Hp s). Qed.

Lemma keepsOrigin_resolve {A : Type} (a : A) : keepsOrigin (resolve a).
Proof. intros s. reflexivity. Qed.

Lemma keepsOrigin_log (line : string) : keepsOrigin (console_log line).
Proof. intros s. reflexivity. Qed.

Lemma keepsOrigin_error (line : string) (e : Js.error) :
  keepsOrigin (console_error line e).
Proof. intros s. reflexivity. Qed.

Lemma keepsOrigin_open (name : string) : keepsOrigin (caches_open name).
Proof.
  intros s. unfold caches_open. destruct (assoc name (caches s)); reflexivity.
Qed.

Lemma keepsOrigin_delete (name : string) : keepsOrigin (caches_delete name).
Proof.
  intros s. unfold caches_delete.
  destruct (assoc name (caches s)); reflexivity.
Qed.

Lemma keepsOrigin_keys : keepsOrigin caches_keys.
Proof. intros s. reflexivity. Qed.

Lemma keepsOrigin_match (u : string) : keepsOrigin (caches_match u).
Proof. intros s. reflexivity. Qed.

Lemma keepsOrigin_put (cache u : string) (r : Response) :
  keepsOrigin (cache_put cache u r).
Proof.
  intros s. unfold cache_put. destruct (assoc cache (caches s)); reflexivity.
Qed.

Lemma keepsOrigin_fetch (net : Network) (u : string) :
  keepsOrigin (fetch net u).
Proof. intros s. reflexivity. Qed.

Lemma keepsOrigin_fetchAll (net : Network) (urls : list string) :
  keepsOrigin (fetchAll net urls).
Proof. intros s. apply fetchAll_state. Qed.

Lemma keepsOrigin_addAll (net : Network) (cache : string)
    (urls : list string) :
  keepsOrigin (cache_addAll net cache urls).
Proof.
  unfold cache_addAll. apply keepsOrigin_then.
  - apply keepsOrigin_fetchAll.
  - intros entries s. destruct (assoc cache (caches s)); reflexivity.
Qed.

Lemma keepsOrigin_background (name u : string) (r : Response) :
  keepsOrigin (background_put name u r).
Proof. intros s. reflexivity. Qed.

Lemma keepsOrigin_skipWaiting : keepsOrigin skipWaiting.
Proof. intros s. reflexivity. Qed.

Lemma keepsOrigin_claim : keepsOrigin clients_claim.
Proof. intros s. reflexivity. Qed.

Lemma keepsOrigin_post (m : string) : keepsOrigin (postMessage m).
Proof. intros s. reflexivity. Qed.

Lemma keepsOrigin_all {A : Type} (ps : list (Promise A)) :
  Forall keepsOrigin ps -> keepsOrigin (Promise_all ps).
Proof.
  induction 1 as [| p ps Hp Hps IH]; cbn [Promise_all].
  - apply keepsOrigin_resolve.
  - apply keepsOrigin_then; [exact Hp |]. intros a.
    apply keepsOrigin_then; [exact IH |]. intros l.
    apply keepsOrigin_resolve.
Qed.

Ltac origin_step :=
  lazymatch goal with
  | |- keepsOrigin (then_ _ _) => apply keepsOrigin_then; [| intros ?]
  | |- keepsOrigin (catch_ _ _) => apply keepsOrigin_catch; [| intros ?]
  | |- keepsOrigin (detached _) => apply keepsOrigin_detached
  | |- keepsOrigin (resolve _) => apply keepsOrigin_resolve
  | |- keepsOrigin (console_log _) => apply keepsOrigin_log
  | |- keepsOrigin (console_error _ _) => apply keepsOrigin_error
  | |- keepsOrigin (caches_open _) => apply keepsOrigin_open
  | |- keepsOrigin (caches_delete _) => apply keepsOrigin_delete
  | |- keepsOrigin caches_keys => apply keepsOrigin_keys
  | |- keepsOrigin (caches_match _) => apply keepsOrigin_match
  | |- keepsOrigin (cache_put _ _ _) => apply keepsOrigin_put
  | |- keepsOrigin (background_put _ _ _) => apply keepsOrigin_background
  | |- keepsOrigin (fetch _ _) => apply keepsOrigin_fetch
  | |- keepsOrigin (cache_addAll _ _ _) => apply keepsOrigin_addAll
  | |- keepsOrigin skipWaiting => apply keepsOrigin_skipWaiting
  | |- keepsOrigin clients_claim => apply keepsOrigin_claim
  | |- keepsOrigin (postMessage _) => apply keepsOrigin_post
  end.

Lemma onInstall_keepsOrigin (name : string) (net : Network) :
  keepsOrigin (onInstall name net).
Proof. unfold onInstall. repeat origin_step. Qed.

Lemma onActivate_keepsOrigin (name : string) : keepsOrigin (onActivate name).
Proof.
  unfold onActivate. repeat origin_step.
  apply keepsOrigin_all. apply List.Forall_forall. intros p Hp.
  apply in_map_iff in Hp as (n & <- & _). repeat origin_step.
Qed.

Lemma dispatchFetch_keepsOrigin (name : string) (net : Network)
    (request : Request) :
  keepsOrigin (dispatchFetch name net request).
Proof.
  unfold dispatchFetch, onFetch.
  destruct (negb (String.eqb (method request) "GET"));
    [repeat origin_step |].
  destruct (JsString.includes (url request) "/webhook/");
    [repeat origin_step |].
  apply keepsOrigin_then; [apply keepsOrigin_match |].
  intros [r |];
    repeat first [ origin_step
                 | match goal with
                   | |- keepsOrigin (if ?b then _ else _) => destruct b
                   end ].
Qed.

Lemma onMessage_keepsOrigin (name : string) (m : Message) :
  keepsOrigin (onMessage name m).
Proof. unfold onMessage. destruct m; repeat origin_step. Qed.

End WorkerFrame.

(* ===================================================================== *)
(** ** Worker: a successful install, and serving offline *)
(* ===================================================================== *)

Section Offline.

Import Worker.
Import WorkerExpect.

Lemma assoc_upsert_eq {V : Type} (k : string) (v : V) (l : list (string * V)) :
  assoc k (upsert k v l) = Some v.
Proof.
  induction l as [| [k' v'] l IH]; cbn [upsert assoc].
  - rewrite String.eqb_refl. reflexivity.
  - destruct (String.eqb k k') eqn:E; cbn [assoc].
    + rewrite String.eqb_refl. reflexivity.
    + rewrite E. exact IH.
Qed.

Lemma assoc_upsert_ne {V : Type} (k k' : string) (v : V)
    (l : list (string * V)) :
  k <> k' -> assoc k (upsert k' v l) = assoc k l.
Proof.
  intros Hne. induction l as [| [k'' v''] l IH]; cbn [upsert assoc].
  - apply String.eqb_neq in Hne. rewrite Hne. reflexivity.
  - destruct (String.eqb_spec k' k'') as [<- | Hne']; cbn [assoc].
    + apply String.eqb_neq in Hne. rewrite Hne. reflexivity.
    + rewrite IH. reflexivity.
Qed.

(** Writing a batch of entries into a cache: the entry for a key of the
    batch is the batch's, when the batch gives the key one value. *)
Lemma fold_upsert_lookup {V : Type} (k : string) (v : V)
    (entries : list (string * V)) :
  (forall kv, In kv entries -> fst kv = k -> snd kv = v) ->
  forall c,
    assoc k c = Some v \/ In k (List.map fst entries) ->
    assoc k (fold_left (fun c' kv => upsert (fst kv) (snd kv) c') entries c)
    = Some v.
Proof.
  induction entries as [| [k' v'] entries IH]; intros Hval c Hin.
  - destruct Hin as [H | []]. exact H.
  - cbn [fold_left fst snd]. apply IH.
    + intros kv Hkv. apply Hval. right. exact Hkv.
    + destruct (String.eqb_spec k k') as [<- | Hne].
      * left. assert (v' = v) as ->
          by (apply (Hval (k, v')); [left |]; reflexivity).
        apply assoc_upsert_eq.
      * rewrite (assoc_upsert_ne k k' v' c Hne).
        destruct Hin as [H | [H | H]]; [left; exact H | | right; exact H].
        cbn [fst] in H. congruence.
Qed.

(** When every asset is usable, the fetches of [addAll] fulfil with one
    entry per URL, each holding what the network answered. *)
Lemma fetchAll_fulfils (net : Network) (urls : list string) :
  forall s,
    existsb (fun u => WorkerRef.unusable (net (absolute s u))) urls = false ->
    exists entries,
      fst (fetchAll net urls s) = Js.Fulfilled entries
      /\ List.map fst entries = List.map (absolute s) urls
      /\ Forall (fun kv => net (fst kv) = Js.Fulfilled (snd kv)
                           /\ okStatus (snd kv) = true) entries.
Proof.
  induction urls as [| u urls IH]; intros s Hok.
  - exists []. repeat split. constructor.
  - cbn [existsb] in Hok. apply orb_false_elim in Hok as [Hu Hrest].
    rewrite fetchAll_cons. cbv zeta. cbn [fst].
    set (s1 := set_fetched (Js.push (fetched s) (absolute s u)) s).
    destruct (IH s1 Hrest) as (entries & He & Hk & Hv).
    rewrite He. unfold WorkerRef.unusable in Hu.
    destruct (net (absolute s u)) as [resp | e] eqn:En; [| discriminate].
    apply negb_false_iff in Hu. rewrite Hu.
    exists ((absolute s u, resp) :: entries).
    split; [reflexivity |]. split.
    + cbn [List.map fst]. f_equal. exact Hk.
    + constructor; [split; assumption | exact Hv].
Qed.

Lemma onInstall_fills (name : string) (net : Network) (s : State) :
  WorkerRef.populationFails net s = false ->
  exists c,
    assoc name (caches (snd (onInstall name net s))) = Some c
    /\ (forall u, In u ASSETS_TO_CACHE ->
        exists r, net (absolute s u) = Js.Fulfilled r
                  /\ okStatus r = true
                  /\ assoc (absolute s u) c = Some r)
    /\ skippedWaiting (snd (onInstall name net s)) = true
    /\ fst (onInstall name net s) = Js.Fulfilled tt.
Proof.
  intros Hok.
  assert (exists c s',
            onInstall name net s = (Js.Fulfilled tt, s')
            /\ assoc name (caches s') = Some c
            /\ (forall u, In u ASSETS_TO_CACHE ->
                exists r, net (absolute s u) = Js.Fulfilled r
                          /\ okStatus r = true
                          /\ assoc (absolute s u) c = Some r)
            /\ skippedWaiting s' = true) as (c & s' & -> & H1 & H2 & H3).
  2: { exists c. cbn [fst snd]. auto. }
  unfold onInstall. unfold then_ at 1. cbn [console_log].
  set (s1 := set_console _ s). unfold catch_, then_ at 1.
  assert (exists s2 c0, caches_open name s1 = (Js.Fulfilled name, s2)
          /\ origin s2 = origin s
          /\ assoc name (caches s2) = Some c0) as (s2 & c0 & -> & Ho & Hc0).
  { unfold caches_open. destruct (assoc name (caches s1)) as [c0 |] eqn:E.
    - exists s1, c0. repeat split. exact E.
    - eexists. exists []. split; [reflexivity |]. split; [reflexivity |].
      cbn [caches set_caches]. unfold Js.push. clear -E.
      induction (caches s1) as [| [k v] l IH]; cbn [app assoc] in *.
      + rewrite String.eqb_refl. reflexivity.
      + destruct (String.eqb name k); [discriminate | exact (IH E)]. }
  unfold then_ at 1, then_ at 1. cbn [console_log].
  set (s3 := set_console _ s2). unfold cache_addAll, then_ at 1.
  assert (forall u, absolute s3 u = absolute s u) as Habs.
  { intros u. apply absolute_origin. subst s3. cbn. exact Ho. }
  assert (existsb (fun u => WorkerRef.unusable (net (absolute s3 u)))
            ASSETS_TO_CACHE = false) as Hok3.
  { unfold WorkerRef.populationFails in Hok. rewrite <- Hok.
    apply existsb_pointwise. intros u. rewrite Habs. reflexivity. }
  destruct (fetchAll_fulfils net ASSETS_TO_CACHE s3 Hok3)
    as (entries & He & Hk & Hv).
  pose proof (fetchAll_state net ASSETS_TO_CACHE s3) as (_ & Hc4 & _).
  destruct (fetchAll net ASSETS_TO_CACHE s3) as [r s4].
  cbn [fst snd] in He, Hc4. subst r.
  assert (assoc name (caches s4) = Some c0) as Hc0'.
  { rewrite Hc4. subst s3. cbn [caches set_console]. exact Hc0. }
  rewrite Hc0'. unfold then_. cbn [console_log skipWaiting].
  eexists. eexists. split; [reflexivity |].
  cbn [caches skippedWaiting set_console set_caches set_skippedWaiting].
  split; [apply assoc_upsert_eq |]. split; [| reflexivity].
  intros u Hu.
  assert (In (absolute s u) (List.map fst entries)) as Hin.
  { rewrite Hk. apply in_map_iff. exists u. split; [apply Habs | exact Hu]. }
  apply in_map_iff in Hin as ([k r] & Hkey & Hkv). cbn [fst] in Hkey.
  subst k. rewrite Forall_forall in Hv.
  destruct (Hv _ (proj2 (list_elem_of_In _ _) Hkv)) as [Hnet Hst].
  cbn [fst snd] in Hnet, Hst.
  exists r. split; [exact Hnet |]. split; [exact Hst |].
  apply fold_upsert_lookup.
  - intros [k' r'] Hkv' Hk'. cbn [fst snd] in *. subst k'.
    destruct (Hv _ (proj2 (list_elem_of_In _ _) Hkv')) as [Hnet' _].
    cbn [fst snd] in Hnet'. congruence.
  - right. apply in_map_iff. exists (absolute s u, r). split;
      [reflexivity | exact Hkv].
Qed.

(** X15: when every asset of the manifest can be fetched with a status
    from 200 to 299, the install fills the current generation: for each
    of the seven assets the cache holds, under the asset's absolute URL,
    the response the network gave; [skipWaiting] is called and the
    promise given to [waitUntil] is fulfilled. *)
Theorem onInstall_success (name : string) (net : Network) (s : State) :
  WorkerRef.populationFails net s = false ->
  exists c,
    assoc name (caches (snd (onInstall name net s))) = Some c
    /\ (forall u, In u ASSETS_TO_CACHE ->
        exists r, net (absolute s u) = Js.Fulfilled r
                  /\ okStatus r = true
                  /\ assoc (absolute s u) c = Some r)
    /\ skippedWaiting (snd (onInstall name net s)) = true
    /\ fst (onInstall name net s) = Js.Fulfilled tt.
Proof. exact (onInstall_fills name net s). Qed.

Lemma onInstall_success_witness :
  skippedWaiting
    (snd (onInstall CACHE_NAME WorkerRef.online (WorkerRef.started [])))
  = true.
Proof.
  destruct (onInstall_success CACHE_NAME WorkerRef.online
              (WorkerRef.started []) eq_refl) as (c & _ & _ & H & _).
  exact H.
Defined.

Lemma filter_single {V : Type} (k : string) (c : V) (l : list (string * V)) :
  List.NoDup (List.map fst l) -> assoc k l = Some c ->
  List.filter (fun kv => String.eqb (fst kv) k) l = [(k, c)].
Proof.
  induction l as [| [k' v] l IH]; [discriminate |].
  cbn [List.map fst assoc List.filter]. intros Hnd Hc.
  apply List.NoDup_cons_iff in Hnd as [Hnotin Hnd].
  rewrite (String.eqb_sym k' k).
  destruct (String.eqb_spec k k') as [<- | Hne].
  - inversion Hc. subst. f_equal.
    clear -Hnotin. induction l as [| [k2 v2] l IHl]; [reflexivity |].
    cbn [List.filter fst]. cbn [List.map fst In] in Hnotin.
    destruct (String.eqb_spec k2 k) as [-> | _]; [tauto |].
    apply IHl. tauto.
  - apply IH; assumption.
Qed.

Lemma withoutFragment_idempotent (u : string) :
  withoutFragment (withoutFragment u) = withoutFragment u.
Proof.
  induction u as [| c u IH]; [reflexivity |].
  cbn [withoutFragment]. destruct (Ascii.eqb c "#") eqn:E; [reflexivity |].
  cbn [withoutFragment]. rewrite E, IH. reflexivity.
Qed.

Lemma prefix_slash_withoutFragment (u : string) :
  String.prefix "/" (withoutFragment u) = String.prefix "/" u.
Proof.
  destruct u as [| c u]; [reflexivity |].
  cbn [withoutFragment]. destruct (Ascii.eqb_spec c "#") as [-> | Hne].
  - cbn [String.prefix]. destruct (ascii_dec "/" "#"); [discriminate |].
    reflexivity.
  - cbn [String.prefix]. destruct (ascii_dec "/" c); [| reflexivity].
    rewrite !prefix_empty. reflexivity.
Qed.

(** An absolute URL is not resolved a second time. *)
Lemma absolute_idempotent (s : State) (u : string) :
  String.prefix "/" (origin s) = false ->
  absolute s (absolute s u) = absolute s u.
Proof.
  intros Ho. unfold absolute. rewrite prefix_slash_withoutFragment.
  destruct (String.prefix "/" u) eqn:Eu.
  - destruct (origin s) as [| c o].
    + change ("" ++ u) with u. rewrite Eu.
      change ("" ++ withoutFragment u) with (withoutFragment u).
      apply withoutFragment_idempotent.
    + assert (String.prefix "/" (String c o ++ u) = false) as ->.
      { rewrite append_cons. cbn [String.prefix] in Ho |- *.
        destruct (ascii_dec "/" c); [| reflexivity].
        rewrite prefix_empty in Ho. discriminate. }
      apply withoutFragment_idempotent.
  - rewrite Eu. apply withoutFragment_idempotent.
Qed.

(** X16: offline after install.  Once an install with every asset
    reachable is followed by activation, a GET for any asset of the
    manifest is answered with the response fetched during the install,
    whatever the network does by then, and without a network request. *)
Theorem manifest_served_offline
    (name : string) (net net' : Network) (s : State) (u dest : string) :
  List.NoDup (WorkerRef.names s) ->
  WorkerRef.populationFails net s = false ->
  In u ASSETS_TO_CACHE ->
  String.prefix "/" (origin s) = false ->
  JsString.includes (absolute s u) "/webhook/" = false ->
  let s1 := snd (onInstall name net s) in
  let s2 := snd (onActivate name s1) in
  let request := {| method := "GET"; url := absolute s u;
                    destination := dest |} in
  exists r,
    net (absolute s u) = Js.Fulfilled r
    /\ fst (dispatchFetch name net' request s2) = Js.Fulfilled (Some r)
    /\ fetched (snd (dispatchFetch name net' request s2)) = fetched s2.
Proof.
  intros Hnd Hok Hu Ho Hw s1 s2 request.
  destruct (onInstall_fills name net s Hok) as (c & Hc & Hassets & _).
  destruct (Hassets u Hu) as (r & Hnet & _ & Hr).
  exists r. split; [exact Hnet |].
  assert (List.NoDup (WorkerRef.names s1)) as Hnd1.
  { unfold s1. rewrite onInstall_names. apply caches_open_names, Hnd. }
  assert (caches s2 = [(name, c)]) as Hc2.
  { unfold s2. destruct (onActivate_caches name s1) as (_ & -> & _).
    apply filter_single; [exact Hnd1 | exact Hc]. }
  assert (origin s2 = origin s) as Ho2.
  { unfold s2. rewrite onActivate_keepsOrigin. unfold s1.
    apply onInstall_keepsOrigin. }
  assert (matchAll (absolute s2 (url request)) (caches s2) = Some r) as Hm.
  { rewrite Hc2. cbn [url request matchAll].
    rewrite (absolute_origin s s2 _ Ho2), (absolute_idempotent s u Ho), Hr.
    reflexivity. }
  rewrite (dispatchFetch_cached name net' request s2 r eq_refl Hw Hm).
  split; reflexivity.
Qed.

Lemma manifest_served_offline_witness :
  let s2 := snd (onActivate CACHE_NAME
                   (snd (onInstall CACHE_NAME WorkerRef.online
                           (WorkerRef.started WorkerRef.twoGenerations)))) in
  exists r,
    WorkerRef.online "https://atlas.example/index.html" = Js.Fulfilled r
    /\ fst (dispatchFetch CACHE_NAME Expect.offline
              (navigate "https://atlas.example/index.html") s2)
       = Js.Fulfilled (Some r)
    /\ fetched (snd (dispatchFetch CACHE_NAME Expect.offline
                       (navigate "https://atlas.example/index.html") s2))
       = fetched s2.
Proof.
  apply (manifest_served_offline CACHE_NAME WorkerRef.online Expect.offline
           (WorkerRef.started WorkerRef.twoGenerations)
           "/index.html" "document").
  - repeat constructor; cbn; intros H;
      repeat (destruct H as [H | H]; [discriminate H |]); exact H.
  - reflexivity.
  - right. left. reflexivity.
  - reflexivity.
  - reflexivity.
Defined.

End Offline.

(* ===================================================================== *)
(** ** Worker: requests that are not in the cache *)
(* ===================================================================== *)

Section Miss.

Import Worker.
Import WorkerExpect.

Lemma caches_open_run (name : string) (s : State) :
  caches_open name s = (Js.Fulfilled name, snd (caches_open name s)).
Proof.
  unfold caches_open. destruct (assoc name (caches s)); reflexivity.
Qed.

(** The listener on a GET outside the webhook path that no cache holds,
    written out by what the network answers. *)
Lemma dispatchFetch_miss
    (name : string) (net : Network) (request : Request) (s : State) :
  method request = "GET" ->
  JsString.includes (url request) "/webhook/" = false ->
  matchAll (absolute s (url request)) (caches s) = None ->
  dispatchFetch name net request s
  = match net (absolute s (url request)) with
    | Js.Fulfilled r =>
        (Js.Fulfilled (Some r),
         if status r =? 200 then
           set_pending
             (Js.push (pending (asking request s)) (writeOf name request r))
             (asking request s)
         else asking request s)
    | Js.Rejected e =>
        (Js.Fulfilled
           (if String.eqb (destination request) "document"
            then matchAll (absolute s "/index.html") (caches s)
            else None),
         set_console
           (Js.push (console (asking request s))
                    ("[SW] Fetch failed: " ++ Js.message e))
           (asking request s))
    end.
Proof.
  intros Hm Hw Hmiss. unfold dispatchFetch, onFetch.
  rewrite Hm, Hw, String.eqb_refl. cbn [negb]. cbv iota.
  unfold then_ at 1. unfold caches_match at 1. rewrite Hmiss.
  unfold then_ at 1. cbn [console_log].
  unfold catch_, then_ at 1, fetch. cbv zeta.
  change (absolute (set_console _ s) (url request))
    with (absolute s (url request)).
  destruct (net (absolute s (url request))) as [r | e].
  - unfold then_ at 1. destruct (status r =? 200); reflexivity.
  - unfold then_, console_error. cbn [console_log].
    destruct (String.eqb (destination request) "document"); reflexivity.
Qed.

(** A started write, completed. *)
Lemma complete_writeOf (name : string) (request : Request) (r : Response)
    (s : State) :
  complete (writeOf name request r) s = stored name request r s.
Proof.
  unfold complete, stored, writeOf, then_. cbn [write_cache write_url
    write_response]. rewrite (caches_open_run name). reflexivity.
Qed.

Lemma matchAll_app_empty (key name : string) (cs : CacheStorage) :
  matchAll key (cs ++ [(name, [])]) = matchAll key cs.
Proof.
  induction cs as [| [n c] cs IH]; [reflexivity |].
  cbn [app matchAll]. destruct (assoc key c); [reflexivity | exact IH].
Qed.

Lemma assoc_app_new {V : Type} (name : string) (v : V)
    (l : list (string * V)) :
  assoc name l = None -> assoc name (l ++ [(name, v)]) = Some v.
Proof.
  induction l as [| [k w] l IH]; cbn [app assoc].
  - rewrite String.eqb_refl. reflexivity.
  - destruct (String.eqb name k); [discriminate | exact IH].
Qed.

(** Writing a response into a generation makes it the match for its key,
    when no generation matched before. *)
Lemma matchAll_upsert (key name : string) (r : Response) (c : Cache)
    (cs : CacheStorage) :
  matchAll key cs = None -> assoc name cs = Some c ->
  matchAll key (upsert name (upsert key r c) cs) = Some r.
Proof.
  induction cs as [| [n c'] cs IH]; [discriminate |].
  cbn [matchAll assoc upsert]. intros Hmiss Hc.
  destruct (assoc key c') eqn:Ec'; [discriminate |].
  destruct (String.eqb name n).
  - inversion Hc. subst. cbn [matchAll]. rewrite assoc_upsert_eq.
    reflexivity.
  - cbn [matchAll]. rewrite Ec'. apply IH; assumption.
Qed.

(** After the write the request is in the cache. *)
Lemma stored_matches (name : string) (request : Request) (r : Response)
    (s : State) :
  matchAll (absolute s (url request)) (caches s) = None ->
  matchAll (absolute s (url request)) (caches (stored name request r s))
  = Some r
  /\ exists c, assoc name (caches (stored name request r s)) = Some c
               /\ assoc (absolute s (url request)) c = Some r.
Proof.
  intros Hmiss. unfold stored, caches_open.
  destruct (assoc name (caches s)) as [c |] eqn:E; cbn [snd].
  - unfold cache_put. rewrite E. cbn [snd caches set_caches].
    split; [apply matchAll_upsert; assumption |].
    eexists. split; [apply assoc_upsert_eq | apply assoc_upsert_eq].
  - unfold cache_put. cbn [caches set_caches].
    unfold Js.push. rewrite (assoc_app_new name [] (caches s) E).
    cbn [snd caches set_caches].
    change (absolute (set_caches _ s) (url request))
      with (absolute s (url request)).
    split.
    + apply matchAll_upsert;
        [rewrite matchAll_app_empty; exact Hmiss | apply assoc_app_new, E].
    + eexists. split; [apply assoc_upsert_eq | apply assoc_upsert_eq].
Qed.

Lemma cache_put_fetched (cache u : string) (r : Response) (s : State) :
  fetched (snd (cache_put cache u r s)) = fetched s.
Proof.
  unfold cache_put. destruct (assoc cache (caches s)); reflexivity.
Qed.

Lemma caches_open_fetched (name : string) (s : State) :
  fetched (snd (caches_open name s)) = fetched s.
Proof.
  unfold caches_open. destruct (assoc name (caches s)); reflexivity.
Qed.

Lemma cache_put_pending (cache u : string) (r : Response) (s : State) :
  pending (snd (cache_put cache u r s)) = pending s.
Proof.
  unfold cache_put. destruct (assoc cache (caches s)); reflexivity.
Qed.

Lemma caches_open_pending (name : string) (s : State) :
  pending (snd (caches_open name s)) = pending s.
Proof.
  unfold caches_open. destruct (assoc name (caches s)); reflexivity.
Qed.

(** X17: a GET outside the webhook path that no cache holds (its fragment
    left aside) goes to the network once.  Answered with status 200, the
    response is handed to the page and a write to the current generation
    is started, which the listener does not wait for: the caches are as
    before when the response is returned, and the same request arriving
    before the write has completed goes to the network again.  Once the
    write has completed, the same request is answered from the cache,
    with the same response, whatever the network does and without a
    further network request. *)
Theorem fetch_then_cached
    (name : string) (net net' : Network) (request : Request) (s : State)
    (r : Response) :
  method request = "GET" ->
  JsString.includes (url request) "/webhook/" = false ->
  matchAll (absolute s (url request)) (caches s) = None ->
  net (absolute s (url request)) = Js.Fulfilled r ->
  status r = 200 ->
  pending s = [] ->
  let run := dispatchFetch name net request s in
  let s1 := settle (snd run) in
  fst run = Js.Fulfilled (Some r)
  /\ fetched (snd run) = Js.push (fetched s) (absolute s (url request))
  /\ caches (snd run) = caches s
  /\ pending (snd run) = [writeOf name request r]
  /\ fetched (snd (dispatchFetch name net' request (snd run)))
     = Js.push (fetched (snd run)) (absolute s (url request))
  /\ (exists c, assoc name (caches s1) = Some c
                /\ assoc (absolute s (url request)) c = Some r)
  /\ pending s1 = []
  /\ fst (dispatchFetch name net' request s1) = Js.Fulfilled (Some r)
  /\ fetched (snd (dispatchFetch name net' request s1)) = fetched s1.
Proof.
  intros Hm Hw Hmiss Hnet Hst Hpend run s1. subst s1 run.
  rewrite (dispatchFetch_miss name net request s Hm Hw Hmiss), Hnet, Hst.
  change (200 =? 200) with true. cbv iota. cbn [fst snd].
  assert (pending (asking request s) = []) as Hpa by exact Hpend.
  rewrite Hpa. change (Js.push [] (writeOf name request r))
    with [writeOf name request r].
  set (s0 := set_pending [writeOf name request r] (asking request s)).
  assert (settle s0
          = stored name request r (set_pending [] s0)) as Hsettle.
  { unfold settle. cbn [pending s0 set_pending fold_left].
    apply complete_writeOf. }
  set (b := set_pending [] s0) in *.
  assert (matchAll (absolute b (url request)) (caches b) = None) as Hmiss'
    by exact Hmiss.
  destruct (stored_matches name request r b Hmiss') as (Hhit & Hc).
  change (absolute b (url request)) with (absolute s (url request))
    in Hhit, Hc.
  assert (origin (stored name request r b) = origin s) as Ho.
  { unfold stored. rewrite keepsOrigin_put, keepsOrigin_open. reflexivity. }
  assert (matchAll (absolute s0 (url request)) (caches s0) = None) as Hmiss0
    by exact Hmiss.
  split; [reflexivity |]. split; [reflexivity |]. split; [reflexivity |].
  split; [reflexivity |]. split.
  { rewrite (dispatchFetch_miss name net' request s0 Hm Hw Hmiss0).
    change (absolute s0 (url request)) with (absolute s (url request)).
    destruct (net' (absolute s (url request))) as [r' | e'];
      [destruct (status r' =? 200) |]; reflexivity. }
  rewrite Hsettle. split; [exact Hc |]. split.
  { unfold stored. rewrite cache_put_pending, caches_open_pending.
    reflexivity. }
  rewrite (dispatchFetch_cached name net' request _ r Hm Hw).
  - split; reflexivity.
  - rewrite (absolute_origin s _ _ Ho). exact Hhit.
Qed.

Lemma fetch_then_cached_witness :
  let request := WorkerRef.get "https://atlas.example/app.js#main" in
  let s := WorkerRef.started WorkerRef.twoGenerations in
  let s1 := settle (snd (dispatchFetch "atlas-v2" WorkerRef.online
                           request s)) in
  fst (dispatchFetch "atlas-v2" Expect.offline request s1)
  = Js.Fulfilled
      (Some {| status := 200;
               body := "content of https://atlas.example/app.js" |})
  /\ fetched (snd (dispatchFetch "atlas-v2" Expect.offline request s1))
     = fetched s1.
Proof.
  intros request s s1.
  pose proof (fetch_then_cached "atlas-v2" WorkerRef.online Expect.offline
                request s
                {| status := 200;
                   body := "content of https://atlas.example/app.js" |}
                eq_refl eq_refl eq_refl eq_refl eq_refl eq_refl)
    as (_ & _ & _ & _ & _ & _ & _ & Ha & Hb).
  split; [exact Ha | exact Hb].
Defined.

(** A request that differs from a cached URL by its fragment only is a
    hit: it is answered from the cache and the network is not asked. *)
Example fragment_is_ignored :
  let run := dispatchFetch CACHE_NAME Expect.offline
               (WorkerRef.get "https://atlas.example/index.html#top")
               (WorkerRef.started WorkerRef.twoGenerations) in
  fst run = Js.Fulfilled (Some WorkerRef.cachedPage)
  /\ fetched (snd run) = [].
Proof. cbv zeta. split; reflexivity. Qed.

(** X18: on a GET outside the webhook path that no cache holds (its
    fragment left aside), a network response with any status other than
    200 (a 404, a 204, a 500) is handed to the page as it is; nothing is
    written to any cache and no write is started. *)
Theorem fetch_other_status_not_cached
    (name : string) (net : Network) (request : Request) (s : State)
    (r : Response) :
  method request = "GET" ->
  JsString.includes (url request) "/webhook/" = false ->
  matchAll (absolute s (url request)) (caches s) = None ->
  net (absolute s (url request)) = Js.Fulfilled r ->
  status r <> 200 ->
  let run := dispatchFetch name net request s in
  fst run = Js.Fulfilled (Some r)
  /\ caches (snd run) = caches s
  /\ pending (snd run) = pending s
  /\ (pending s = [] -> caches (settle (snd run)) = caches s)
  /\ fetched (snd run) = Js.push (fetched s) (absolute s (url request)).
Proof.
  intros Hm Hw Hmiss Hnet Hst run. subst run.
  rewrite (dispatchFetch_miss name net request s Hm Hw Hmiss), Hnet.
  apply Z.eqb_neq in Hst. rewrite Hst. cbn [fst snd].
  split; [reflexivity |]. split; [reflexivity |]. split; [reflexivity |].
  split; [| reflexivity].
  intros Hp. unfold settle.
  assert (pending (asking request s) = []) as -> by exact Hp.
  reflexivity.
Qed.

Lemma fetch_other_status_not_cached_witness :
  caches (settle (snd (dispatchFetch CACHE_NAME Expect.notFound
                         (WorkerRef.get "https://atlas.example/missing.png")
                         (WorkerRef.started WorkerRef.twoGenerations))))
  = WorkerRef.twoGenerations.
Proof.
  pose proof (fetch_other_status_not_cached CACHE_NAME Expect.notFound
                (WorkerRef.get "https://atlas.example/missing.png")
                (WorkerRef.started WorkerRef.twoGenerations)
                {| status := 404; body := "" |}
                eq_refl eq_refl eq_refl eq_refl) as H.
  cbv zeta in H. destruct H as (_ & _ & _ & H & _); [discriminate |].
  exact (H eq_refl).
Defined.

(** X19: when the network fails on a GET outside the webhook path that no
    cache holds (its fragment left aside), a request for a document is
    answered with the cached [/index.html] of the worker's origin if some
    generation holds it, and any other request gets no response; nothing
    is written to the caches, no write is started, and the failure is
    logged. *)
Theorem fetch_offline_fallback
    (name : string) (net : Network) (request : Request) (s : State)
    (e : Js.error) :
  method request = "GET" ->
  JsString.includes (url request) "/webhook/" = false ->
  matchAll (absolute s (url request)) (caches s) = None ->
  net (absolute s (url request)) = Js.Rejected e ->
  let run := dispatchFetch name net request s in
  (destination request = "document" ->
   fst run
   = Js.Fulfilled (matchAll (absolute s "/index.html") (caches s)))
  /\ (destination request <> "document" -> fst run = Js.Fulfilled None)
  /\ caches (snd run) = caches s
  /\ pending (snd run) = pending s
  /\ fetched (snd run) = Js.push (fetched s) (absolute s (url request))
  /\ List.last (console (snd run)) ""
     = "[SW] Fetch failed: " ++ Js.message e.
Proof.
  intros Hm Hw Hmiss Hnet run. subst run.
  rewrite (dispatchFetch_miss name net request s Hm Hw Hmiss), Hnet.
  cbn [fst snd]. split; [| split; [| split; [| split; [| split]]]].
  - intros ->. reflexivity.
  - intros Hd. apply String.eqb_neq in Hd. rewrite Hd. reflexivity.
  - reflexivity.
  - reflexivity.
  - reflexivity.
  - cbn [console set_console]. unfold Js.push. apply last_last.
Qed.

Lemma fetch_offline_fallback_witness :
  fst (dispatchFetch CACHE_NAME Expect.offline
         (navigate "https://atlas.example/about#team")
         (WorkerRef.started WorkerRef.twoGenerations))
  = Js.Fulfilled (Some WorkerRef.cachedPage).
Proof.
  pose proof (fetch_offline_fallback CACHE_NAME Expect.offline
                (navigate "https://atlas.example/about#team")
                (WorkerRef.started WorkerRef.twoGenerations)
                (Js.Error "Failed to fetch")
                eq_refl eq_refl eq_refl eq_refl) as (H & _).
  exact (H eq_refl).
Defined.

End Miss.

(* ===================================================================== *)
(** ** Worker: responses, messages, generations *)
(* ===================================================================== *)

Section Generations.

Import Worker.
Import WorkerExpect.

(** X20: the promise the fetch listener gives to [respondWith] never
    rejects: a request it takes on is answered from a cache, or from the
    network, or (the network failing) with the cached start page or with
    nothing. *)
Theorem respondWith_never_rejects
    (name : string) (net : Network) (request : Request) (s : State)
    (p : Promise (option Response)) :
  onFetch name net request = Some p ->
  exists answer, fst (p s) = Js.Fulfilled answer.
Proof.
  intros Hp.
  assert (method request = "GET"
          /\ JsString.includes (url request) "/webhook/" = false) as [Hm Hw].
  { unfold onFetch in Hp.
    destruct (String.eqb_spec (method request) "GET") as [-> | _];
      [| discriminate].
    destruct (JsString.includes (url request) "/webhook/");
      [discriminate | split; reflexivity]. }
  assert (p s = dispatchFetch name net request s) as ->
    by (unfold dispatchFetch; rewrite Hp; reflexivity).
  destruct (matchAll (absolute s (url request)) (caches s)) as [r |] eqn:E.
  - rewrite (dispatchFetch_cached name net request s r Hm Hw E). eauto.
  - rewrite (dispatchFetch_miss name net request s Hm Hw E).
    destruct (net (absolute s (url request))); cbn [fst]; eauto.
Qed.

Lemma respondWith_never_rejects_witness :
  exists answer,
    fst (dispatchFetch CACHE_NAME Expect.offline
           (WorkerRef.get "https://atlas.example/logo.png")
           (WorkerRef.started [])) = Js.Fulfilled answer.
Proof.
  destruct (onFetch CACHE_NAME Expect.offline
              (WorkerRef.get "https://atlas.example/logo.png"))
    as [p |] eqn:E; [| discriminate E].
  destruct (respondWith_never_rejects CACHE_NAME Expect.offline
              (WorkerRef.get "https://atlas.example/logo.png")
              (WorkerRef.started []) p E) as (answer & H).
  exists answer. unfold dispatchFetch. rewrite E. exact H.
Defined.

Lemma assoc_remove_ne {V : Type} (k n : string) (l : list (string * V)) :
  n <> k -> assoc n (remove k l) = assoc n l.
Proof.
  intros Hne. unfold remove. induction l as [| [k' v] l IH]; [reflexivity |].
  cbn [List.filter fst assoc].
  destruct (String.eqb_spec k k') as [<- | Hk]; cbn [negb assoc].
  - apply String.eqb_neq in Hne. rewrite Hne. exact IH.
  - rewrite IH. reflexivity.
Qed.

Lemma remove_not_in {V : Type} (k : string) (l : list (string * V)) :
  ~ In k (List.map fst (remove k l)).
Proof.
  unfold remove. intros Hin. apply in_map_iff in Hin as ([k' v] & Hk & Hin).
  apply filter_In in Hin as [_ Hf]. cbn [fst] in Hk, Hf. subst k'.
  rewrite String.eqb_refl in Hf. discriminate.
Qed.

(** X21: the messages a page can send.  [CLEAR_CACHE] deletes the current
    generation, leaves every other generation as it is, and acknowledges
    once on the reply port; [SKIP_WAITING] calls [skipWaiting] and touches
    neither caches nor reply port; any other message does nothing. *)
Theorem onMessage_effects (name : string) (s : State) :
  (let s' := snd (onMessage name CLEAR_CACHE s) in
   caches s' = remove name (caches s)
   /\ ~ In name (WorkerRef.names s')
   /\ (forall n, n <> name -> assoc n (caches s') = assoc n (caches s))
   /\ replies s' = Js.push (replies s) "{ success: true }"
   /\ skippedWaiting s' = skippedWaiting s)
  /\ (let s' := snd (onMessage name SKIP_WAITING s) in
      skippedWaiting s' = true
      /\ caches s' = caches s
      /\ replies s' = replies s)
  /\ onMessage name OtherMessage s = (Js.Fulfilled tt, s).
Proof.
  split; [| split; [| reflexivity]].
  - cbv zeta.
    assert (caches (snd (onMessage name CLEAR_CACHE s))
            = remove name (caches s)
            /\ replies (snd (onMessage name CLEAR_CACHE s))
               = Js.push (replies s) "{ success: true }"
            /\ skippedWaiting (snd (onMessage name CLEAR_CACHE s))
               = skippedWaiting s) as (Hc & Hr & Hw).
    { unfold onMessage, then_, detached, resolve, caches_delete.
      cbn [console_log postMessage].
      destruct (assoc name (caches s)) eqn:E; cbn; repeat split.
      symmetry. apply assoc_none_remove, E. }
    split; [exact Hc |]. split; [| split; [| split; assumption]].
    + unfold WorkerRef.names. rewrite Hc. apply remove_not_in.
    + intros n Hn. rewrite Hc. apply assoc_remove_ne, Hn.
  - cbv zeta. repeat split.
Qed.

Lemma onMessage_effects_witness :
  WorkerRef.names
    (snd (onMessage "atlas-v2" CLEAR_CACHE
            (WorkerRef.started WorkerRef.twoGenerations)))
  = ["atlas-v1"]
  /\ assoc "atlas-v1"
       (caches (snd (onMessage "atlas-v2" CLEAR_CACHE
                       (WorkerRef.started WorkerRef.twoGenerations))))
     = assoc "atlas-v1" WorkerRef.twoGenerations.
Proof.
  pose proof (onMessage_effects "atlas-v2"
                (WorkerRef.started WorkerRef.twoGenerations)) as (H & _).
  cbv zeta in H. destruct H as (Hc & _ & Hother & _).
  split.
  - unfold WorkerRef.names. rewrite Hc. reflexivity.
  - apply Hother. discriminate.
Defined.

Lemma assoc_filter_same {V : Type} (k : string) (l : list (string * V)) :
  assoc k (List.filter (fun kv => String.eqb (fst kv) k) l) = assoc k l.
Proof.
  induction l as [| [k' v] l IH]; [reflexivity |].
  cbn [List.filter fst assoc]. rewrite (String.eqb_sym k' k).
  destruct (String.eqb k k') eqn:E; cbn [assoc]; rewrite ?E; [reflexivity |].
  exact IH.
Qed.

(** X22: activation does not touch what the current generation holds, and
    it ends by claiming the open pages; its promise is fulfilled. *)
Theorem activation_keeps_current_content (current : string) (s : State) :
  assoc current (caches (snd (onActivate current s)))
  = assoc current (caches s)
  /\ (forall u r, assoc current (caches s) = None ->
      matchAll u (caches (snd (onActivate current s))) <> Some r)
  /\ claimedClients (snd (onActivate current s)) = true
  /\ fst (onActivate current s) = Js.Fulfilled tt.
Proof.
  destruct (onActivate_caches current s) as (Hf & Hc & Hk).
  rewrite Hc. split; [apply assoc_filter_same |].
  split; [| split; assumption].
  intros u r Hnone.
  assert (List.filter (fun kv => String.eqb (fst kv) current) (caches s) = [])
    as ->; [| discriminate].
  clear -Hnone. induction (caches s) as [| [k v] l IH]; [reflexivity |].
  cbn [assoc List.filter fst] in *. rewrite (String.eqb_sym k current).
  destruct (String.eqb current k); [discriminate | apply IH, Hnone].
Qed.

Lemma activation_keeps_current_content_witness :
  matchAll "https://atlas.example/index.html"
    (caches (snd (onActivate "atlas-v2"
                    (WorkerRef.started
                       [("atlas-v1",
                         [("https://atlas.example/index.html",
                           WorkerRef.cachedPage)])]))))
  <> Some WorkerRef.cachedPage.
Proof.
  apply (activation_keeps_current_content "atlas-v2"
           (WorkerRef.started
              [("atlas-v1",
                [("https://atlas.example/index.html",
                  WorkerRef.cachedPage)])])).
  reflexivity.
Defined.

(** X23: a failed population writes nothing: the storage is what opening
    the current generation leaves (the generation is created empty if it
    was missing, an existing one keeps its entries), every asset was
    requested exactly once, [skipWaiting] is not called and the failure
    is the last line logged. *)
Theorem onInstall_failure_writes_nothing
    (name : string) (net : Network) (s : State) :
  WorkerRef.populationFails net s = true ->
  let s' := snd (onInstall name net s) in
  caches s' = caches (snd (caches_open name s))
  /\ (forall c, assoc name (caches s) = Some c ->
      caches s' = caches s)
  /\ fetched s' = (fetched s ++ List.map (absolute s) ASSETS_TO_CACHE)%list
  /\ skippedWaiting s' = skippedWaiting s
  /\ exists e, List.last (console s') ""
               = "[SW] Installation failed: " ++ Js.message e.
Proof.
  intros Hbad s'. subst s'.
  destruct (onInstall_failure name net s Hbad) as (_ & Hw & Hf & e & Hl).
  assert (caches (snd (onInstall name net s))
          = caches (snd (caches_open name s))) as Hc.
  { unfold onInstall. unfold then_ at 1. cbn [console_log].
    set (s1 := set_console _ s). unfold catch_, then_ at 1.
    assert (exists s2, caches_open name s1 = (Js.Fulfilled name, s2)
            /\ origin s2 = origin s
            /\ caches s2 = caches (snd (caches_open name s)))
      as (s2 & -> & Ho & Hc2).
    { unfold caches_open. subst s1. cbn [caches set_console].
      destruct (assoc name (caches s)); eexists;
        (split; [reflexivity |]); split; reflexivity. }
    unfold then_ at 1, then_ at 1. cbn [console_log].
    set (s3 := set_console _ s2). unfold cache_addAll, then_ at 1.
    assert (existsb (fun u => WorkerRef.unusable (net (absolute s3 u)))
              ASSETS_TO_CACHE = true) as Hbad3.
    { unfold WorkerRef.populationFails in Hbad. rewrite <- Hbad.
      apply existsb_pointwise. intros u. f_equal. f_equal.
      apply absolute_origin. subst s3. cbn. exact Ho. }
    destruct (fetchAll_rejects net ASSETS_TO_CACHE s3 Hbad3) as (e' & He).
    pose proof (fetchAll_state net ASSETS_TO_CACHE s3) as (_ & Hc4 & _).
    destruct (fetchAll net ASSETS_TO_CACHE s3) as [r s4].
    cbn [fst snd] in He, Hc4. subst r.
    cbn [snd console_error console_log caches set_console].
    rewrite Hc4. subst s3. cbn [caches set_console]. exact Hc2. }
  split; [exact Hc |]. split; [| split; [exact Hf | split; [exact Hw |]]].
  - intros c Hsome. rewrite Hc. unfold caches_open. rewrite Hsome.
    reflexivity.
  - exists e. rewrite Hl.
    change (console s ++ ["[SW] Installing service worker...";
                          "[SW] Caching app shell";
                          String.append "[SW] Installation failed: "
                                        (Js.message e)])%list
      with (console s ++ ["[SW] Installing service worker...";
                          "[SW] Caching app shell"]
                      ++ [String.append "[SW] Installation failed: "
                                        (Js.message e)])%list.
    rewrite app_assoc. apply last_last.
Qed.

Lemma onInstall_failure_writes_nothing_witness :
  caches (snd (onInstall "atlas-v2" WorkerRef.noStylesheet
                 (WorkerRef.started WorkerRef.twoGenerations)))
  = WorkerRef.twoGenerations.
Proof.
  pose proof (onInstall_failure_writes_nothing "atlas-v2"
                WorkerRef.noStylesheet
                (WorkerRef.started WorkerRef.twoGenerations) eq_refl)
    as (_ & H & _).
  exact (H [] eq_refl).
Defined.

End Generations.

(* ===================================================================== *)
(** ** Byte counts within the units *)
(* ===================================================================== *)

Section Scaling.

Import App.

Lemma floorLog_small (bytes : Z) : 0 < bytes < 1024 -> floorLog 1024 bytes = 0.
Proof.
  intros H.
  destruct (floorLog_bounds 1024 bytes ltac:(lia) ltac:(lia)) as (H0 & Hlo & _).
  destruct (Z.eq_dec (floorLog 1024 bytes) 0) as [E | E]; [exact E |].
  pose proof (Z.pow_le_mono_r 1024 1 (floorLog 1024 bytes)
                ltac:(lia) ltac:(lia)) as Hp.
  rewrite Z.pow_1_r in Hp. lia.
Qed.

(** X24: a count below 1024^4 bytes is shown with one of the four units,
    the one of the largest power of 1024 not above the count, and with a
    number between 1 and 1024 rounded to hundredths; a count below 1024
    is shown exactly, in [Bytes]. *)
Theorem formatFileSize_scaled (bytes : Z) :
  0 < bytes < 1024 ^ 4 ->
  (exists i n,
     0 <= i < 4
     /\ 1024 ^ i <= bytes < 1024 ^ (i + 1)
     /\ n = (200 * bytes + 1024 ^ i) / (2 * 1024 ^ i)
     /\ 100 <= n <= 102400
     /\ nth_error sizes (Z.to_nat i) = Some (sizeUnit i)
     /\ formatFileSize bytes = hundredths n ++ " " ++ sizeUnit i)
  /\ (bytes < 1024 ->
      formatFileSize bytes = JsString.ofZ bytes ++ " Bytes").
Proof.
  intros Hb. split.
  - destruct (formatFileSize_in_range bytes Hb) as (i & Hi & Hlo & _ & Hf).
    exists i, ((200 * bytes + 1024 ^ i) / (2 * 1024 ^ i)).
    split; [exact Hi |]. split; [exact Hlo |]. split; [reflexivity |].
    assert (0 < 1024 ^ i) as Hpos by (apply Z.pow_pos_nonneg; lia).
    replace (i + 1) with (Z.succ i) in Hlo by lia.
    rewrite Z.pow_succ_r in Hlo by lia.
    split; [split |].
    + apply Z.div_le_lower_bound; nia.
    + assert ((200 * bytes + 1024 ^ i) / (2 * 1024 ^ i) < 102401);
        [| lia].
      apply Z.div_lt_upper_bound; nia.
    + split; [| exact Hf].
      assert (i = 0 \/ i = 1 \/ i = 2 \/ i = 3)
        as [-> | [-> | [-> | ->]]] by lia; reflexivity.
  - intros Hsmall. unfold formatFileSize.
    destruct (Z.eqb_spec bytes 0); [lia |].
    destruct (Z.ltb_spec bytes 0); [lia |]. cbv zeta.
    rewrite (floorLog_small bytes) by lia.
    change (1024 ^ 0) with 1. change (2 * 1) with 2.
    replace ((200 * bytes + 1) / 2) with (100 * bytes)
      by (apply Z.div_unique with (r := 1); lia).
    unfold hundredths. cbv zeta.
    replace ((100 * bytes) mod 100) with 0
      by (symmetry; rewrite Z.mul_comm; apply Z.mod_mul; lia).
    replace (100 * bytes / 100) with bytes
      by (symmetry; rewrite Z.mul_comm; apply Z.div_mul; lia).
    reflexivity.
Qed.

Lemma formatFileSize_scaled_witness :
  formatFileSize 1023 = JsString.ofZ 1023 ++ " Bytes".
Proof.
  apply (formatFileSize_scaled 1023); vm_compute; [split |]; reflexivity.
Defined.

End Scaling.
